(** * Balance-sheet extraction back-ends: a shallow embedding

    The development follows [balance_sheet_rag/src/parsers]:
    [base_parser.py] (shared pattern library, figure extraction, table
    detection, chunking) and the four format back-ends [csv_parser.py],
    [excel_parser.py], [pdf_parser.py] and [xml_parser.py].

    Python values are modelled as follows.
    - [str] is a list of Unicode code points; [len] is [length].
    - [re] patterns are terms of [regex]; matching is the backtracking,
      greedy-first search of the [re] module.
    - [decimal.Decimal] is a sign, a coefficient and an exponent.
    - an exception raised inside a [try] block is the [Raised] outcome; a
      [while] loop runs on fuel and [Timeout] means the loop was still
      running when the fuel ran out.
    - third-party libraries (pandas, pdfplumber, PyPDF2, pytesseract,
      ElementTree) are oracles gathered in a record per back-end. *)

From Stdlib Require Import String Ascii.
From Stdlib Require Import List ZArith NArith QArith Bool Arith Lia.
Import ListNotations.
Local Open Scope Z_scope.

Set Implicit Arguments.

(** ** Python strings *)

Definition char := N.
Bind Scope N_scope with char.
Definition str := list char.

(** An ASCII literal of the source as a [str]. *)
Definition txt (s : string) : str := map N_of_ascii (list_ascii_of_string s).

Definition eqb_str (a b : str) : bool :=
  if list_eq_dec N.eq_dec a b then true else false.

(** [str.isspace] for one code point: the whitespace table of CPython. *)
Definition isspace (c : char) : bool :=
  ((9 <=? c) && (c <=? 13) || (28 <=? c) && (c <=? 32) ||
   (c =? 133) || (c =? 160) || (c =? 5760) ||
   (8192 <=? c) && (c <=? 8202) || (c =? 8232) || (c =? 8233) ||
   (c =? 8239) || (c =? 8287) || (c =? 12288))%N.

(** The methods of [str] whose result comes from the Unicode character
    database: [str.lower] and [str.isdigit]. *)
Class Unicode := {
  lower : str -> str;
  isdigit : char -> bool
}.

Definition ascii_lower_char (c : char) : char :=
  if ((65 <=? c) && (c <=? 90))%N then (c + 32)%N else c.
Definition ascii_upper_char (c : char) : char :=
  if ((97 <=? c) && (c <=? 122))%N then (c - 32)%N else c.

(** The instance that agrees with Python on ASCII text; the concrete
    scenarios below are all ASCII. *)
Definition ascii_unicode : Unicode := {|
  lower := map ascii_lower_char;
  isdigit := fun c => ((48 <=? c) && (c <=? 57))%N
|}.

(** [str.upper] on the ASCII keys of [currency_patterns]. *)
Definition upper_ascii (s : str) : str := map ascii_upper_char s.

Fixpoint lstrip (s : str) : str :=
  match s with
  | c :: s' => if isspace c then lstrip s' else s
  | [] => []
  end.

Definition rstrip (s : str) : str := rev (lstrip (rev s)).

(** [s.strip()] *)
Definition strip (s : str) : str := rstrip (lstrip s).

Fixpoint startswith (s p : str) : bool :=
  match p, s with
  | [], _ => true
  | c :: p', d :: s' => (c =? d)%N && startswith s' p'
  | _ :: _, [] => false
  end.

(** [sub in s] *)
Fixpoint contains (s sub : str) : bool :=
  startswith s sub ||
  match s with
  | [] => false
  | _ :: s' => contains s' sub
  end.

(** [s.find(sub)]: lowest index of an occurrence, [-1] when there is none. *)
Fixpoint find_from (s sub : str) (i : Z) : Z :=
  if startswith s sub then i
  else match s with
       | [] => -1
       | _ :: s' => find_from s' sub (i + 1)
       end.

Definition find (s sub : str) : Z := find_from s sub 0.

Definition len {A} (s : list A) : Z := Z.of_nat (length s).

(** Index adjustment of slices and of the optional bounds of [find] and
    [rfind]: a negative bound counts from the end, and both are clamped to
    [0 .. len]. *)
Definition adjust (n i : Z) : Z :=
  if i <? 0 then Z.max 0 (i + n) else Z.min i n.

(** [s[a:b]] *)
Definition slice (s : str) (a b : Z) : str :=
  let a' := adjust (len s) a in
  let b' := adjust (len s) b in
  firstn (Z.to_nat (b' - a')) (skipn (Z.to_nat a') s).

(** Highest index [i] with [lo <= i < hi] and [s[i] = c], scanning a suffix
    of the string whose first character has index [i]. *)
Fixpoint rfind_scan (s : str) (c : char) (i lo hi best : Z) : Z :=
  match s with
  | [] => best
  | d :: s' =>
      rfind_scan s' c (i + 1) lo hi
        (if (d =? c)%N && (lo <=? i) && (i <? hi) then i else best)
  end.

(** [s.rfind(c, lo, hi)] for a one-character needle. *)
Definition rfind_char (s : str) (c : char) (lo hi : Z) : Z :=
  rfind_scan s c 0 (adjust (len s) lo) (adjust (len s) hi) (-1).

(** [s.split('\n')] and, in general, splitting at one separator character:
    always at least one piece. *)
Fixpoint split_char (sep : char) (s : str) : list str :=
  match s with
  | [] => [[]]
  | c :: s' =>
      if (c =? sep)%N then [] :: split_char sep s'
      else match split_char sep s' with
           | p :: ps => (c :: p) :: ps
           | [] => [[c]]
           end
  end.

(** [sep.join(parts)] *)
Fixpoint join (sep : str) (parts : list str) : str :=
  match parts with
  | [] => []
  | [p] => p
  | p :: ps => p ++ sep ++ join sep ps
  end.

(** [s.replace(c, '')] for a one-character [c]. *)
Definition remove_char (c : char) (s : str) : str :=
  filter (fun d => negb (d =? c)%N) s.

(** [sum(xs)] and [min(a, b)] *)
Definition list_sum_Z (xs : list Z) : Z := fold_left Z.add xs 0.
Definition Qmin_ (a b : Q) : Q := if Qle_bool a b then a else b.

(** [enumerate(xs)] *)
Fixpoint enumerate_from {A} (i : Z) (xs : list A) : list (Z * A) :=
  match xs with
  | [] => []
  | x :: xs' => (i, x) :: enumerate_from (i + 1) xs'
  end.

Definition enumerate {A} (xs : list A) : list (Z * A) := enumerate_from 0 xs.

(** ** Regular expressions of the [re] module *)

Inductive regex : Type :=
| Eps : regex
| Cls : (char -> bool) -> regex     (* one character passing a test *)
| Cat : regex -> regex -> regex
| Alt : regex -> regex -> regex     (* first alternative preferred *)
| Star : regex -> regex.            (* greedy repetition *)

Definition Lit (c : char) : regex := Cls (N.eqb c).

Fixpoint Str (s : str) : regex :=
  match s with
  | [] => Eps
  | c :: s' => Cat (Lit c) (Str s')
  end.

Definition Plus (r : regex) : regex := Cat r (Star r).
Definition Opt (r : regex) : regex := Alt r Eps.

(** [.] without DOTALL: anything but a newline. *)
Definition Dot : regex := Cls (fun c => negb (c =? 10)%N).
(** [\s] on [str]. *)
Definition Space : regex := Cls isspace.
(** [[0-9]] *)
Definition is_digit09 (c : char) : bool := ((48 <=? c) && (c <=? 57))%N.
(** [[0-9,]] *)
Definition is_digit_or_comma (c : char) : bool := is_digit09 c || (c =? 44)%N.

(** [ends r s]: the suffixes of [s] left after matching [r] at its start,
    in the order in which the backtracking matcher tries them. *)
Fixpoint ends (r : regex) (s : str) : list str :=
  match r with
  | Eps => [s]
  | Cls f => match s with
             | c :: s' => if f c then [s'] else []
             | [] => []
             end
  | Cat r1 r2 => flat_map (ends r2) (ends r1 s)
  | Alt r1 r2 => ends r1 s ++ ends r2 s
  | Star r1 =>
      (fix loop (n : nat) (s : str) {struct n} : list str :=
         match n with
         | O => [s]
         | S n' =>
             flat_map (fun s' => if (length s' <? length s)%nat
                                 then loop n' s' else [])
                      (ends r1 s) ++ [s]
         end) (length s) s
  end.

(** [bool(re.search(r, s))] *)
Fixpoint search (r : regex) (s : str) : bool :=
  match ends r s with
  | _ :: _ => true
  | [] => match s with
          | [] => false
          | _ :: s' => search r s'
          end
  end.

(** A pattern with one capturing group at its end: [pre(grp)]. *)
Record pattern := { pre : regex; grp : regex }.

(** The first match of [p] at the start of [s]: the text of group 1 and
    what follows the match. *)
Definition match_at (p : pattern) (s : str) : option (str * str) :=
  hd_error
    (flat_map (fun s1 => map (fun s2 => (firstn (length s1 - length s2) s1, s2))
                             (ends (grp p) s1))
              (ends (pre p) s)).

(** [p.findall(s)] for a pattern with one group: the group of each
    non-overlapping match, left to right. [skip] counts the characters of
    the last match still to step over. *)
Fixpoint findall_from (p : pattern) (s : str) (skip : nat) : list str :=
  match s with
  | [] => match skip, match_at p [] with
          | O, Some (g, _) => [g]
          | _, _ => []
          end
  | _ :: s' =>
      match skip with
      | S k => findall_from p s' k
      | O => match match_at p s with
             | Some (g, rest) =>
                 g :: findall_from p s' (length s - length rest - 1)
             | None => findall_from p s' 0
             end
      end
  end.

Definition findall (p : pattern) (s : str) : list str := findall_from p s 0.

(** ** [decimal.Decimal] *)

Record Decimal := { sign : bool; coefficient : N; exponent : Z }.

Fixpoint digits_value (acc : N) (s : str) : option N :=
  match s with
  | [] => Some acc
  | c :: s' => if is_digit09 c then digits_value (acc * 10 + (c - 48))%N s'
               else None
  end.

Fixpoint before_point (s : str) : str :=
  match s with
  | [] => []
  | c :: s' => if (c =? 46)%N then [] else c :: before_point s'
  end.

Fixpoint after_point (s : str) : option str :=
  match s with
  | [] => None
  | c :: s' => if (c =? 46)%N then Some s' else after_point s'
  end.

(** The numeral [digits[.digits]] or [.digits] without its sign. *)
Definition unsigned_decimal (neg : bool) (s : str) : option Decimal :=
  let ip := before_point s in
  let fp := match after_point s with Some f => f | None => [] end in
  match ip ++ fp with
  | [] => None
  | ds => match digits_value 0 ds with
          | Some n => Some {| sign := neg; coefficient := n;
                              exponent := - len fp |}
          | None => None
          end
  end.

(** [Decimal(s)] on a text of ASCII digits, points and a leading sign;
    [None] is [InvalidOperation]. The other spellings the constructor takes
    (exponents, NaN, Infinity, underscores, surrounding blanks) contain a
    character that no figure pattern captures. *)
Definition Decimal_of_str (s : str) : option Decimal :=
  match s with
  | c :: s' =>
      if (c =? 45)%N then unsigned_decimal true s'
      else if (c =? 43)%N then unsigned_decimal false s'
      else unsigned_decimal false s
  | [] => unsigned_decimal false s
  end.

Definition pow10 (e : Z) : Q :=
  if e <? 0 then 1 # Pos.pow 10 (Z.to_pos (- e))
  else inject_Z (10 ^ e).

(** The number a [Decimal] stands for. *)
Definition Decimal_value (d : Decimal) : Q :=
  ((if sign d then -1 else 1) * inject_Z (Z.of_N (coefficient d))
   * pow10 (exponent d))%Q.

(** ** Outcomes of Python code

    [Return] is a normal return, [Raised] an exception that reached the
    end of the block (its payload is [str(e)]), [Timeout] a loop that did
    not finish within the fuel. The exceptions are the failures of the
    code and of its libraries, all instances of [Exception]; the
    interpreter's own signals outside that class ([KeyboardInterrupt],
    [SystemExit]) are not represented. *)

Inductive outcome (A : Type) : Type :=
| Return : A -> outcome A
| Raised : str -> outcome A
| Timeout : outcome A.

Arguments Return {A} _.
Arguments Raised {A} _.
Arguments Timeout {A}.

Definition bind {A B} (m : outcome A) (f : A -> outcome B) : outcome B :=
  match m with
  | Return a => f a
  | Raised e => Raised e
  | Timeout => Timeout
  end.

(** What a call into a library comes back with: a value or an
    exception. *)
Inductive answer (A : Type) : Type :=
| Ok : A -> answer A
| Err : str -> answer A.

Arguments Ok {A} _.
Arguments Err {A} _.

Definition call {A} (a : answer A) : outcome A :=
  match a with
  | Ok x => Return x
  | Err e => Raised e
  end.

(** [try: body  except Exception as e: handler(e)] *)
Definition try_except {A} (body : outcome A) (handler : str -> outcome A)
  : outcome A :=
  match body with
  | Raised e => handler e
  | other => other
  end.

Declare Scope outcome_scope.
Delimit Scope outcome_scope with outcome.
Notation "x <- m ;; k" := (bind m (fun x => k))
  (at level 61, m at next level, right associativity) : outcome_scope.
Notation "m ;;; k" := (bind m (fun _ => k))
  (at level 61, right associativity) : outcome_scope.

(** A loop result on fuel as an outcome. *)
Definition of_fuel {A} (o : option A) : outcome A :=
  match o with
  | Some a => Return a
  | None => Timeout
  end.

(** ** The data model: [models/document.py] and [ParsingResult] *)

(** One entry of the list [extract_financial_figures] returns. *)
Record Figure := {
  amount : Decimal;
  currency : str;
  raw_text : str;
  context : str
}.

(** [DocumentChunk] as the back-ends build it. The [id] and [document_id]
    fields are fresh random UUIDs ([uuid4()]) and the remaining fields
    keep their defaults; neither are represented. *)
Record DocumentChunk := {
  chunk_index : Z;
  chunk_text : str;
  section_type : option str;
  financial_figures : list Figure
}.

(** ** [base_parser.py] *)

Module BaseParser.

(** [[0-9,]+(?:\.[0-9]{2})?] *)
Definition numeral : regex :=
  Cat (Plus (Cls is_digit_or_comma))
      (Opt (Cat (Lit 46) (Cat (Cls is_digit09) (Cls is_digit09)))).

(** [([0-9,]+(?:\.[0-9]{2})?)], the [generic] pattern, and the same
    numeral after a currency symbol [c] and [\s*]. *)
Definition generic_pattern : pattern := {| pre := Eps; grp := numeral |}.
Definition symbol_pattern (c : char) : pattern :=
  {| pre := Cat (Lit c) (Star Space); grp := numeral |}.

(** [self.currency_patterns], in insertion order: the dollar, euro and
    pound signs, then the bare numeral. The IGNORECASE flag has no effect
    on patterns without letters. *)
Definition currency_patterns : list (str * pattern) :=
  [ (txt "usd",     symbol_pattern 36);
    (txt "eur",     symbol_pattern 8364);
    (txt "gbp",     symbol_pattern 163);
    (txt "generic", generic_pattern) ].

(** [models/balance_sheet.py]: the category enumerations and their
    [.value]. *)
Inductive AssetCategory :=
| CASH_AND_EQUIVALENTS | ACCOUNTS_RECEIVABLE | INVENTORY | PREPAID_EXPENSES
| SHORT_TERM_INVESTMENTS | OTHER_CURRENT_ASSETS | PROPERTY_PLANT_EQUIPMENT
| INTANGIBLE_ASSETS | LONG_TERM_INVESTMENTS | GOODWILL
| OTHER_NON_CURRENT_ASSETS.

Inductive LiabilityCategory :=
| ACCOUNTS_PAYABLE | SHORT_TERM_DEBT | ACCRUED_LIABILITIES | DEFERRED_REVENUE
| OTHER_CURRENT_LIABILITIES | LONG_TERM_DEBT | DEFERRED_TAX_LIABILITIES
| PENSION_OBLIGATIONS | OTHER_NON_CURRENT_LIABILITIES.

Inductive EquityCategory :=
| SHARE_CAPITAL | RETAINED_EARNINGS | ADDITIONAL_PAID_IN_CAPITAL
| ACCUMULATED_OTHER_COMPREHENSIVE_INCOME | TREASURY_STOCK
| NON_CONTROLLING_INTERESTS.

Definition asset_value (c : AssetCategory) : str :=
  txt match c with
      | CASH_AND_EQUIVALENTS => "cash_and_equivalents"
      | ACCOUNTS_RECEIVABLE => "accounts_receivable"
      | INVENTORY => "inventory"
      | PREPAID_EXPENSES => "prepaid_expenses"
      | SHORT_TERM_INVESTMENTS => "short_term_investments"
      | OTHER_CURRENT_ASSETS => "other_current_assets"
      | PROPERTY_PLANT_EQUIPMENT => "property_plant_equipment"
      | INTANGIBLE_ASSETS => "intangible_assets"
      | LONG_TERM_INVESTMENTS => "long_term_investments"
      | GOODWILL => "goodwill"
      | OTHER_NON_CURRENT_ASSETS => "other_non_current_assets"
      end.

Definition liability_value (c : LiabilityCategory) : str :=
  txt match c with
      | ACCOUNTS_PAYABLE => "accounts_payable"
      | SHORT_TERM_DEBT => "short_term_debt"
      | ACCRUED_LIABILITIES => "accrued_liabilities"
      | DEFERRED_REVENUE => "deferred_revenue"
      | OTHER_CURRENT_LIABILITIES => "other_current_liabilities"
      | LONG_TERM_DEBT => "long_term_debt"
      | DEFERRED_TAX_LIABILITIES => "deferred_tax_liabilities"
      | PENSION_OBLIGATIONS => "pension_obligations"
      | OTHER_NON_CURRENT_LIABILITIES => "other_non_current_liabilities"
      end.

Definition equity_value (c : EquityCategory) : str :=
  txt match c with
      | SHARE_CAPITAL => "share_capital"
      | RETAINED_EARNINGS => "retained_earnings"
      | ADDITIONAL_PAID_IN_CAPITAL => "additional_paid_in_capital"
      | ACCUMULATED_OTHER_COMPREHENSIVE_INCOME =>
          "accumulated_other_comprehensive_income"
      | TREASURY_STOCK => "treasury_stock"
      | NON_CONTROLLING_INTERESTS => "non_controlling_interests"
      end.

(** Pattern sources are written with three abbreviations: [W s] for the
    literal word [s], [ws] for [\s+] and [Seq] for concatenation. *)
Fixpoint Seq (rs : list regex) : regex :=
  match rs with
  | [] => Eps
  | r :: rs' => Cat r (Seq rs')
  end.

Definition W (s : string) : regex := Str (txt s).
Definition ws : regex := Plus Space.

(** [self.asset_patterns], in insertion order. *)
Definition asset_patterns : list (AssetCategory * list regex) :=
  [ (CASH_AND_EQUIVALENTS,
      [ (* cash\s+and\s+cash\s+equivalents *)
        Seq [W "cash"; ws; W "and"; ws; W "cash"; ws; W "equivalents"];
        (* cash\s+equivalents *)
        Seq [W "cash"; ws; W "equivalents"];
        (* cash *)
        W "cash";
        (* short.term\s+investments *)
        Seq [W "short"; Dot; W "term"; ws; W "investments"];
        (* marketable\s+securities *)
        Seq [W "marketable"; ws; W "securities"] ]);
    (ACCOUNTS_RECEIVABLE,
      [ (* accounts\s+receivable *)
        Seq [W "accounts"; ws; W "receivable"];
        (* receivables *)
        W "receivables";
        (* trade\s+receivables *)
        Seq [W "trade"; ws; W "receivables"];
        (* net\s+receivables *)
        Seq [W "net"; ws; W "receivables"] ]);
    (INVENTORY,
      [ (* inventory *)
        W "inventory";
        (* inventories *)
        W "inventories";
        (* raw\s+materials *)
        Seq [W "raw"; ws; W "materials"];
        (* work\s+in\s+process *)
        Seq [W "work"; ws; W "in"; ws; W "process"];
        (* finished\s+goods *)
        Seq [W "finished"; ws; W "goods"] ]);
    (PROPERTY_PLANT_EQUIPMENT,
      [ (* property,?\s+plant\s+and\s+equipment *)
        Seq [W "property"; Opt (Lit 44); ws; W "plant"; ws; W "and"; ws;
             W "equipment"];
        (* ppe *)
        W "ppe";
        (* fixed\s+assets *)
        Seq [W "fixed"; ws; W "assets"];
        (* plant\s+and\s+equipment *)
        Seq [W "plant"; ws; W "and"; ws; W "equipment"] ]) ].

(** [self.liability_patterns] *)
Definition liability_patterns : list (LiabilityCategory * list regex) :=
  [ (ACCOUNTS_PAYABLE,
      [ (* accounts\s+payable *)
        Seq [W "accounts"; ws; W "payable"];
        (* trade\s+payables *)
        Seq [W "trade"; ws; W "payables"];
        (* payables *)
        W "payables" ]);
    (SHORT_TERM_DEBT,
      [ (* short.term\s+debt *)
        Seq [W "short"; Dot; W "term"; ws; W "debt"];
        (* current\s+portion.*debt *)
        Seq [W "current"; ws; W "portion"; Star Dot; W "debt"];
        (* notes\s+payable *)
        Seq [W "notes"; ws; W "payable"] ]);
    (LONG_TERM_DEBT,
      [ (* long.term\s+debt *)
        Seq [W "long"; Dot; W "term"; ws; W "debt"];
        (* debt.*long.term *)
        Seq [W "debt"; Star Dot; W "long"; Dot; W "term"];
        (* bonds\s+payable *)
        Seq [W "bonds"; ws; W "payable"] ]) ].

(** [self.equity_patterns] *)
Definition equity_patterns : list (EquityCategory * list regex) :=
  [ (SHARE_CAPITAL,
      [ (* common\s+stock *)
        Seq [W "common"; ws; W "stock"];
        (* share\s+capital *)
        Seq [W "share"; ws; W "capital"];
        (* capital\s+stock *)
        Seq [W "capital"; ws; W "stock"];
        (* ordinary\s+shares *)
        Seq [W "ordinary"; ws; W "shares"] ]);
    (RETAINED_EARNINGS,
      [ (* retained\s+earnings *)
        Seq [W "retained"; ws; W "earnings"];
        (* accumulated\s+earnings *)
        Seq [W "accumulated"; ws; W "earnings"];
        (* earnings\s+retained *)
        Seq [W "earnings"; ws; W "retained"] ]) ].

(** The two nested [for] loops with a [return] inside that every category
    classifier runs over one pattern table: the first category, in table
    order, one of whose patterns is found in [s]. *)
Fixpoint first_category {C} (patterns : list (C * list regex)) (s : str)
  : option C :=
  match patterns with
  | [] => None
  | (category, rs) :: patterns' =>
      if existsb (fun r => search r s) rs then Some category
      else first_category patterns' s
  end.

(** [any(term in s for term in terms)] *)
Definition any_in (s : str) (terms : list string) : bool :=
  existsb (fun term => contains s (txt term)) terms.

Section WithUnicode.
Context {U : Unicode}.

(** [_get_context(text, term, window)] *)
Definition _get_context (text term : str) (window : Z) : str :=
  let position := find (lower text) (lower term) in
  if position =? -1 then []
  else
    let start := Z.max 0 (position - window) in
    let end_ := Z.min (len text) (position + len term + window) in
    slice text start end_.

(** The body of the inner loop of [extract_financial_figures] for one
    match: the figure, or nothing when [Decimal] raises. *)
Definition figure_of_match (text currency match_ : str) : list Figure :=
  let clean_number := remove_char 44 match_ in
  match Decimal_of_str clean_number with
  | Some amount =>
      [ {| amount := amount;
           currency := if eqb_str currency (txt "generic") then txt "USD"
                       else upper_ascii currency;
           raw_text := match_;
           context := _get_context text match_ 50 |} ]
  | None => []
  end.

Definition extract_financial_figures (text : str) : list Figure :=
  flat_map (fun cp => flat_map (figure_of_match text (fst cp))
                               (findall (snd cp) text))
           currency_patterns.

(** One row and one table of [detect_table_structure]. *)
Record Row := { row_text : str; row_amounts : list Figure }.
Record DetectedTable := { rows : list Row; row_count : Z }.

Definition flush (tables : list DetectedTable) (current_table : list Row)
  : list DetectedTable :=
  if 3 <=? Z.of_nat (length current_table)
  then tables ++ [ {| rows := current_table;
                       row_count := Z.of_nat (length current_table) |} ]
  else tables.

(** The [for line in lines] loop of [detect_table_structure], with its two
    local lists. *)
Fixpoint detect_loop (lines : list str) (tables : list DetectedTable)
    (current_table : list Row) : list DetectedTable :=
  match lines with
  | [] => flush tables current_table
  | line :: lines' =>
      let amounts := extract_financial_figures line in
      if 2 <=? Z.of_nat (length amounts)
      then detect_loop lines' tables
             (current_table ++ [ {| row_text := strip line;
                                    row_amounts := amounts |} ])
      else detect_loop lines' (flush tables current_table) []
  end.

Definition detect_table_structure (text : str) : list DetectedTable :=
  detect_loop (split_char 10 text) [] [].

End WithUnicode.

(** [re.sub(r, repl, s)] for a pattern that matches no empty string. *)
Fixpoint sub_from (r : regex) (repl s : str) (skip : nat) : str :=
  match s with
  | [] => []
  | c :: s' =>
      match skip with
      | S k => sub_from r repl s' k
      | O => match ends r s with
             | rest :: _ =>
                 if (length rest <? length s)%nat
                 then repl ++ sub_from r repl s' (length s - length rest - 1)
                 else c :: sub_from r repl s' 0
             | [] => c :: sub_from r repl s' 0
             end
      end
  end.

Definition sub (r : regex) (repl s : str) : str := sub_from r repl s 0.

(** [[^\x20-\x7E\n\r\t]] *)
Definition not_printable (c : char) : bool :=
  negb (((32 <=? c) && (c <=? 126)) || (c =? 10) || (c =? 13) || (c =? 9))%N.

(** [_clean_text(text)] *)
Definition _clean_text (text : str) : str :=
  let text := sub (Plus Space) (txt " ") text in
  let text := sub (Cls not_printable) [] text in
  strip text.

(** The [while start < len(text)] loop of [_split_into_chunks]; one unit
    of fuel per iteration. *)
Fixpoint split_loop (fuel : nat) (text : str) (chunk_size overlap : Z)
    (start : Z) (chunks : list str) : option (list str) :=
  match fuel with
  | O => None
  | S fuel' =>
      if start <? len text then
        let end_ := Z.min (start + chunk_size) (len text) in
        let end_ :=
          if end_ <? len text then
            let sentence_end := rfind_char text 46 (end_ - 100) end_ in
            if sentence_end >? start then sentence_end + 1 else end_
          else end_ in
        let chunk := strip (slice text start end_) in
        let chunks := match chunk with
                      | [] => chunks
                      | _ :: _ => chunks ++ [chunk]
                      end in
        let start := end_ - overlap in
        if start >=? len text then Some chunks
        else split_loop fuel' text chunk_size overlap start chunks
      else Some chunks
  end.

(** [_split_into_chunks(text, chunk_size=500, overlap=100)] *)
Definition _split_into_chunks (fuel : nat) (text : str)
    (chunk_size overlap : Z) : option (list str) :=
  if len text <=? chunk_size then Some [text]
  else split_loop fuel text chunk_size overlap 0 [].

End BaseParser.


(** ** Results shared by the back-ends *)

(** A filesystem path. *)
Definition path := str.

(** A table of [ParsingResult.tables]: the entries every back-end writes.
    The [is_financial] and [financial_data] entries, and the keys only one
    back-end adds ([sheet_name], [page], [table_index]), are left out; a
    cell is [None] where the library yields [None]. *)
Record Table := {
  headers : list (option str);
  table_rows : list (list (option str));
  table_row_count : Z;
  column_count : Z
}.

(** One entry of the [assets], [liabilities] or [equity] list that
    [_extract_balance_sheet_from_dataframe] fills. *)
Record ItemData := {
  name : str;
  category : str;
  amounts : list Figure;
  row_data : list str
}.

Record BalanceSheetItems := {
  assets : list ItemData;
  liabilities : list ItemData;
  equity : list ItemData
}.

(** The dictionary [_analyze_csv_structure] returns. *)
Record StructureAnalysis := {
  likely_balance_sheet : bool;
  confidence_score : Q;
  structure_type : str;
  time_series : bool;
  multi_period : bool;
  identified_sections : list str
}.

(** [ParsingResult.metadata]: one dictionary shape per back-end. The
    entries [scale], [dates], [document_structure] and [file_format], the
    balance-sheet items of the PDF back-end, the spreadsheet's
    [balance_sheet_sheet] and [balance_sheet_confidence] and the XML
    back-end's [namespaces], [balance_sheet_data], [entity_info] and
    [reporting_period] are not represented. *)
Inductive Metadata :=
| CsvMetadata (encoding : str) (row_count column_count : Z)
    (columns : list str) (structure_analysis : StructureAnalysis)
    (balance_sheet_items : BalanceSheetItems)
| ExcelMetadata (sheet_count : Z) (sheet_names : list str)
    (balance_sheet_items : BalanceSheetItems)
| PdfMetadata (page_count : Z) (extraction_method : str)
| XmlMetadata (is_xbrl : bool) (document_type : str).

(** [ParsingResult] of [base_parser.py]. *)
Record ParsingResult := {
  success : bool;
  chunks : list DocumentChunk;
  tables : list Table;
  figures : list Figure;
  metadata : option Metadata;
  errors : list str;
  warnings : list str
}.

(** [ParsingResult(success=False)] *)
Definition empty_result : ParsingResult :=
  {| success := false; chunks := []; tables := []; figures := [];
     metadata := None; errors := []; warnings := [] |}.

(** [ParsingResult(success=False, errors=[msg])] *)
Definition failed (msg : str) : ParsingResult :=
  {| success := false; chunks := []; tables := []; figures := [];
     metadata := None; errors := [msg]; warnings := [] |}.

(** A statement of a [try] body that can fail in a run: [fault n] is the
    exception raised by the statement at source line [n], if any. Pandas,
    pydantic and the interpreter itself can raise at any statement, also
    where the model of the statement is a total function. *)
Definition at_line {A} (fault : Z -> option str) (n : Z) (x : outcome A)
  : outcome A :=
  match fault n with
  | Some e => Raised e
  | None => x
  end.

(** ** pandas data frames

    A frame is its column labels (as [str(col)]) and its rows; a cell is
    [None] when it is NaN and otherwise carries the [str()] of its value. *)
Record DataFrame := {
  df_columns : list str;
  df_rows : list (list (option str))
}.

(** [df.empty]: some axis has length zero. *)
Definition df_empty (df : DataFrame) : bool :=
  match df_columns df, df_rows df with
  | _ :: _, _ :: _ => false
  | _, _ => true
  end.

(** [str(cell)] *)
Definition str_of_cell (c : option str) : str :=
  match c with
  | Some s => s
  | None => txt "nan"
  end.

Definition is_nan (c : option str) : bool :=
  match c with
  | None => true
  | Some _ => false
  end.

(** Keep the elements of [xs] whose position is marked in [mask]. *)
Fixpoint keep_marked {A} (mask : list bool) (xs : list A) : list A :=
  match mask, xs with
  | true :: mask', x :: xs' => x :: keep_marked mask' xs'
  | false :: mask', _ :: xs' => keep_marked mask' xs'
  | _, _ => []
  end.

(** [df.dropna(how='all')]: drop the rows whose cells are all NaN. *)
Definition dropna_rows (df : DataFrame) : DataFrame :=
  {| df_columns := df_columns df;
     df_rows := filter (fun r => existsb (fun c => negb (is_nan c)) r)
                       (df_rows df) |}.

(** [df.dropna(axis=1, how='all')]: drop the columns whose cells are all
    NaN. *)
Definition dropna_columns (df : DataFrame) : DataFrame :=
  let mask :=
    map (fun j => existsb (fun r => negb (is_nan (nth j r None))) (df_rows df))
        (seq 0 (length (df_columns df))) in
  {| df_columns := keep_marked mask (df_columns df);
     df_rows := map (keep_marked mask) (df_rows df) |}.

(** [df.fillna('').astype(str)] *)
Definition fillna_astype_str (df : DataFrame) : DataFrame :=
  {| df_columns := df_columns df;
     df_rows := map (map (fun c => match c with
                                   | None => Some []
                                   | Some s => Some s
                                   end)) (df_rows df) |}.

(** [df[~(df == '').all(axis=1)]] *)
Definition drop_blank_rows (df : DataFrame) : DataFrame :=
  {| df_columns := df_columns df;
     df_rows := filter (fun r => negb (forallb (fun c =>
                                   match c with
                                   | Some [] => true
                                   | _ => false
                                   end) r)) (df_rows df) |}.

(** The text of the first cell of a row, [str(row.iloc[0])]. *)
Definition first_cell (row : list (option str)) : str :=
  str_of_cell (hd None row).

Local Open Scope outcome_scope.

(** [DocumentChunk(document_id=uuid4(), chunk_index=i, text=chunk_text,
    section_type=..., financial_figures=...)] for every
    [(i, chunk_text)] of [enumerate(text_chunks)]. *)
Definition make_chunks {U : Unicode} (section : option str)
    (text_chunks : list str) : list DocumentChunk :=
  map (fun ic => {| chunk_index := fst ic;
                    chunk_text := snd ic;
                    section_type := section;
                    financial_figures :=
                      BaseParser.extract_financial_figures (snd ic) |})
      (enumerate text_chunks).

(** ** Code the frame back-ends repeat

    [csv_parser.py] and [excel_parser.py] (and, for the classifier,
    [pdf_parser.py]) each carry a copy of the functions below that differs
    from the others only in its keyword lists; the lists are parameters
    here and each back-end supplies its own. *)

Module Shared.
Import BaseParser.

Section WithUnicode.
Context {U : Unicode}.

(** [_is_balance_sheet_line_item(item_name)] over the list
    [balance_sheet_terms] of the back-end. *)
Definition is_line_item (balance_sheet_terms : list string)
    (item_name : str) : bool :=
  let item_lower := lower item_name in
  any_in item_lower balance_sheet_terms.

(** [_categorize_balance_sheet_item(item_name)] ([_categorize_line_item]
    in the PDF back-end) over the three keyword lists of its general
    categorization. *)
Definition categorize_item (asset_terms liability_terms equity_terms
    : list string) (item_name : str) : str :=
  let item_lower := lower item_name in
  match first_category asset_patterns item_lower with
  | Some category => txt "asset_" ++ asset_value category
  | None =>
  match first_category liability_patterns item_lower with
  | Some category => txt "liability_" ++ liability_value category
  | None =>
  match first_category equity_patterns item_lower with
  | Some category => txt "equity_" ++ equity_value category
  | None =>
      if any_in item_lower asset_terms then txt "asset_other"
      else if any_in item_lower liability_terms then txt "liability_other"
      else if any_in item_lower equity_terms then txt "equity_other"
      else txt "unknown"
  end end end.

(** [not item_name or item_name.lower() in ['', 'nan', 'none']] *)
Definition blank_name (item_name : str) : bool :=
  match item_name with
  | [] => true
  | _ => existsb (eqb_str (lower item_name)) [ []; txt "nan"; txt "none" ]
  end.

Variable is_item : str -> bool.
Variable categorize : str -> str.

(** The body of the row loop of [_extract_balance_sheet_from_dataframe]. *)
Definition add_item (items : BalanceSheetItems) (row : list (option str))
  : BalanceSheetItems :=
  match row with
  | [] => items
  | _ :: rest =>
      let item_name := strip (first_cell row) in
      if blank_name item_name then items
      else if is_item item_name then
        let category := categorize item_name in
        let row_text := join (txt " ") (map str_of_cell rest) in
        let item_data :=
          {| name := item_name; category := category;
             amounts := extract_financial_figures row_text;
             row_data := map str_of_cell row |} in
        if startswith category (txt "asset_") then
          {| assets := assets items ++ [item_data];
             liabilities := liabilities items; equity := equity items |}
        else if startswith category (txt "liability_") then
          {| assets := assets items;
             liabilities := liabilities items ++ [item_data];
             equity := equity items |}
        else if startswith category (txt "equity_") then
          {| assets := assets items; liabilities := liabilities items;
             equity := equity items ++ [item_data] |}
        else items
      else items
  end.

(** [_extract_balance_sheet_from_dataframe(df)] *)
Definition extract_balance_sheet (df : DataFrame) : BalanceSheetItems :=
  let items := {| assets := []; liabilities := []; equity := [] |} in
  if df_empty df then items
  else fold_left add_item (df_rows df) items.

(** [_extract_table_from_dataframe(df)] *)
Definition extract_table (df : DataFrame) : option Table :=
  if df_empty df then None
  else Some {| headers := map Some (df_columns df);
               table_rows := df_rows df;
               table_row_count := len (df_rows df);
               column_count := len (df_columns df) |}.

End WithUnicode.
End Shared.

(** ** [csv_parser.py] *)

Module CSVParser.
Import BaseParser.

(** One keyword dictionary of [read_attempts]. *)
Record read_params := {
  p_encoding : str;
  p_sep : option str;
  p_error_bad_lines : option bool
}.

(** What the back-end takes from the file system, chardet and pandas. *)
Record World := {
  (** the exception raised by the statement at a line of [parse], if any *)
  fault : Z -> option str;
  (** [chardet.detect(file.read(10000))] on the opened file: the
      [encoding] entry and whether the [confidence] entry is below 0.7 *)
  chardet_detect : path -> answer (option str * bool);
  (** whether the first 1000 characters decode in a given encoding *)
  trial_decode : path -> str -> bool;
  (** [pd.read_csv(file_path, **params)] *)
  read_csv : path -> read_params -> answer DataFrame
}.

Section Backend.
Context {U : Unicode}.
Variable w : World.

(** [_detect_encoding(file_path)] *)
Definition _detect_encoding (file_path : path) : str :=
  match chardet_detect w file_path with
  | Ok (encoding, low_confidence) =>
      if match encoding with None => true | Some _ => low_confidence end
      then
        match List.find (trial_decode w file_path)
                (map txt ["utf-8"; "latin-1"; "cp1252"; "iso-8859-1"]%string)
        with
        | Some test_encoding => test_encoding
        | None => txt "utf-8"
        end
      else match encoding with Some e => e | None => txt "utf-8" end
  | Err _ => txt "utf-8"
  end.

Definition read_attempts (encoding : str) : list read_params :=
  [ {| p_encoding := encoding; p_sep := Some (txt ",");
       p_error_bad_lines := None |};
    {| p_encoding := encoding; p_sep := Some (txt ";");
       p_error_bad_lines := None |};
    {| p_encoding := encoding; p_sep := Some [9%N];
       p_error_bad_lines := None |};
    {| p_encoding := txt "latin-1"; p_sep := Some (txt ",");
       p_error_bad_lines := None |};
    {| p_encoding := encoding; p_sep := None;
       p_error_bad_lines := None |};
    {| p_encoding := encoding; p_sep := Some (txt ",");
       p_error_bad_lines := Some false |} ].

(** [_read_csv_with_fallbacks(file_path, encoding)]: the first attempt that
    reads a non-empty frame with more than one column. *)
Fixpoint first_readable (file_path : path) (attempts : list read_params)
  : option DataFrame :=
  match attempts with
  | [] => None
  | params :: attempts' =>
      match read_csv w file_path params with
      | Ok df =>
          if negb (df_empty df) && (1 <? len (df_columns df))
          then Some df
          else first_readable file_path attempts'
      | Err _ => first_readable file_path attempts'
      end
  end.

Definition _read_csv_with_fallbacks (file_path : path) (encoding : str)
  : option DataFrame :=
  first_readable file_path (read_attempts encoding).

(** [_clean_dataframe(df)] *)
Definition _clean_dataframe (df : DataFrame) : DataFrame :=
  drop_blank_rows (fillna_astype_str (dropna_columns (dropna_rows df))).

(** [_dataframe_to_text(df)] *)
Definition _dataframe_to_text (df : DataFrame) : str :=
  let header_lines :=
    match df_columns df with
    | [] => []
    | cols => [join (txt ",") cols]
    end in
  let row_lines :=
    flat_map (fun row =>
      let row_text := join (txt ",") (map str_of_cell row) in
      match strip row_text with
      | [] => []
      | _ :: _ =>
          if eqb_str row_text (repeat 44%N (length row - 1)) then []
          else [row_text]
      end) (df_rows df) in
  join [10%N] (header_lines ++ row_lines).

Definition _is_balance_sheet_line_item : str -> bool :=
  Shared.is_line_item
    [ "cash"; "receivable"; "inventory"; "asset"; "property"; "equipment";
      "investment"; "goodwill"; "intangible";
      "payable"; "debt"; "liability"; "loan"; "obligation"; "accrued";
      "equity"; "capital"; "earnings"; "retained"; "stock"; "share" ]%string.

Definition _categorize_balance_sheet_item : str -> str :=
  Shared.categorize_item
    [ "asset"; "cash"; "receivable"; "inventory"; "property"; "equipment";
      "investment" ]%string
    [ "liability"; "payable"; "debt"; "loan"; "obligation";
      "accrued" ]%string
    [ "equity"; "capital"; "earnings"; "retained"; "stock" ]%string.

Definition _extract_balance_sheet_from_dataframe
  : DataFrame -> BalanceSheetItems :=
  Shared.extract_balance_sheet _is_balance_sheet_line_item
    _categorize_balance_sheet_item.

Definition _extract_table_from_dataframe : DataFrame -> option Table :=
  Shared.extract_table.

(** [float(fig['amount']) > 1000]. A captured numeral has at most two
    decimals, so rounding to a float does not change the comparison. *)
Definition above_1000 (f : Figure) : bool :=
  negb (Qle_bool (Decimal_value (amount f)) 1000).

(** [_is_financial_dataframe(df)] *)
Definition _is_financial_dataframe (df : DataFrame) : bool :=
  if df_empty df then false
  else
    let headers := map lower (df_columns df) in
    let has_financial_headers :=
      existsb (fun header =>
        any_in header
          [ "assets"; "liabilities"; "equity"; "amount"; "balance";
            "total"; "current"; "long-term"; "cash"; "receivables";
            "inventory"; "debt"; "capital"; "earnings"; "value" ]%string)
        headers in
    let first_column_text :=
      join (txt " ")
        (map (fun row => lower (first_cell row)) (firstn 10 (df_rows df))) in
    let has_financial_items :=
      any_in first_column_text
        [ "cash"; "receivable"; "inventory"; "payable"; "debt"; "equity";
          "asset"; "liability" ]%string in
    let has_large_numbers :=
      existsb (fun j =>
        let col_text :=
          join (txt " ")
            (map (fun row => str_of_cell (nth j row None))
                 (firstn 5 (df_rows df))) in
        existsb above_1000 (extract_financial_figures col_text))
        (seq 1 (length (df_columns df) - 1)) in
    has_financial_headers || (has_financial_items && has_large_numbers).

(** The section label one row contributes in [_analyze_csv_structure]. *)
Definition section_of_row (row : list (option str)) : list str :=
  let item_name := strip (lower (first_cell row)) in
  if any_in item_name
       [ "assets"; "current assets"; "non-current assets" ]%string
  then [txt "assets"]
  else if any_in item_name
            [ "liabilities"; "current liabilities"; "long-term" ]%string
  then [txt "liabilities"]
  else if any_in item_name
            [ "equity"; "shareholders equity"; "stockholders" ]%string
  then [txt "equity"]
  else [].

(** [_analyze_csv_structure(df)]. [bs_score / 100.0] is a rational here;
    for an integer score the float comparison with [0.3] and the rational
    one agree. [list(set(sections))] is the list without repetitions, in an
    order Python leaves open. *)
Definition _analyze_csv_structure (df : DataFrame) : StructureAnalysis :=
  if df_empty df then
    {| likely_balance_sheet := false; confidence_score := 0;
       structure_type := txt "unknown"; time_series := false;
       multi_period := false; identified_sections := [] |}
  else
    let all_text := lower (_dataframe_to_text df) in
    let bs_score :=
      list_sum_Z (map (fun term => if contains all_text (txt term)
                                   then 10 else 0)
                      [ "assets"; "liabilities"; "equity";
                        "balance sheet" ]%string) in
    let date_like_columns :=
      if 2 <? len (df_columns df)
      then len (filter (fun col => existsb isdigit col) (tl (df_columns df)))
      else 0 in
    let time_series := 2 <=? date_like_columns in
    let bs_score := if time_series then bs_score + 15 else bs_score in
    let first_col_items :=
      map (fun row => lower (first_cell row)) (firstn 20 (df_rows df)) in
    let bs_items := len (filter _is_balance_sheet_line_item first_col_items) in
    let likely := 5 <=? bs_items in
    let bs_score := if likely then bs_score + 20 else bs_score in
    let sections := flat_map section_of_row (df_rows df) in
    let bs_score := if 2 <=? len sections then bs_score + 25 else bs_score in
    let structure_type :=
      if likely then txt "balance_sheet"
      else if time_series then txt "time_series_financial"
      else if _is_financial_dataframe df then txt "financial_data"
      else txt "general_data" in
    let confidence := Qmin_ (inject_Z bs_score / 100) 1 in
    {| likely_balance_sheet := negb (Qle_bool confidence (3 # 10));
       confidence_score := confidence;
       structure_type := structure_type;
       time_series := time_series;
       multi_period := time_series;
       identified_sections := nodup (list_eq_dec N.eq_dec) sections |}.

(** The body of the [try] block of [parse]; the numbers are lines of
    [csv_parser.py]. *)
Definition parse_body (fuel : nat) (file_path : path)
  : outcome ParsingResult :=
  let result := empty_result in
  encoding <- at_line (fault w) 39 (Return (_detect_encoding file_path)) ;;
  df <- at_line (fault w) 42
          (Return (_read_csv_with_fallbacks file_path encoding)) ;;
  unreadable <- at_line (fault w) 44
          (Return match df with
                  | None => true
                  | Some df => df_empty df
                  end) ;;
  match df, unreadable with
  | Some df, false =>
      df_cleaned <- at_line (fault w) 49 (Return (_clean_dataframe df)) ;;
      csv_text <- at_line (fault w) 52
                    (Return (_dataframe_to_text df_cleaned)) ;;
      text_chunks <- at_line (fault w) 55
                    (of_fuel (_split_into_chunks fuel csv_text 500 100)) ;;
      chunks <- at_line (fault w) 58
                    (Return (make_chunks (Some (txt "csv_data"))
                                         text_chunks)) ;;
      table_data <- at_line (fault w) 68
                    (Return (_extract_table_from_dataframe df_cleaned)) ;;
      all_figures <- at_line (fault w) 71
                    (Return (extract_financial_figures csv_text)) ;;
      balance_sheet_items <- at_line (fault w) 74
                    (Return (_extract_balance_sheet_from_dataframe
                               df_cleaned)) ;;
      structure_analysis <- at_line (fault w) 77
                    (Return (_analyze_csv_structure df_cleaned)) ;;
      at_line (fault w) 83
        (Return
           {| success := true;
              chunks := chunks;
              tables := match table_data with
                        | Some t => [t]
                        | None => []
                        end;
              figures := all_figures;
              metadata :=
                Some (CsvMetadata encoding
                        (len (df_rows df_cleaned))
                        (len (df_columns df_cleaned))
                        (df_columns df_cleaned)
                        structure_analysis balance_sheet_items);
              errors := errors result;
              warnings := warnings result |})
  | _, _ =>
      Return
        {| success := success result; chunks := chunks result;
           tables := tables result; figures := figures result;
           metadata := metadata result;
           errors := errors result
                     ++ [txt "Failed to read CSV file or file is empty"];
           warnings := warnings result |}
  end.

(** [parse(file_path, metadata)] *)
Definition parse (fuel : nat) (file_path : path) : outcome ParsingResult :=
  try_except (parse_body fuel file_path)
    (fun e => Return (failed (txt "CSV parsing failed: " ++ e))).

End Backend.
End CSVParser.

(** ** [excel_parser.py] *)

Module ExcelParser.
Import BaseParser.

(** What the back-end takes from pandas: the workbook as the ordered
    dictionary [pd.read_excel(file_path, sheet_name=None, engine=...)]
    returns, for either engine. *)
Record World := {
  fault : Z -> option str;
  read_excel_openpyxl : path -> answer (list (str * DataFrame));
  read_excel_xlrd : path -> answer (list (str * DataFrame))
}.

(** The dictionary [_process_sheet] returns. *)
Record SheetResult := {
  sheet_chunks : list DocumentChunk;
  sheet_tables : list Table;
  sheet_figures : list Figure;
  sheet_items : BalanceSheetItems
}.

Definition no_items : BalanceSheetItems :=
  {| assets := []; liabilities := []; equity := [] |}.

Section Backend.
Context {U : Unicode}.
Variable w : World.

(** [_clean_dataframe(df)] *)
Definition _clean_dataframe (df : DataFrame) : DataFrame :=
  fillna_astype_str (dropna_columns (dropna_rows df)).

(** [_dataframe_to_text(df)] *)
Definition _dataframe_to_text (df : DataFrame) : str :=
  let header_lines :=
    match df_columns df with
    | [] => []
    | cols => [join [9%N] cols]
    end in
  let row_lines :=
    flat_map (fun row =>
      let row_text := join [9%N] (map str_of_cell row) in
      match strip row_text with
      | [] => []
      | _ :: _ => [row_text]
      end) (df_rows df) in
  join [10%N] (header_lines ++ row_lines).

Definition _is_balance_sheet_line_item : str -> bool :=
  Shared.is_line_item
    [ "cash"; "receivable"; "inventory"; "asset"; "property"; "equipment";
      "payable"; "debt"; "liability"; "loan"; "obligation";
      "equity"; "capital"; "earnings"; "retained"; "stock"; "share" ]%string.

Definition _categorize_balance_sheet_item : str -> str :=
  Shared.categorize_item
    [ "asset"; "cash"; "receivable"; "inventory"; "property";
      "equipment" ]%string
    [ "liability"; "payable"; "debt"; "loan"; "obligation" ]%string
    [ "equity"; "capital"; "earnings"; "retained"; "stock" ]%string.

Definition _extract_balance_sheet_from_dataframe
  : DataFrame -> BalanceSheetItems :=
  Shared.extract_balance_sheet _is_balance_sheet_line_item
    _categorize_balance_sheet_item.

(** [_extract_table_from_dataframe(df, sheet_name)] *)
Definition _extract_table_from_dataframe (df : DataFrame)
    (sheet_name : str) : option Table :=
  Shared.extract_table df.

(** [_process_sheet(df, sheet_name)]; the numbers are lines of
    [excel_parser.py]. *)
Definition _process_sheet (fuel : nat) (df : DataFrame) (sheet_name : str)
  : outcome SheetResult :=
  if df_empty df then
    Return {| sheet_chunks := []; sheet_tables := []; sheet_figures := [];
              sheet_items := no_items |}
  else
    df_cleaned <- at_line (fault w) 113 (Return (_clean_dataframe df)) ;;
    sheet_text <- at_line (fault w) 116
                    (Return (_dataframe_to_text df_cleaned)) ;;
    text_chunks <- at_line (fault w) 119
                    (of_fuel (_split_into_chunks fuel sheet_text 500 100)) ;;
    chunks <- at_line (fault w) 121
                    (Return (make_chunks (Some (txt "sheet_" ++ sheet_name))
                                         text_chunks)) ;;
    table_data <- at_line (fault w) 131
                    (Return (_extract_table_from_dataframe df_cleaned
                               sheet_name)) ;;
    figures <- at_line (fault w) 136
                    (Return (extract_financial_figures sheet_text)) ;;
    items <- at_line (fault w) 139
                    (Return (_extract_balance_sheet_from_dataframe
                               df_cleaned)) ;;
    Return {| sheet_chunks := chunks;
              sheet_tables := match table_data with
                              | Some t => [t]
                              | None => []
                              end;
              sheet_figures := figures;
              sheet_items := items |}.

(** The [for sheet_name, df in all_sheets.items()] loop of [parse] with
    its four accumulators. *)
Fixpoint process_sheets (fuel : nat) (all_sheets : list (str * DataFrame))
    (acc : SheetResult) : outcome SheetResult :=
  match all_sheets with
  | [] => Return acc
  | (sheet_name, df) :: rest =>
      sheet_result <- at_line (fault w) 61
                        (_process_sheet fuel df sheet_name) ;;
      process_sheets fuel rest
        {| sheet_chunks := sheet_chunks acc ++ sheet_chunks sheet_result;
           sheet_tables := sheet_tables acc ++ sheet_tables sheet_result;
           sheet_figures := sheet_figures acc ++ sheet_figures sheet_result;
           sheet_items :=
             {| assets := assets (sheet_items acc)
                          ++ assets (sheet_items sheet_result);
                liabilities := liabilities (sheet_items acc)
                               ++ liabilities (sheet_items sheet_result);
                equity := equity (sheet_items acc)
                          ++ equity (sheet_items sheet_result) |} |}
  end.

Definition with_error (result : ParsingResult) (msg : str) : ParsingResult :=
  {| success := success result; chunks := chunks result;
     tables := tables result; figures := figures result;
     metadata := metadata result; errors := errors result ++ [msg];
     warnings := warnings result |}.

(** What follows the reading of the workbook in the [try] block of
    [parse]. *)
Definition parse_sheets (fuel : nat) (result : ParsingResult)
    (all_sheets : list (str * DataFrame)) : outcome ParsingResult :=
  match all_sheets with
  | [] => Return (with_error result (txt "No sheets found in Excel file"))
  | _ :: _ =>
      all <- process_sheets fuel all_sheets
               {| sheet_chunks := []; sheet_tables := [];
                  sheet_figures := []; sheet_items := no_items |} ;;
      (* _identify_balance_sheet(all_sheets) *)
      at_line (fault w) 76 (Return tt) ;;;
      at_line (fault w) 82
        (Return {| success := true;
                   chunks := sheet_chunks all;
                   tables := sheet_tables all;
                   figures := sheet_figures all;
                   metadata := Some (ExcelMetadata (len all_sheets)
                                       (map fst all_sheets)
                                       (sheet_items all));
                   errors := errors result;
                   warnings := warnings result |})
  end.

(** The body of the [try] block of [parse]: openpyxl first, xlrd when that
    raises, an error entry when both do. *)
Definition parse_body (fuel : nat) (file_path : path)
  : outcome ParsingResult :=
  let result := empty_result in
  match read_excel_openpyxl w file_path with
  | Ok all_sheets => parse_sheets fuel result all_sheets
  | Err _ =>
      match read_excel_xlrd w file_path with
      | Ok all_sheets => parse_sheets fuel result all_sheets
      | Err e =>
          Return (with_error result (txt "Failed to read Excel file: " ++ e))
      end
  end.

(** [parse(file_path, metadata)] *)
Definition parse (fuel : nat) (file_path : path) : outcome ParsingResult :=
  try_except (parse_body fuel file_path)
    (fun e => Return (failed (txt "Excel parsing failed: " ++ e))).

End Backend.
End ExcelParser.

(** ** [pdf_parser.py] *)

Module PDFParser.
Import BaseParser.

(** A table as [page.extract_tables()] yields it: rows of cells. *)
Definition raw_table := list (list (option str)).

(** What the back-end takes from pdfplumber, PyPDF2 and the OCR stack. The
    three text oracles stand for the [try] blocks of [_extract_with_*]:
    the joined page texts, or the exception that ended the block. *)
Record World := {
  fault : Z -> option str;
  pdfplumber_text : path -> answer str;
  pypdf2_text : path -> answer str;
  ocr_text : path -> answer str;
  (** [page.extract_tables()] for the pages read before pdfplumber
      raised, if it did *)
  pdfplumber_tables : path -> list (list raw_table);
  pdfplumber_pages : path -> answer Z;
  pypdf2_pages : path -> answer Z
}.

Section Backend.
Context {U : Unicode}.
Variable w : World.

(** [except Exception: return ""] around an extraction *)
Definition or_empty (a : answer str) : str :=
  match a with
  | Ok text => text
  | Err _ => []
  end.

Definition _extract_with_pdfplumber (file_path : path) : str :=
  or_empty (pdfplumber_text w file_path).

Definition _extract_with_pypdf2 (file_path : path) : str :=
  or_empty (pypdf2_text w file_path).

Definition _extract_with_ocr (file_path : path) : str :=
  or_empty (ocr_text w file_path).

(** [not text_content or len(text_content.strip()) < 100] *)
Definition too_short (text_content : str) : bool :=
  match text_content with
  | [] => true
  | _ :: _ => len (strip text_content) <? 100
  end.

(** The table dictionary built in [_extract_tables_from_pdf]. *)
Definition processed_table (table : raw_table) : Table :=
  {| headers := hd [] table;
     table_rows := tl table;
     table_row_count := len table - 1;
     column_count := len (hd [] table) |}.

(** [_extract_tables_from_pdf(file_path)] *)
Definition _extract_tables_from_pdf (file_path : path) : list Table :=
  flat_map (fun page_tables =>
              flat_map (fun table =>
                          if 1 <? len table then [processed_table table]
                          else [])
                       page_tables)
           (pdfplumber_tables w file_path).

(** [_get_page_count(file_path)] *)
Definition _get_page_count (file_path : path) : Z :=
  match pdfplumber_pages w file_path with
  | Ok n => n
  | Err _ => match pypdf2_pages w file_path with
             | Ok n => n
             | Err _ => 0
             end
  end.

(** [_determine_extraction_method(file_path)] *)
Definition _determine_extraction_method (file_path : path) : str :=
  txt "pdfplumber".

(** The text the fallback chain of [parse] settles on, with the warning
    the OCR path adds. *)
Definition extract_text (file_path : path) : outcome (str * list str) :=
  text_content <- at_line (fault w) 42
                    (Return (_extract_with_pdfplumber file_path)) ;;
  text_content <-
    (if too_short text_content
     then at_line (fault w) 46 (Return (_extract_with_pypdf2 file_path))
     else Return text_content) ;;
  if too_short text_content then
    text_content <- at_line (fault w) 50
                      (Return (_extract_with_ocr file_path)) ;;
    Return (text_content,
            match text_content with
            | [] => []
            | _ :: _ =>
                [txt "Text extracted using OCR - accuracy may be lower"]
            end)
  else Return (text_content, []).

(** The body of the [try] block of [parse]; the numbers are lines of
    [pdf_parser.py]. *)
Definition parse_body (fuel : nat) (file_path : path)
  : outcome ParsingResult :=
  tw <- extract_text file_path ;;
  let text_content := fst tw in
  let warnings := snd tw in
  match text_content with
  | [] =>
      Return {| success := false; chunks := []; tables := [];
                figures := []; metadata := None;
                errors := [txt "Failed to extract text from PDF"];
                warnings := warnings |}
  | _ :: _ =>
      cleaned_text <- at_line (fault w) 59
                        (Return (_clean_text text_content)) ;;
      text_chunks <- at_line (fault w) 62
                        (of_fuel (_split_into_chunks fuel cleaned_text
                                    500 100)) ;;
      chunks <- at_line (fault w) 67
                        (Return (make_chunks None text_chunks)) ;;
      tables <- at_line (fault w) 76
                        (Return (_extract_tables_from_pdf file_path)) ;;
      all_figures <- at_line (fault w) 79
                        (Return (extract_financial_figures cleaned_text)) ;;
      (* extract_balance_sheet_items, _analyze_document_structure *)
      at_line (fault w) 82 (Return tt) ;;;
      at_line (fault w) 85 (Return tt) ;;;
      at_line (fault w) 91
        (Return {| success := true;
                   chunks := chunks;
                   tables := tables;
                   figures := all_figures;
                   metadata :=
                     Some (PdfMetadata (_get_page_count file_path)
                             (_determine_extraction_method file_path));
                   errors := [];
                   warnings := warnings |})
  end.

(** [parse(file_path, metadata)] *)
Definition parse (fuel : nat) (file_path : path) : outcome ParsingResult :=
  try_except (parse_body fuel file_path)
    (fun e => Return (failed (txt "PDF parsing failed: " ++ e))).

End Backend.
End PDFParser.

(** ** [xml_parser.py] *)

Module XMLParser.
Import BaseParser.

(** An [xml.etree.ElementTree.Element]. *)
#[warnings="-register-all"]
Inductive Element : Type :=
| Node (tag : str) (attrib : list (str * str)) (text : option str)
       (children : list Element).

Definition tag_of (e : Element) : str :=
  match e with Node tag _ _ _ => tag end.
Definition attrib_of (e : Element) : list (str * str) :=
  match e with Node _ attrib _ _ => attrib end.
Definition children_of (e : Element) : list Element :=
  match e with Node _ _ _ children => children end.

(** What the back-end takes from ElementTree, and the outcome of the
    structured extraction ([_parse_xbrl] for an XBRL root,
    [_parse_regular_xml] otherwise), which walks the tree with
    ElementTree path queries: the [tables] entry of its dictionary, or the
    exception it raised. *)
Record World := {
  fault : Z -> option str;
  et_parse : path -> answer Element;
  parsed_tables : Element -> bool -> answer (list Table)
}.

Section Backend.
Context {U : Unicode}.
Variable w : World.

(** [_is_xbrl_document(root)] *)
Definition _is_xbrl_document (root : Element) : bool :=
  contains (lower (tag_of root)) (txt "xbrl")
  || existsb (fun av => contains (lower (fst av)) (txt "xbrl")
                        || contains (lower (snd av)) (txt "xbrl"))
             (attrib_of root)
  || existsb (fun child =>
                any_in (lower (tag_of child))
                  [ "context"; "unit"; "schemaref" ]%string)
             (children_of root).

(** [element_to_text(element, level)] inside [_xml_to_text] *)
Fixpoint element_to_text (element : Element) (level : nat) : list str :=
  match element with
  | Node tag attrib text children =>
      let indent := concat (repeat (txt "  ") level) in
      [indent ++ tag]
      ++ map (fun av => indent ++ txt "  @" ++ fst av ++ txt ": " ++ snd av)
             attrib
      ++ match text with
         | Some t => match strip t with
                     | [] => []
                     | _ :: _ => [indent ++ txt "  " ++ strip t]
                     end
         | None => []
         end
      ++ flat_map (fun child => element_to_text child (S level)) children
  end.

(** [_xml_to_text(root)] *)
Definition _xml_to_text (root : Element) : str :=
  join [10%N] (element_to_text root 0).

(** The body of the [try] block of [parse]; the numbers are lines of
    [xml_parser.py]. *)
Definition parse_body (fuel : nat) (file_path : path)
  : outcome ParsingResult :=
  root <- at_line (fault w) 73 (call (et_parse w file_path)) ;;
  is_xbrl <- at_line (fault w) 77 (Return (_is_xbrl_document root)) ;;
  tables <- at_line (fault w) (if is_xbrl then 80 else 82)
              (call (parsed_tables w root is_xbrl)) ;;
  xml_text <- at_line (fault w) 85 (Return (_xml_to_text root)) ;;
  text_chunks <- at_line (fault w) 88
              (of_fuel (_split_into_chunks fuel xml_text 500 100)) ;;
  chunks <- at_line (fault w) 91
              (Return (make_chunks
                         (Some (if is_xbrl then txt "xbrl_data"
                                else txt "xml_data"))
                         text_chunks)) ;;
  all_figures <- at_line (fault w) 101
              (Return (extract_financial_figures xml_text)) ;;
  at_line (fault w) 107
    (Return {| success := true;
               chunks := chunks;
               tables := tables;
               figures := all_figures;
               metadata := Some (XmlMetadata is_xbrl
                                   (if is_xbrl then txt "xbrl"
                                    else txt "xml"));
               errors := [];
               warnings := [] |}).

(** [parse(file_path, metadata)] *)
Definition parse (fuel : nat) (file_path : path) : outcome ParsingResult :=
  try_except (parse_body fuel file_path)
    (fun e => Return (failed (txt "XML/XBRL parsing failed: " ++ e))).

End Backend.
End XMLParser.

(** * The vocabulary of the properties

    Predicates, specification-side definitions and the concrete runs the
    statements below are about. *)

Import BaseParser.

(** Every character test of a pattern implies [P]. *)
Fixpoint tests_imply (P : char -> Prop) (r : regex) : Prop :=
  match r with
  | Eps => True
  | Cls f => forall c, f c = true -> P c
  | Cat r1 r2 | Alt r1 r2 => tests_imply P r1 /\ tests_imply P r2
  | Star r1 => tests_imply P r1
  end.

(** A character a figure pattern can capture: a digit, a comma, a point. *)
Definition numeral_char (c : char) : Prop :=
  is_digit09 c = true \/ c = 44%N \/ c = 46%N.

(** The figure read from the text [500], as found in [-500]. *)
Definition figure_500 : Figure :=
  {| amount := {| sign := false; coefficient := 500; exponent := 0 |};
     currency := txt "USD";
     raw_text := txt "500";
     context := txt "-500" |}.

(** Some pattern of the list is found in [s]. *)
Definition matches (rs : list regex) (s : str) : Prop :=
  existsb (fun r => search r s) rs = true.

(** No pattern of any category of the table is found in [s]. *)
Definition no_match {C} (patterns : list (C * list regex)) (s : str) : Prop :=
  Forall (fun cp => ~ matches (snd cp) s) patterns.

(** [c] is the first category of the table with a pattern found in [s]. *)
Definition first_match {C} (patterns : list (C * list regex)) (s : str)
    (c : C) : Prop :=
  exists before rs after,
    patterns = before ++ (c, rs) :: after /\
    matches rs s /\ no_match before s.

Section DetectorTerms.
Context {U : Unicode}.

(** A line with at least two recognized figures. *)
Definition qualifies (line : str) : bool :=
  2 <=? len (extract_financial_figures line).

Definition row_of (line : str) : Row :=
  {| row_text := strip line;
     row_amounts := extract_financial_figures line |}.

(** The table reported for a run of lines. *)
Definition table_of (run : list str) : DetectedTable :=
  {| rows := map row_of run; row_count := len run |}.

(** [maximal_runs lines runs]: [runs] lists, in order, the maximal
    contiguous runs of qualifying lines of [lines]. A run is never empty,
    starts at the first line or after a line that does not qualify, and
    ends at the last line or before a line that does not qualify. *)
Inductive maximal_runs : list str -> list (list str) -> Prop :=
| runs_nil : maximal_runs [] []
| runs_skip line lines runs :
    qualifies line = false ->
    maximal_runs lines runs ->
    maximal_runs (line :: lines) runs
| runs_run run rest runs :
    run <> [] ->
    Forall (fun line => qualifies line = true) run ->
    (rest = [] \/ exists line rest', rest = line :: rest'
                                     /\ qualifies line = false) ->
    maximal_runs rest runs ->
    maximal_runs (run ++ rest) (run :: runs).

End DetectorTerms.

(** A heading, three lines of two numerals each and a closing line. *)
Definition five_lines : str :=
  join [10%N] (map txt [ "Assets"; "Cash 1,000 900"; "Inventory 500 450";
                         "Total 1,500 1,350"; "See note 7" ]%string).

(** [text[i:j]] for natural [i <= j]. *)
Definition piece (text : str) (i j : nat) : str :=
  firstn (j - i) (skipn i text).

(** The end of the chunk that starts at [start]: the chunk size further,
    or just after the last full stop of the final 100 characters. *)
Definition chunk_end (text : str) (chunk_size start : Z) : Z :=
  let end_ := Z.min (start + chunk_size) (len text) in
  if end_ <? len text then
    let sentence_end := rfind_char text 46 (end_ - 100) end_ in
    if sentence_end >? start then sentence_end + 1 else end_
  else end_.

(** [if chunk: chunks.append(chunk)] *)
Definition with_chunk (chunks : list str) (chunk : str) : list str :=
  match chunk with
  | [] => chunks
  | _ :: _ => chunks ++ [chunk]
  end.

(** A character at position [p] lies in a chunk that is a slice of the
    text around that position. *)
Definition in_chunk (text : str) (chunks : list str) (p : nat) : Prop :=
  exists chunk i j,
    In chunk chunks /\ chunk = piece text i j /\ (i <= p < j)%nat.

(** Every character before [start] that is not white space lies in a
    chunk. *)
Definition covered_to (text : str) (start : nat) (chunks : list str)
  : Prop :=
  forall p c, (p < start)%nat -> nth_error text p = Some c ->
              isspace c = false -> in_chunk text chunks p.

(** A chunk of the loop: non-empty, and a slice with the white space at
    its two ends removed. *)
Definition stripped_slice (text chunk : str) : Prop :=
  chunk <> [] /\
  exists a b, (a <= b <= length text)%nat /\ chunk = strip (piece text a b).

(** The first and the last character of the text each occur in some
    chunk. *)
Definition keeps_both_ends (text : str) (chunks : list str) : Prop :=
  (forall c, hd_error text = Some c ->
             exists chunk, In chunk chunks /\ In c chunk) /\
  (forall c, hd_error (rev text) = Some c ->
             exists chunk, In chunk chunks /\ In c chunk).

(** The frame [pd.read_csv] builds from
<<
Item,2023,2022
Cash and equivalents,1000,900
Accounts payable,500,450
Total assets,1500,1350
>>
    with the numbers rendered by [str]. *)
Definition scenario_frame : DataFrame :=
  let row (a b c : string) := [Some (txt a); Some (txt b); Some (txt c)] in
  {| df_columns := map txt [ "Item"; "2023"; "2022" ]%string;
     df_rows := [ row "Cash and equivalents" "1000" "900";
                  row "Accounts payable" "500" "450";
                  row "Total assets" "1500" "1350" ]%string |}.

(** A run in which nothing fails, chardet is confident and pandas reads
    the scenario file at the first attempt. *)
Definition scenario_world : CSVParser.World :=
  {| CSVParser.fault := fun _ => None;
     CSVParser.chardet_detect := fun _ => Ok (Some (txt "ascii"), false);
     CSVParser.trial_decode := fun _ _ => true;
     CSVParser.read_csv := fun _ _ => Ok scenario_frame |}.

(** The result of [parse] on the scenario file. *)
Definition scenario_result : ParsingResult :=
  match @CSVParser.parse ascii_unicode scenario_world 0 (txt "scenario.csv")
  with
  | Return r => r
  | _ => empty_result
  end.

(** What the scenario of the specification expects of the structure
    analysis and of the extracted items. *)
Definition scenario_expectation (analysis : StructureAnalysis)
    (items : BalanceSheetItems) : Prop :=
  (3 # 10 < confidence_score analysis)%Q /\
  likely_balance_sheet analysis = true /\
  (exists item, In item (assets items) /\
                category item = txt "asset_cash_and_equivalents") /\
  (exists item, In item (liabilities items) /\
                category item = txt "liability_accounts_payable").

(** 114 characters of page text. *)
Definition page_text : str :=
  concat (repeat (txt "Total assets 1,500 ") 6).



(** A PDF whose text layer is 100 times the character U+3042. *)
Definition kana_world : PDFParser.World :=
  {| PDFParser.fault := fun _ => None;
     PDFParser.pdfplumber_text := fun _ => Ok (repeat 12354%N 100);
     PDFParser.pypdf2_text := fun _ => Ok [];
     PDFParser.ocr_text := fun _ => Ok [];
     PDFParser.pdfplumber_tables := fun _ => [];
     PDFParser.pdfplumber_pages := fun _ => Ok 1;
     PDFParser.pypdf2_pages := fun _ => Ok 1 |}.


(** A workbook with two sheets of one line item each. *)
Definition two_sheet_world : ExcelParser.World :=
  let sheet (item amount : string) :=
    {| df_columns := map txt [ "Item"; "2023" ]%string;
       df_rows := [ [Some (txt item); Some (txt amount)] ] |} in
  {| ExcelParser.fault := fun _ => None;
     ExcelParser.read_excel_openpyxl :=
       fun _ => Ok [ (txt "Assets", sheet "Cash" "1000");
                     (txt "Liabilities",
                      sheet "Accounts payable" "500") ]%string;
     ExcelParser.read_excel_xlrd :=
       fun _ => Err (txt "Excel xlsx file; not supported") |}.

(** A run of the CSV back-end in which pandas raises while the frame is
    cleaned (line 49 of [csv_parser.py]). *)
Definition failing_world : CSVParser.World :=
  {| CSVParser.fault :=
       fun n => if n =? 49 then Some (txt "Unable to allocate array")
                else None;
     CSVParser.chardet_detect := fun _ => Ok (Some (txt "ascii"), false);
     CSVParser.trial_decode := fun _ _ => true;
     CSVParser.read_csv := fun _ _ => Ok scenario_frame |}.

(** The chunks of a successful result are the single chunk, of index 0,
    that holds the whole chunked text. *)
Definition one_chunk (r : ParsingResult) : Prop :=
  exists text,
    map chunk_text (chunks r) = [text] /\ map chunk_index (chunks r) = [0].

(** The sheets of a workbook that hold at least one cell. *)
Definition nonempty_sheets (all_sheets : list (str * DataFrame))
  : list (str * DataFrame) :=
  filter (fun sheet => negb (df_empty (snd sheet))) all_sheets.

(** The workbook [parse] works on: what openpyxl read or, when it raised,
    what xlrd read. *)
Definition workbook (w : ExcelParser.World) (file_path : path)
  : option (list (str * DataFrame)) :=
  match ExcelParser.read_excel_openpyxl w file_path with
  | Ok all_sheets => Some all_sheets
  | Err _ => match ExcelParser.read_excel_xlrd w file_path with
             | Ok all_sheets => Some all_sheets
             | Err _ => None
             end
  end.

(** The failure contract of an entry point, given the body of its [try]
    block: an exception of the body comes back as a result with [success] false
    and the one error [prefix + str(e)]; no exception leaves [parse]; and
    a result with [success] false always carries an error. *)
Definition converts_failures (prefix : str)
    (body parse : outcome ParsingResult) : Prop :=
  (forall e, body = Raised e ->
     exists r, parse = Return r /\ success r = false /\
               errors r = [prefix ++ e] /\ errors r <> []) /\
  (forall e, parse <> Raised e) /\
  (forall r, parse = Return r -> success r = false -> errors r <> []).

(** A PDF whose text layer is 600 times the letter a. *)
Definition long_pdf_world : PDFParser.World :=
  {| PDFParser.fault := fun _ => None;
     PDFParser.pdfplumber_text := fun _ => Ok (repeat 97%N 600);
     PDFParser.pypdf2_text := fun _ => Ok [];
     PDFParser.ocr_text := fun _ => Ok [];
     PDFParser.pdfplumber_tables := fun _ => [];
     PDFParser.pdfplumber_pages := fun _ => Ok 1;
     PDFParser.pypdf2_pages := fun _ => Ok 1 |}.

(** A CSV file with one column: every attempt reads the same
    one-column frame. *)
Definition one_column_world : CSVParser.World :=
  {| CSVParser.fault := fun _ => None;
     CSVParser.chardet_detect := fun _ => Ok (Some (txt "ascii"), false);
     CSVParser.trial_decode := fun _ _ => true;
     CSVParser.read_csv :=
       fun _ _ => Ok {| df_columns := [txt "Item"];
                        df_rows := [[Some (txt "Cash")]] |} |}.

(** A file chardet is unsure about and that does not decode as UTF-8. *)
Definition latin_world : CSVParser.World :=
  {| CSVParser.fault := fun _ => None;
     CSVParser.chardet_detect := fun _ => Ok (Some (txt "windows-1250"), true);
     CSVParser.trial_decode :=
       fun _ encoding => negb (eqb_str encoding (txt "utf-8"));
     CSVParser.read_csv := fun _ _ => Ok scenario_frame |}.

(** Every row of the frame has one cell per column. *)
Definition rectangular (df : DataFrame) : Prop :=
  Forall (fun row => length row = length (df_columns df)) (df_rows df).

(** No cell of the frame is NaN. *)
Definition no_nan (df : DataFrame) : Prop :=
  Forall (Forall (fun cell => cell <> None)) (df_rows df).

(** Some cell of the row is not the empty string. *)
Definition has_content (row : list (option str)) : Prop :=
  exists cell, In cell row /\ cell <> Some [].

(** A frame with a blank line and a column without a header or values, as
    a spreadsheet export leaves them. *)
Definition ragged_frame : DataFrame :=
  {| df_columns := map txt [ "Item"; "Unnamed: 1"; "2023" ]%string;
     df_rows := [ [Some (txt "Cash"); None; Some (txt "1000")];
                  [None; None; None];
                  [Some (txt "Debt"); None; Some (txt "500")] ] |}.

(** A frame of one label column and one year column. *)
Definition two_column_frame : DataFrame :=
  {| df_columns := map txt [ "Item"; "2023" ]%string;
     df_rows := [ [Some (txt "Total assets"); Some (txt "1500")];
                  [Some (txt "Goodwill"); Some (txt "200")];
                  [Some (txt "Total liabilities"); Some (txt "900")] ] |}.

(** What holds of an item listed under the section with prefix [p]: its
    category starts with [p] and is the classifier's answer for its name,
    and the name passed the line-item test. *)
Definition listed_under (is_item : str -> bool) (categorize : str -> str)
    (p : string) (item : ItemData) : Prop :=
  startswith (category item) (txt p) = true /\
  category item = categorize (name item) /\
  is_item (name item) = true.

(** The three lists hold items of their section only, at most [n] in
    all. *)
Definition listed (is_item : str -> bool) (categorize : str -> str)
    (items : BalanceSheetItems) (n : nat) : Prop :=
  Forall (listed_under is_item categorize "asset_") (assets items) /\
  Forall (listed_under is_item categorize "liability_")
         (liabilities items) /\
  Forall (listed_under is_item categorize "equity_") (equity items) /\
  (length (assets items) + length (liabilities items)
   + length (equity items) <= n)%nat.

(** A table whose counts agree with its content: [row_count] is the
    number of rows, at least one, and [column_count] the number of header
    cells. *)
Definition well_counted (t : Table) : Prop :=
  table_row_count t = len (table_rows t) /\
  1 <= table_row_count t /\
  column_count t = len (headers t).

(** A one-page PDF with a text layer of 114 characters and two tables:
    one of a header and a row, one of a header alone. *)
Definition table_pdf_world : PDFParser.World :=
  {| PDFParser.fault := fun _ => None;
     PDFParser.pdfplumber_text := fun _ => Ok page_text;
     PDFParser.pypdf2_text := fun _ => Ok [];
     PDFParser.ocr_text := fun _ => Ok [];
     PDFParser.pdfplumber_tables :=
       fun _ => [ [ [ [Some (txt "Item"); Some (txt "2023")];
                      [Some (txt "Total assets"); Some (txt "1,500")] ];
                    [ [Some (txt "Notes")] ] ] ];
     PDFParser.pdfplumber_pages := fun _ => Ok 1;
     PDFParser.pypdf2_pages := fun _ => Ok 1 |}.

Definition table_pdf_result : ParsingResult :=
  match @PDFParser.parse ascii_unicode table_pdf_world 0 (txt "tables.pdf")
  with
  | Return r => r
  | _ => empty_result
  end.

(** A PDF whose text layer is the 18 characters [Total assets 1,500], read
    alike by pdfplumber and PyPDF2, on a machine without the OCR stack. *)
Definition short_pdf_world : PDFParser.World :=
  {| PDFParser.fault := fun _ => None;
     PDFParser.pdfplumber_text := fun _ => Ok (txt "Total assets 1,500");
     PDFParser.pypdf2_text := fun _ => Ok (txt "Total assets 1,500");
     PDFParser.ocr_text := fun _ => Err (txt "No module named 'fitz'");
     PDFParser.pdfplumber_tables := fun _ => [];
     PDFParser.pdfplumber_pages := fun _ => Ok 1;
     PDFParser.pypdf2_pages := fun _ => Ok 1 |}.

(** * More of the code

    ** [models/document.py]: [ProcessedDocument]

    Of the fields of a processed document the methods below read the
    chunks only. *)

Module Document.

Record ProcessedDocument := { chunks : list DocumentChunk }.

(** [get_chunks_by_section(section_type)] *)
Definition get_chunks_by_section (self : ProcessedDocument)
    (section_type : str) : list DocumentChunk :=
  filter (fun chunk =>
            match chunk with
            | {| section_type := Some s |} => eqb_str s section_type
            | _ => false
            end)
         (chunks self).

(** [get_financial_figures()] *)
Definition get_financial_figures (self : ProcessedDocument) : list Figure :=
  flat_map financial_figures (chunks self).

End Document.

(** The processed document that holds the chunks of a parsing result. *)
Definition document_of (r : ParsingResult) : Document.ProcessedDocument :=
  {| Document.chunks := chunks r |}.

(** ** [pdf_parser.py]: the structure of the document and the tables *)

Module PDFAnalysis.
Import BaseParser.

(** The keys of [section_patterns]. *)
Inductive section_kind := balance_sheet | income_statement | cash_flow.

(** [section_patterns], in insertion order. *)
Definition section_patterns : list (section_kind * list regex) :=
  [ (balance_sheet,
      [ (* balance\s+sheet *)
        Seq [W "balance"; ws; W "sheet"];
        (* statement\s+of\s+financial\s+position *)
        Seq [W "statement"; ws; W "of"; ws; W "financial"; ws; W "position"];
        (* consolidated\s+balance\s+sheet *)
        Seq [W "consolidated"; ws; W "balance"; ws; W "sheet"] ]);
    (income_statement,
      [ (* income\s+statement *)
        Seq [W "income"; ws; W "statement"];
        (* statement\s+of\s+operations *)
        Seq [W "statement"; ws; W "of"; ws; W "operations"];
        (* profit\s+and\s+loss *)
        Seq [W "profit"; ws; W "and"; ws; W "loss"] ]);
    (cash_flow,
      [ (* cash\s+flow *)
        Seq [W "cash"; ws; W "flow"];
        (* statement\s+of\s+cash\s+flows *)
        Seq [W "statement"; ws; W "of"; ws; W "cash"; ws; W "flows"] ]) ].

(** One entry of [structure['sections']]. *)
Record section_entry := {
  kind : section_kind;
  title : str;
  line_number : Z;
  start_position : Z
}.

(** The dictionary [_analyze_document_structure] returns. *)
Record DocumentStructure := {
  sections : list section_entry;
  has_balance_sheet : bool;
  has_income_statement : bool;
  has_cash_flow : bool
}.

(** [structure['sections'].append(entry)] followed by
    [structure[f'has_{section_type}'] = True] *)
Definition record_section (structure : DocumentStructure)
    (entry : section_entry) : DocumentStructure :=
  {| sections := sections structure ++ [entry];
     has_balance_sheet :=
       match kind entry with
       | balance_sheet => true
       | _ => has_balance_sheet structure
       end;
     has_income_statement :=
       match kind entry with
       | income_statement => true
       | _ => has_income_statement structure
       end;
     has_cash_flow :=
       match kind entry with
       | cash_flow => true
       | _ => has_cash_flow structure
       end |}.

Section WithUnicode.
Context {U : Unicode}.

(** The body of [for i, line in enumerate(lines)]: for every section type
    the first pattern found ends the search among its patterns. *)
Definition scan_line (text : str) (structure : DocumentStructure)
    (il : Z * str) : DocumentStructure :=
  let i := fst il in
  let line := snd il in
  let line_lower := strip (lower line) in
  fold_left
    (fun structure sp =>
       if existsb (fun pattern => search pattern line_lower) (snd sp)
       then record_section structure
              {| kind := fst sp;
                 title := strip line;
                 line_number := i;
                 start_position := find text line |}
       else structure)
    section_patterns structure.

(** [_analyze_document_structure(text)] *)
Definition _analyze_document_structure (text : str) : DocumentStructure :=
  fold_left (scan_line text) (enumerate (split_char 10 text))
    {| sections := []; has_balance_sheet := false;
       has_income_statement := false; has_cash_flow := false |}.

(** A cell that counts as true: neither [None] nor the empty text. *)
Definition truthy (cell : option str) : bool :=
  match cell with
  | Some (_ :: _) => true
  | _ => false
  end.

(** [str(cell)] for a cell of a PDF table *)
Definition cell_text (cell : option str) : str :=
  match cell with
  | Some s => s
  | None => txt "None"
  end.

(** [' '.join(str(cell) for cell in row if cell)] *)
Definition row_text_of (row : list (option str)) : str :=
  join (txt " ") (map cell_text (filter truthy row)).

(** [_is_financial_table(table)] *)
Definition _is_financial_table (table : Table) : bool :=
  match headers table, table_rows table with
  | [], _ => false
  | _, [] => false
  | _ :: _, _ :: _ =>
      let headers :=
        map (fun h => lower (cell_text h)) (filter truthy (headers table)) in
      let has_financial_headers :=
        existsb (fun header =>
          any_in header
            [ "assets"; "liabilities"; "equity"; "amount"; "balance";
              "total"; "current"; "long-term"; "cash"; "receivables";
              "inventory"; "debt"; "capital"; "earnings" ]%string)
          headers in
      let has_financial_data :=
        existsb (fun row =>
                   match extract_financial_figures (row_text_of row) with
                   | [] => false
                   | _ :: _ => true
                   end)
                (firstn 5 (table_rows table)) in
      has_financial_headers || has_financial_data
  end.

End WithUnicode.
End PDFAnalysis.

(** The entries one line contributes to the sections of a document: one
    for every section type with a pattern found in the line. *)
Definition line_sections {U : Unicode} (text : str) (il : Z * str)
  : list PDFAnalysis.section_entry :=
  flat_map
    (fun sp =>
       if existsb (fun pattern => search pattern (strip (lower (snd il))))
                  (snd sp)
       then [ {| PDFAnalysis.kind := fst sp;
                 PDFAnalysis.title := strip (snd il);
                 PDFAnalysis.line_number := fst il;
                 PDFAnalysis.start_position := find text (snd il) |} ]
       else [])
    PDFAnalysis.section_patterns.

(** Some entry of the list is of the given kind. *)
Definition has_kind (k : PDFAnalysis.section_kind)
    (entries : list PDFAnalysis.section_entry) : Prop :=
  exists e, In e entries /\ PDFAnalysis.kind e = k.

(** A cell of the row holds an ASCII digit. *)
Definition row_has_digit (row : list (option str)) : Prop :=
  exists s c, In (Some s) row /\ In c s /\ is_digit09 c = true.

(** A PDF whose text layer is the heading of a balance sheet and one line
    of it, long enough for pdfplumber's text to be kept. *)
Definition heading_pdf_text : str :=
  txt "Consolidated Balance Sheet" ++ [10%N] ++ page_text.

(** The flag of the structure that belongs to a section type. *)
Definition flag (k : PDFAnalysis.section_kind)
    (structure : PDFAnalysis.DocumentStructure) : bool :=
  match k with
  | PDFAnalysis.balance_sheet => PDFAnalysis.has_balance_sheet structure
  | PDFAnalysis.income_statement => PDFAnalysis.has_income_statement structure
  | PDFAnalysis.cash_flow => PDFAnalysis.has_cash_flow structure
  end.

(** Some header cell that is not empty holds, in lower case, one of the
    financial header terms of [_is_financial_table]. *)
Definition has_financial_header {U : Unicode} (table : Table) : Prop :=
  exists h, In (Some h) (headers table) /\ h <> [] /\
    BaseParser.any_in (lower h)
      [ "assets"; "liabilities"; "equity"; "amount"; "balance";
        "total"; "current"; "long-term"; "cash"; "receivables";
        "inventory"; "debt"; "capital"; "earnings" ]%string = true.

(** A result with no chunk and no figure, or with the one chunk of a text,
    labelled with a section type, and the figures of that text. *)
Definition single_chunk_result {U : Unicode} (section : option str)
    (r : ParsingResult) : Prop :=
  (chunks r = [] /\ figures r = []) \/
  exists text,
    chunks r = make_chunks section [text] /\
    figures r = BaseParser.extract_financial_figures text.

(** ** [models/balance_sheet.py] and [models/financial_ratios.py]:
       validated models

    The models are pydantic classes. Constructing one validates its
    fields in the order of their definition: the value passed for a field,
    or its default, goes through the [@validator] of the field (on a
    default only when the validator is declared with [always=True]); the
    validator receives in [values] the fields validated before it, and no
    other. A validator that raises makes the construction raise
    [ValidationError] once every field has been seen. *)

Module Pydantic.
Section Validation.

Variable V : Type.

Definition values := list (string * V).

(** [values.get(name)] and [values.get(name, default)] *)
Fixpoint get (vs : values) (name : string) : option V :=
  match vs with
  | [] => None
  | (k, v) :: vs' => if String.eqb k name then Some v else get vs' name
  end.

Definition get_or (vs : values) (name : string) (default : V) : V :=
  match get vs name with
  | Some v => v
  | None => default
  end.

(** A field: its name, its default and its validator with the [always]
    flag; a validator returns the value to store, or [None] when it
    raises [ValueError]. *)
Record field := {
  field_name : string;
  field_default : V;
  field_validator : option (bool * (V -> values -> option V))
}.

(** The loop over the fields: the values validated so far and whether a
    validator has raised. *)
Fixpoint validate_model (fields : list field) (input_data : values)
    (validated : values) (raised : bool) : values * bool :=
  match fields with
  | [] => (validated, raised)
  | f :: fields' =>
      let given := get input_data (field_name f) in
      let value := match given with
                   | Some v => v
                   | None => field_default f
                   end in
      let runs := match field_validator f, given with
                  | Some (always, check), None =>
                      if always then Some check else None
                  | Some (_, check), Some _ => Some check
                  | None, _ => None
                  end in
      match runs with
      | None =>
          validate_model fields' input_data
            (validated ++ [(field_name f, value)]) raised
      | Some check =>
          match check value validated with
          | Some v =>
              validate_model fields' input_data
                (validated ++ [(field_name f, v)]) raised
          | None => validate_model fields' input_data validated true
          end
      end
  end.

(** The constructor of the model called with [input_data] as keyword
    arguments: the validated fields, or [None] when [ValidationError] is
    raised. *)
Definition construct (fields : list field) (input_data : values)
  : option values :=
  let '(validated, raised) := validate_model fields input_data [] false in
  if raised then None else Some validated.

End Validation.
End Pydantic.

(** The operations of [decimal.Decimal] the models use, with the
    constants they compare with. *)
Class DecimalOps (D : Type) := {
  d_0 : D;                      (* Decimal("0") *)
  d_0_01 : D;                   (* Decimal("0.01") *)
  d_0_001 : D;                  (* Decimal('0.001') *)
  d_add : D -> D -> D;
  d_sub : D -> D -> D;
  d_mul : D -> D -> D;
  d_abs : D -> D;
  d_gt : D -> D -> bool;
  d_bool : D -> bool            (* bool(d): d is not zero *)
}.

(** Decimals as the rationals they stand for, with exact operations. *)
#[export] Instance exact_decimals : DecimalOps Q := {|
  d_0 := 0%Q;
  d_0_01 := (1 # 100)%Q;
  d_0_001 := (1 # 1000)%Q;
  d_add := Qplus;
  d_sub := Qminus;
  d_mul := Qmult;
  d_abs := fun a => if Qle_bool 0%Q a then a else Qopp a;
  d_gt := fun a b => negb (Qle_bool a b);
  d_bool := fun a => negb (Qeq_bool a 0%Q)
|}.

(** [BalanceSheet]: the fields that hold totals, in the order of their
    definition; the validators read no other field. *)
Module BalanceSheet.
Section WithDecimal.
Context {D : Type} {ops : DecimalOps D}.

(** [calculate_total_liabilities_and_equity(cls, v, values)] *)
Definition calculate_total_liabilities_and_equity (v : D)
    (values : Pydantic.values D) : option D :=
  let total_liab := Pydantic.get_or values "total_liabilities" d_0 in
  let total_eq := Pydantic.get_or values "total_equity" d_0 in
  Some (d_add total_liab total_eq).

(** [validate_balance_sheet_equation(cls, v, values)] *)
Definition validate_balance_sheet_equation (v : D)
    (values : Pydantic.values D) : option D :=
  let total_liab_eq :=
    Pydantic.get_or values "total_liabilities_and_equity" d_0 in
  if d_gt (d_abs (d_sub v total_liab_eq)) d_0_01 then None else Some v.

Definition plain (name : string) : Pydantic.field D :=
  {| Pydantic.field_name := name;
     Pydantic.field_default := d_0;
     Pydantic.field_validator := None |}.

Definition fields : list (Pydantic.field D) :=
  [ plain "total_current_assets";
    plain "total_non_current_assets";
    {| Pydantic.field_name := "total_assets";
       Pydantic.field_default := d_0;
       Pydantic.field_validator :=
         Some (true, validate_balance_sheet_equation) |};
    plain "total_current_liabilities";
    plain "total_non_current_liabilities";
    plain "total_liabilities";
    plain "total_equity";
    {| Pydantic.field_name := "total_liabilities_and_equity";
       Pydantic.field_default := d_0;
       Pydantic.field_validator :=
         Some (true, calculate_total_liabilities_and_equity) |} ].

End WithDecimal.
End BalanceSheet.

(** [DuPontAnalysis]: four optional decimals. *)
Module DuPontAnalysis.
Section WithDecimal.
Context {D : Type} {ops : DecimalOps D}.

(** [values.get(name)] for an optional field: [None] when the field is
    not in [values] and when its value is [None]. *)
Definition get_value (values : Pydantic.values (option D)) (name : string)
  : option D :=
  match Pydantic.get values name with
  | Some v => v
  | None => None
  end.

(** [validate_dupont_equation(cls, v, values)] *)
Definition validate_dupont_equation (v : option D)
    (values : Pydantic.values (option D)) : option (option D) :=
  match v with
  | Some roe =>
      let npm := get_value values "net_profit_margin" in
      let at_ := get_value values "asset_turnover" in
      let em := get_value values "equity_multiplier" in
      match npm, at_, em with
      | Some npm, Some at_, Some em =>
          if d_bool npm && d_bool at_ && d_bool em then
            let calculated_roe := d_mul (d_mul npm at_) em in
            if d_gt (d_abs (d_sub roe calculated_roe)) d_0_001
            then None else Some v
          else Some v
      | _, _, _ => Some v
      end
  | None => Some v
  end.

Definition plain (name : string) : Pydantic.field (option D) :=
  {| Pydantic.field_name := name;
     Pydantic.field_default := None;
     Pydantic.field_validator := None |}.

Definition fields : list (Pydantic.field (option D)) :=
  [ {| Pydantic.field_name := "roe";
       Pydantic.field_default := None;
       Pydantic.field_validator :=
         Some (false, validate_dupont_equation) |};
    plain "net_profit_margin";
    plain "asset_turnover";
    plain "equity_multiplier" ].

End WithDecimal.
End DuPontAnalysis.

(** Totals of a balanced sheet: assets 100, liabilities 60, equity 40. *)
Definition balanced_totals : Pydantic.values Q :=
  [ ("total_assets", 100); ("total_liabilities", 60);
    ("total_equity", 40) ]%string%Q.

(** Totals without the assets: liabilities 60, equity 40. *)
Definition unbalanced_totals : Pydantic.values Q :=
  [ ("total_liabilities", 60); ("total_equity", 40) ]%string%Q.

(** A return on equity of 50 percent beside factors whose product is 1. *)
Definition dupont_input : Pydantic.values (option Q) :=
  [ ("roe", Some (1 # 2)); ("net_profit_margin", Some 1);
    ("asset_turnover", Some 1); ("equity_multiplier", Some 1) ]%string%Q.

(** The fields of the sheet constructed from [unbalanced_totals]. *)
Definition unbalanced_sheet : Pydantic.values Q :=
  match Pydantic.construct BalanceSheet.fields unbalanced_totals with
  | Some validated => validated
  | None => []
  end.

(** ** [excel_parser.py]: the sheet most likely to be the balance sheet *)

Module ExcelSheets.
Import BaseParser.

(** The dictionary [_identify_balance_sheet] returns. *)
Record BalanceSheetInfo := {
  sheet_name : option str;
  confidence : Q;
  all_scores : list (str * Z)
}.

Section Identify.
Context {U : Unicode}.

(** The loop of [_is_financial_dataframe] over the columns after the
    first: whether one of them, converted by
    [pd.to_numeric(..., errors='coerce')], holds a number and has a
    maximum above 1000. *)
Variable has_financial_numbers : DataFrame -> bool.

(** [_is_financial_dataframe(df)] *)
Definition _is_financial_dataframe (df : DataFrame) : bool :=
  if df_empty df then false
  else
    let headers := map lower (df_columns df) in
    let has_financial_headers :=
      existsb (fun header =>
        any_in header
          [ "assets"; "liabilities"; "equity"; "amount"; "balance";
            "total"; "current"; "long-term"; "cash"; "receivables";
            "inventory"; "debt"; "capital"; "earnings"; "year" ]%string)
        headers in
    let first_column_text :=
      join (txt " ") (map (fun row => lower (first_cell row)) (df_rows df)) in
    let has_financial_items :=
      any_in first_column_text
        [ "cash"; "receivable"; "inventory"; "payable"; "debt";
          "equity" ]%string in
    has_financial_headers || (has_financial_items && has_financial_numbers df).

(** The body of the loop of [_identify_balance_sheet]: the score of one
    sheet. *)
Definition sheet_score (sheet_name : str) (df : DataFrame) : Z :=
  let score := 0 in
  let sheet_name_lower := lower sheet_name in
  let score :=
    if contains sheet_name_lower (txt "balance")
       && contains sheet_name_lower (txt "sheet")
    then score + 50
    else if contains sheet_name_lower (txt "balance") then score + 30
    else if any_in sheet_name_lower [ "bs"; "bsheet"; "position" ]%string
    then score + 20
    else score in
  if df_empty df then score
  else
    let sheet_text := lower (ExcelParser._dataframe_to_text df) in
    let score :=
      fold_left (fun score term =>
                   if contains sheet_text (txt term) then score + 10
                   else score)
                [ "assets"; "liabilities"; "equity"; "current assets";
                  "long-term debt" ]%string
                score in
    let score :=
      if contains sheet_text (txt "total assets")
         && contains sheet_text (txt "total liabilities")
      then score + 30 else score in
    if _is_financial_dataframe df then score + 20 else score.

(** [max(sheet_scores, key=sheet_scores.get)]: the keys are visited in
    insertion order and a later key replaces the best one only with a
    greater score. *)
Fixpoint best (scores : list (str * Z)) (current : str * Z) : str * Z :=
  match scores with
  | [] => current
  | entry :: scores' =>
      if snd current <? snd entry then best scores' entry
      else best scores' current
  end.

(** [_identify_balance_sheet(all_sheets)]. The sheets of a workbook have
    distinct names, so every sheet adds a key to [sheet_scores].
    [score / 100.0] is a rational here; for an integer score the float
    compares with [1.0] as the rational does. *)
Definition _identify_balance_sheet (all_sheets : list (str * DataFrame))
  : BalanceSheetInfo :=
  let sheet_scores :=
    map (fun sheet => (fst sheet, sheet_score (fst sheet) (snd sheet)))
        all_sheets in
  match sheet_scores with
  | first :: others =>
      let best_sheet := best others first in
      let confidence := (inject_Z (snd best_sheet) / 100)%Q in
      {| sheet_name := Some (fst best_sheet);
         confidence := Qmin_ confidence 1;
         all_scores := sheet_scores |}
  | [] =>
      {| sheet_name := None; confidence := 0; all_scores := [] |}
  end.

End Identify.
End ExcelSheets.

(** The sheet at the head of [later] is the first of the workbook with
    the highest score. *)
Definition first_with_top_score {U : Unicode}
    (has_financial_numbers : DataFrame -> bool)
    (earlier : list (str * DataFrame)) (sheet : str * DataFrame)
    (later : list (str * DataFrame)) : Prop :=
  let score := fun s : str * DataFrame =>
    ExcelSheets.sheet_score has_financial_numbers (fst s) (snd s) in
  Forall (fun s => score s < score sheet) earlier /\
  Forall (fun s => score s <= score sheet) later.

(** A workbook with a cover sheet and two sheets that score alike. *)
Definition three_sheets : list (str * DataFrame) :=
  let sheet (item amount : string) :=
    {| df_columns := map txt [ "Item"; "2023" ]%string;
       df_rows := [ [Some (txt item); Some (txt amount)] ] |} in
  [ (txt "Cover", sheet "Prepared by" "Finance");
    (txt "Balance Sheet", sheet "Total assets" "1500");
    (txt "Balance Sheet (2)", sheet "Total assets" "1400") ]%string.

(** ** [xml_parser.py]: the facts of an XBRL document *)

Module XBRL.
Import BaseParser.
Import XMLParser.

Definition text_of (e : Element) : option str :=
  match e with Node _ _ text _ => text end.

(** [element.get(name)] *)
Definition attr (element : Element) (name : string) : option str :=
  option_map snd
    (List.find (fun av => eqb_str (fst av) (txt name)) (attrib_of element)).

(** [self.balance_sheet_elements], in insertion order. *)
Definition balance_sheet_elements : list (string * list string) :=
  [ ("Assets", ["Assets"; "us-gaap:Assets"]);
    ("CurrentAssets", ["AssetsCurrent"; "us-gaap:AssetsCurrent"]);
    ("CashAndCashEquivalents",
      ["CashAndCashEquivalentsAtCarryingValue";
       "us-gaap:CashAndCashEquivalentsAtCarryingValue"]);
    ("AccountsReceivable",
      ["AccountsReceivableNetCurrent";
       "us-gaap:AccountsReceivableNetCurrent"]);
    ("Inventory", ["InventoryNet"; "us-gaap:InventoryNet"]);
    ("PropertyPlantEquipment",
      ["PropertyPlantAndEquipmentNet";
       "us-gaap:PropertyPlantAndEquipmentNet"]);
    ("Liabilities", ["Liabilities"; "us-gaap:Liabilities"]);
    ("CurrentLiabilities",
      ["LiabilitiesCurrent"; "us-gaap:LiabilitiesCurrent"]);
    ("AccountsPayable",
      ["AccountsPayableCurrent"; "us-gaap:AccountsPayableCurrent"]);
    ("LongTermDebt",
      ["LongTermDebtNoncurrent"; "us-gaap:LongTermDebtNoncurrent"]);
    ("StockholdersEquity",
      ["StockholdersEquity"; "us-gaap:StockholdersEquity"]);
    ("RetainedEarnings",
      ["RetainedEarningsAccumulatedDeficit";
       "us-gaap:RetainedEarningsAccumulatedDeficit"]) ]%string.

Section Facts.
Context {U : Unicode}.

(** The dictionaries of [_extract_xbrl_contexts], [_extract_xbrl_units]
    and [_extract_entity_info] are kept as they come; their entries are
    not looked into. *)
Variables ContextData UnitData EntityInfo : Type.

(** One [fact_data] dictionary. *)
Record Fact := {
  fact_name : str;
  value : option str;
  context_ref : option str;
  unit_ref : option str;
  decimals : option str;
  scale : option str;
  context_ : option ContextData;
  unit_ : option UnitData
}.

(** The dictionary [_extract_balance_sheet_facts] returns. *)
Record Facts := {
  assets : list Fact;
  liabilities : list Fact;
  equity : list Fact
}.

(** What [_parse_xbrl] returns, as far as [parse] reads it. *)
Record ParsedData := {
  balance_sheet_data : Facts;
  tables : list Table
}.

(** What the code takes from ElementTree: [root.findall(path)], and
    [root.findall(path, self.xbrl_namespaces)] with the prefix map. *)
Variable findall : Element -> str -> answer (list Element).
Variable findall_ns : Element -> str -> answer (list Element).

(** The outcomes of [_extract_xbrl_contexts(root)],
    [_extract_xbrl_units(root)] and [_extract_entity_info(root,
    contexts)], which walk the tree with path queries. *)
Variable xbrl_contexts : Element -> answer (list (str * ContextData)).
Variable xbrl_units : Element -> answer (list (str * UnitData)).
Variable entity_info : Element -> answer EntityInfo.

(** [d[key]] when [key in d], for a key that may be [None] *)
Definition lookup {A} (d : list (str * A)) (key : option str) : option A :=
  match key with
  | Some k => option_map snd (List.find (fun kv => eqb_str (fst kv) k) d)
  | None => None
  end.

(** The body of [for element in elements]. *)
Definition add_fact (contexts : list (str * ContextData))
    (units : list (str * UnitData)) (category element_name : string)
    (balance_sheet_data : Facts) (element : Element) : Facts :=
  let fact_data :=
    {| fact_name := txt element_name;
       value := text_of element;
       context_ref := attr element "contextRef";
       unit_ref := attr element "unitRef";
       decimals := attr element "decimals";
       scale := attr element "scale";
       context_ := lookup contexts (attr element "contextRef");
       unit_ := lookup units (attr element "unitRef") |} in
  let category_lower := lower (txt category) in
  if any_in category_lower
       [ "asset"; "cash"; "receivable"; "inventory"; "property" ]%string
  then {| assets := assets balance_sheet_data ++ [fact_data];
          liabilities := liabilities balance_sheet_data;
          equity := equity balance_sheet_data |}
  else if any_in category_lower [ "liability"; "payable"; "debt" ]%string
  then {| assets := assets balance_sheet_data;
          liabilities := liabilities balance_sheet_data ++ [fact_data];
          equity := equity balance_sheet_data |}
  else if any_in category_lower
            [ "equity"; "stockholder"; "retained" ]%string
  then {| assets := assets balance_sheet_data;
          liabilities := liabilities balance_sheet_data;
          equity := equity balance_sheet_data ++ [fact_data] |}
  else balance_sheet_data.

(** [for element_name in element_names] *)
Fixpoint for_element_names (root : Element)
    (contexts : list (str * ContextData)) (units : list (str * UnitData))
    (category : string) (element_names : list string)
    (balance_sheet_data : Facts) : outcome Facts :=
  match element_names with
  | [] => Return balance_sheet_data
  | element_name :: element_names' =>
      plain <- call (findall root (txt ".//" ++ txt element_name)) ;;
      prefixed <- call (findall_ns root
                          (txt ".//us-gaap:" ++ txt element_name)) ;;
      for_element_names root contexts units category element_names'
        (fold_left (add_fact contexts units category element_name)
                   (plain ++ prefixed) balance_sheet_data)
  end.

(** [for category, element_names in self.balance_sheet_elements.items()] *)
Fixpoint for_categories (root : Element)
    (contexts : list (str * ContextData)) (units : list (str * UnitData))
    (elements : list (string * list string)) (balance_sheet_data : Facts)
  : outcome Facts :=
  match elements with
  | [] => Return balance_sheet_data
  | (category, element_names) :: elements' =>
      balance_sheet_data <-
        for_element_names root contexts units category element_names
          balance_sheet_data ;;
      for_categories root contexts units elements' balance_sheet_data
  end.

(** [_extract_balance_sheet_facts(root, contexts, units)] *)
Definition _extract_balance_sheet_facts (root : Element)
    (contexts : list (str * ContextData)) (units : list (str * UnitData))
  : outcome Facts :=
  for_categories root contexts units balance_sheet_elements
    {| assets := []; liabilities := []; equity := [] |}.

(** [_create_balance_sheet_table(balance_sheet_facts, entity_info)]: one
    row for every fact, assets first. *)
Definition _create_balance_sheet_table (balance_sheet_facts : Facts)
  : Table :=
  let row := fun fact =>
    [ Some (fact_name fact); value fact; context_ref fact;
      unit_ref fact ] in
  let rows := map row (assets balance_sheet_facts)
              ++ map row (liabilities balance_sheet_facts)
              ++ map row (equity balance_sheet_facts) in
  {| headers := map (fun h => Some (txt h))
                    [ "Line Item"; "Amount"; "Context"; "Unit" ]%string;
     table_rows := rows;
     table_row_count := len rows;
     column_count := 4 |}.

(** [_parse_xbrl(root, file_path)] *)
Definition _parse_xbrl (root : Element) : outcome ParsedData :=
  contexts <- call (xbrl_contexts root) ;;
  units <- call (xbrl_units root) ;;
  _ <- call (entity_info root) ;;
  balance_sheet_facts <- _extract_balance_sheet_facts root contexts units ;;
  Return {| balance_sheet_data := balance_sheet_facts;
            tables := [_create_balance_sheet_table balance_sheet_facts] |}.

End Facts.
End XBRL.

(** ElementTree refuses a path with a prefix when no prefix map is passed:
    [root.findall('.//us-gaap:Assets')] raises [SyntaxError]. *)
Definition prefix_needs_map
    (findall : XMLParser.Element -> str -> answer (list XMLParser.Element))
  : Prop :=
  forall root,
    findall root (txt ".//us-gaap:Assets")
    = Err (txt "prefix 'us-gaap' not found in prefix map").

(** The structured extraction of the world is [_parse_xbrl] for the roots
    taken for XBRL. *)
Definition extracts_with {ContextData UnitData EntityInfo : Type}
    {U : Unicode} (w : XMLParser.World)
    (findall findall_ns
       : XMLParser.Element -> str -> answer (list XMLParser.Element))
    (xbrl_contexts : XMLParser.Element -> answer (list (str * ContextData)))
    (xbrl_units : XMLParser.Element -> answer (list (str * UnitData)))
    (entity_info : XMLParser.Element -> answer EntityInfo) : Prop :=
  forall root,
    call (XMLParser.parsed_tables w root true)
    = bind (XBRL._parse_xbrl findall findall_ns xbrl_contexts xbrl_units
              entity_info root)
           (fun parsed_data => Return (XBRL.tables parsed_data)).

(** ElementTree on a document without balance-sheet elements. *)
Definition no_elements (root : XMLParser.Element) (path : str)
  : answer (list XMLParser.Element) :=
  if contains path (txt ":")
  then Err (txt "prefix 'us-gaap' not found in prefix map")
  else Ok [].

Definition no_elements_ns (root : XMLParser.Element) (path : str)
  : answer (list XMLParser.Element) := Ok [].

(** An XBRL instance with no content, read without failure. *)
Definition xbrl_world : XMLParser.World :=
  {| XMLParser.fault := fun _ => None;
     XMLParser.et_parse :=
       fun _ => Ok (XMLParser.Node (txt "xbrl") [] None []);
     XMLParser.parsed_tables :=
       fun root is_xbrl =>
         match @XBRL._parse_xbrl ascii_unicode unit unit unit
                 no_elements no_elements_ns
                 (fun _ => Ok []) (fun _ => Ok []) (fun _ => Ok tt) root
         with
         | Return parsed_data => Ok (XBRL.tables parsed_data)
         | Raised e => Err e
         | Timeout => Ok []
         end |}.

(** ** [models/balance_sheet.py]: the totals of a balance sheet

    Of a line item the totals read the amount and the type. *)

Module AssetType.
Inductive t := CURRENT | NON_CURRENT.
Definition eqb (a b : t) : bool :=
  match a, b with
  | CURRENT, CURRENT | NON_CURRENT, NON_CURRENT => true
  | _, _ => false
  end.
End AssetType.

Module LiabilityType.
Inductive t := CURRENT | NON_CURRENT.
Definition eqb (a b : t) : bool :=
  match a, b with
  | CURRENT, CURRENT | NON_CURRENT, NON_CURRENT => true
  | _, _ => false
  end.
End LiabilityType.

Module Totals.
Section WithDecimal.
Context {D : Type} {ops : DecimalOps D}.

Record Asset := { asset_amount : D; asset_type : AssetType.t }.
Record Liability := {
  liability_amount : D;
  liability_type : LiabilityType.t
}.
Record Equity := { equity_amount : D }.

Record BalanceSheet := {
  assets : list Asset;
  total_current_assets : D;
  total_non_current_assets : D;
  total_assets : D;
  liabilities : list Liability;
  total_current_liabilities : D;
  total_non_current_liabilities : D;
  total_liabilities : D;
  equity_items : list Equity;
  total_equity : D;
  total_liabilities_and_equity : D
}.

(** [sum(xs)]: the items are added one by one to 0. *)
Definition sum (xs : list D) : D := fold_left d_add xs d_0.

(** [calculate_totals()]: the sheet after the assignments. The assignments
    are not validated. *)
Definition calculate_totals (self : BalanceSheet) : BalanceSheet :=
  let current_assets :=
    sum (map asset_amount
           (filter (fun asset =>
                      AssetType.eqb (asset_type asset) AssetType.CURRENT)
                   (assets self))) in
  let non_current_assets :=
    sum (map asset_amount
           (filter (fun asset =>
                      AssetType.eqb (asset_type asset) AssetType.NON_CURRENT)
                   (assets self))) in
  let current_liabilities :=
    sum (map liability_amount
           (filter (fun liability =>
                      LiabilityType.eqb (liability_type liability)
                        LiabilityType.CURRENT)
                   (liabilities self))) in
  let non_current_liabilities :=
    sum (map liability_amount
           (filter (fun liability =>
                      LiabilityType.eqb (liability_type liability)
                        LiabilityType.NON_CURRENT)
                   (liabilities self))) in
  let total_liabilities := d_add current_liabilities non_current_liabilities in
  let total_equity := sum (map equity_amount (equity_items self)) in
  {| assets := assets self;
     total_current_assets := current_assets;
     total_non_current_assets := non_current_assets;
     total_assets := d_add current_assets non_current_assets;
     liabilities := liabilities self;
     total_current_liabilities := current_liabilities;
     total_non_current_liabilities := non_current_liabilities;
     total_liabilities := total_liabilities;
     equity_items := equity_items self;
     total_equity := total_equity;
     total_liabilities_and_equity := d_add total_liabilities total_equity |}.

(** [get_working_capital()] *)
Definition get_working_capital (self : BalanceSheet) : D :=
  d_sub (total_current_assets self) (total_current_liabilities self).

End WithDecimal.
End Totals.

(** The sum of a list of rationals. *)
Definition Qsum (xs : list Q) : Q := fold_right Qplus 0%Q xs.

(** A sheet with assets of 100 and 50, a liability of 30 and no equity,
    whose stored totals are still zero. *)
Definition open_sheet : @Totals.BalanceSheet Q :=
  {| Totals.assets :=
       [ {| Totals.asset_amount := 100%Q;
            Totals.asset_type := AssetType.CURRENT |};
         {| Totals.asset_amount := 50%Q;
            Totals.asset_type := AssetType.NON_CURRENT |} ];
     Totals.total_current_assets := 0%Q;
     Totals.total_non_current_assets := 0%Q;
     Totals.total_assets := 0%Q;
     Totals.liabilities :=
       [ {| Totals.liability_amount := 30%Q;
            Totals.liability_type := LiabilityType.CURRENT |} ];
     Totals.total_current_liabilities := 0%Q;
     Totals.total_non_current_liabilities := 0%Q;
     Totals.total_liabilities := 0%Q;
     Totals.equity_items := [];
     Totals.total_equity := 0%Q;
     Totals.total_liabilities_and_equity := 0%Q |}.

(** ** [base_parser.py]: the scale of the figures *)

Module Scale.
Import BaseParser.
Section WithFlags.

(** [ignorecase p c]: under [re.IGNORECASE] the pattern character [p]
    matches the character [c] of the text. *)
Variable ignorecase : char -> char -> bool.

(** A literal word of a pattern compiled with [re.IGNORECASE]. *)
Fixpoint IStr (s : str) : regex :=
  match s with
  | [] => Eps
  | c :: s' => Cat (Cls (ignorecase c)) (IStr s')
  end.

(** [(?:in\s+)?WORDs?] *)
Definition scale_pattern (word : string) : regex :=
  Cat (Opt (Cat (IStr (txt "in")) ws))
      (Cat (IStr (txt word)) (Opt (IStr (txt "s")))).

(** [self.scale_patterns], in insertion order. *)
Definition scale_patterns : list (string * regex) :=
  [ ("thousands", scale_pattern "thousand");
    ("millions", scale_pattern "million");
    ("billions", scale_pattern "billion") ]%string.

(** The loop of [detect_scale] over the patterns not yet tried. *)
Fixpoint first_scale (patterns : list (string * regex)) (text : str)
  : str :=
  match patterns with
  | [] => txt "units"
  | (scale, pattern) :: patterns' =>
      if search pattern text then txt scale
      else first_scale patterns' text
  end.

(** [detect_scale(text)] *)
Definition detect_scale (text : str) : str :=
  first_scale scale_patterns text.

End WithFlags.
End Scale.

(** The text holds the word somewhere, in any letter case. *)
Definition mentions (ignorecase : char -> char -> bool) (word : string)
    (text : str) : Prop :=
  exists before found after,
    text = before ++ found ++ after /\
    Forall2 (fun p c => ignorecase p c = true) (txt word) found.

(** Letter case ignored for the letters of ASCII. *)
Definition ascii_ignorecase (p c : char) : bool :=
  (p =? c)%N ||
  ((65 <=? N.min p c)%N && (N.min p c <=? 90)%N
   && (N.max p c =? N.min p c + 32)%N).

(** The text the fallback chain of [PDFParser.parse] settles on when
    nothing raises: pdfplumber's unless it is too short, then PyPDF2's
    unless that is too short as well, then the OCR text. *)
Definition chosen_text (w : PDFParser.World) (file_path : path) : str :=
  let primary := PDFParser._extract_with_pdfplumber w file_path in
  let secondary := PDFParser._extract_with_pypdf2 w file_path in
  if PDFParser.too_short primary then
    if PDFParser.too_short secondary
    then PDFParser._extract_with_ocr w file_path
    else secondary
  else primary.

(** A PDF without a text layer for pdfplumber, in which PyPDF2 reads 600
    times the letter a. *)
Definition long_scan_world : PDFParser.World :=
  {| PDFParser.fault := fun _ => None;
     PDFParser.pdfplumber_text := fun _ => Ok [];
     PDFParser.pypdf2_text := fun _ => Ok (repeat 97%N 600);
     PDFParser.ocr_text := fun _ => Ok [];
     PDFParser.pdfplumber_tables := fun _ => [];
     PDFParser.pdfplumber_pages := fun _ => Ok 1;
     PDFParser.pypdf2_pages := fun _ => Ok 1 |}.

(** * Properties *)

(** ** The string and pattern primitives on known values *)

Example slice_negative_bounds :
  slice (txt "abcdef") (-4) (-1) = txt "cde" /\
  slice (txt "abcdef") 2 100 = txt "cdef" /\
  slice (txt "abcdef") 4 2 = [].
Proof. repeat split. Qed.

Example rfind_char_bounds :
  rfind_char (txt "a.b.c.") 46 0 4 = 3 /\
  rfind_char (txt "a.b.c.") 46 (-98) 2 = 1 /\
  rfind_char (txt "abc") 46 0 3 = -1.
Proof. repeat split. Qed.

Example strip_and_split :
  strip (txt "  a b ") = txt "a b" /\
  split_char 10 (txt "a
b
") = [txt "a"; txt "b"; []] /\
  split_char 10 [] = [[]] /\
  find (txt "abcabc") (txt "ca") = 2 /\
  find (txt "abc") (txt "x") = -1.
Proof. repeat split. Qed.

Example findall_is_greedy_and_leftmost :
  findall generic_pattern (txt "1,234.56 and 7.5")
  = [txt "1,234.56"; txt "7"; txt "5"] /\
  findall (symbol_pattern 36) (txt "$ 12 and $3.456") = [txt "12"; txt "3.45"].
Proof. split; vm_compute; reflexivity. Qed.

Example search_backtracks :
  search (Seq [W "current"; ws; W "portion"; Star Dot; W "debt"])
         (txt "current portion of long-term debt and debt") = true /\
  search (Seq [W "short"; Dot; W "term"; ws; W "debt"])
         (txt "short-term  debt") = true /\
  search (Seq [W "short"; Dot; W "term"; ws; W "debt"])
         (txt "shortterm debt") = false.
Proof. repeat split; vm_compute; reflexivity. Qed.

Example Decimal_of_str_values :
  Decimal_of_str (txt "1234.56")
  = Some {| sign := false; coefficient := 123456; exponent := -2 |} /\
  Decimal_of_str (txt ".12")
  = Some {| sign := false; coefficient := 12; exponent := -2 |} /\
  Decimal_of_str (txt "-7")
  = Some {| sign := true; coefficient := 7; exponent := 0 |} /\
  Decimal_of_str [] = None /\
  Decimal_of_str (txt ".") = None /\
  Decimal_of_str (txt "1.2.3") = None.
Proof. repeat split. Qed.

Example _clean_text_value :
  _clean_text (txt "  Total   assets
 1,500  ") = txt "Total assets 1,500" /\
  _clean_text (repeat 12354%N 3) = [].
Proof. split; vm_compute; reflexivity. Qed.

(** ** The matcher *)

Section Matcher.

Variable P : char -> Prop.

(** What [ends] leaves is a suffix, and the part consumed is made of
    characters the tests accept. *)
Lemma ends_consumed (r : regex) :
  tests_imply P r ->
  forall s s2, In s2 (ends r s) ->
  exists s1, s = s1 ++ s2 /\ Forall P s1.
Proof.
  induction r as [|f|r1 IH1 r2 IH2|r1 IH1 r2 IH2|r1 IH1]; simpl; intros HP s s2 Hin.
  - destruct Hin as [<-|[]]. exists []. split; [reflexivity|constructor].
  - destruct s as [|c s']; [contradiction|].
    destruct (f c) eqn:Hf; [|contradiction].
    destruct Hin as [<-|[]]. exists [c]. split; [reflexivity|].
    constructor; [apply HP, Hf|constructor].
  - destruct HP as [HP1 HP2].
    apply in_flat_map in Hin. destruct Hin as (sm & Hm & H2).
    destruct (IH1 HP1 _ _ Hm) as (a & -> & Ha).
    destruct (IH2 HP2 _ _ H2) as (b & -> & Hb).
    exists (a ++ b). split; [now rewrite app_assoc|].
    apply Forall_app; split; assumption.
  - destruct HP as [HP1 HP2].
    apply in_app_or in Hin. destruct Hin as [Hin|Hin]; eauto.
  - remember (length s) as n eqn:Hn. clear Hn.
    revert s s2 Hin. induction n as [|n IHn]; intros s s2 Hin.
    + destruct Hin as [<-|[]]. exists []. split; [reflexivity|constructor].
    + apply in_app_or in Hin. destruct Hin as [Hin|[<-|[]]].
      * apply in_flat_map in Hin. destruct Hin as (sm & Hm & H2).
        destruct (length sm <? length s)%nat; [|contradiction].
        destruct (IH1 HP _ _ Hm) as (a & -> & Ha).
        destruct (IHn _ _ H2) as (b & -> & Hb).
        exists (a ++ b). split; [now rewrite app_assoc|].
        apply Forall_app; split; assumption.
      * exists []. split; [reflexivity|constructor].
Qed.

(** The group of a match is made of characters its tests accept. *)
Lemma match_at_group (p : pattern) (s g rest : str) :
  tests_imply P (grp p) ->
  match_at p s = Some (g, rest) -> Forall P g.
Proof.
  intros HP H. unfold match_at in H.
  assert (Hin : In (g, rest)
            (flat_map (fun s1 => map (fun s2 =>
               (firstn (length s1 - length s2) s1, s2)) (ends (grp p) s1))
               (ends (pre p) s))).
  { destruct (flat_map _ _) as [|x l]; simpl in H; [discriminate|].
    injection H as ->. now left. }
  apply in_flat_map in Hin. destruct Hin as (s1 & _ & Hin).
  apply in_map_iff in Hin. destruct Hin as (s2 & Heq & Hin).
  injection Heq as <- <-.
  destruct (ends_consumed _ HP _ _ Hin) as (a & -> & Ha).
  rewrite length_app.
  replace (length a + length s2 - length s2)%nat with (length a) by lia.
  rewrite firstn_app, firstn_all, Nat.sub_diag. simpl.
  now rewrite app_nil_r.
Qed.

Lemma findall_from_group (p : pattern) :
  tests_imply P (grp p) ->
  forall s skip g, In g (findall_from p s skip) -> Forall P g.
Proof.
  intros HP. induction s as [|c s IH]; simpl; intros skip g Hin.
  - destruct skip; [|contradiction].
    destruct (match_at p []) as [[g' r]|] eqn:Hm; [|contradiction].
    destruct Hin as [<-|[]]. eapply match_at_group; eassumption.
  - destruct skip as [|k]; [|eauto].
    destruct (match_at p (c :: s)) as [[g' r]|] eqn:Hm; [|eauto].
    destruct Hin as [<-|Hin]; [|eauto].
    eapply match_at_group; eassumption.
Qed.

End Matcher.

(** ** Figure extraction *)

Section Figures.
Import BaseParser.
Context {U : Unicode}.

Lemma numeral_tests : tests_imply numeral_char numeral.
Proof.
  unfold numeral, Plus, Opt, Lit, numeral_char, is_digit_or_comma.
  cbn [tests_imply].
  repeat split; intros c H; auto.
  - apply orb_true_iff in H. destruct H as [H|H]; auto.
    apply N.eqb_eq in H. auto.
  - apply orb_true_iff in H. destruct H as [H|H]; auto.
    apply N.eqb_eq in H. auto.
  - apply N.eqb_eq in H. auto.
Qed.

Lemma currency_patterns_group cur p :
  In (cur, p) currency_patterns -> grp p = numeral.
Proof.
  unfold currency_patterns. simpl.
  intros [H|[H|[H|[H|[]]]]]; injection H as _ <-; reflexivity.
Qed.

(** Where a figure comes from: one match of one currency pattern, whose
    text parsed as a decimal once its commas were removed. *)
Lemma figure_origin (text : str) (f : Figure) :
  In f (extract_financial_figures text) ->
  exists cur p,
    In (cur, p) currency_patterns /\
    In (raw_text f) (findall p text) /\
    Decimal_of_str (remove_char 44 (raw_text f)) = Some (amount f).
Proof.
  unfold extract_financial_figures. intros H.
  apply in_flat_map in H. destruct H as ([cur p] & Hcp & H).
  apply in_flat_map in H. destruct H as (m & Hm & H).
  unfold figure_of_match in H. simpl in H.
  destruct (Decimal_of_str (remove_char 44 m)) as [d|] eqn:Hd; [|contradiction].
  destruct H as [<-|[]]. simpl. exists cur, p. auto.
Qed.

Lemma figure_of_parsable (text cur : str) (p : pattern) (m : str) d :
  In (cur, p) currency_patterns ->
  In m (findall p text) ->
  Decimal_of_str (remove_char 44 m) = Some d ->
  exists f, In f (extract_financial_figures text) /\
            raw_text f = m /\ amount f = d.
Proof.
  intros Hcp Hm Hd.
  exists {| amount := d;
            currency := if eqb_str cur (txt "generic") then txt "USD"
                        else upper_ascii cur;
            raw_text := m;
            context := _get_context text m 50 |}.
  split; [|split; reflexivity].
  unfold extract_financial_figures.
  apply in_flat_map. exists (cur, p). split; [exact Hcp|].
  apply in_flat_map. exists m. split; [exact Hm|].
  unfold figure_of_match. simpl. rewrite Hd. now left.
Qed.

Lemma raw_text_numeral (text : str) (f : Figure) :
  In f (extract_financial_figures text) -> Forall numeral_char (raw_text f).
Proof.
  intros H. destruct (figure_origin _ _ H) as (cur & p & Hcp & Hm & _).
  eapply findall_from_group; [|exact Hm].
  rewrite (currency_patterns_group Hcp). apply numeral_tests.
Qed.

Lemma unsigned_decimal_sign neg s d :
  unsigned_decimal neg s = Some d -> sign d = neg.
Proof.
  unfold unsigned_decimal. intros H.
  destruct (before_point s ++ _); [discriminate|].
  destruct (digits_value 0 _); [|discriminate].
  injection H as <-. reflexivity.
Qed.

Lemma numeral_char_not_sign c :
  numeral_char c -> (c =? 45)%N = false /\ (c =? 43)%N = false.
Proof.
  unfold numeral_char, is_digit09. intros [H|[->| ->]]; [|split; reflexivity..].
  apply andb_true_iff in H. destruct H as [H1 H2].
  apply N.leb_le in H1.
  split; apply N.eqb_neq; lia.
Qed.

Lemma Decimal_of_numeral_sign s d :
  Forall numeral_char s -> Decimal_of_str s = Some d -> sign d = false.
Proof.
  intros Hs H. destruct s as [|c s'].
  - simpl in H. eapply unsigned_decimal_sign; eassumption.
  - unfold Decimal_of_str in H. inversion Hs as [|? ? Hc _]; subst.
    destruct (numeral_char_not_sign Hc) as [E1 E2]. rewrite E1, E2 in H.
    eapply unsigned_decimal_sign; eassumption.
Qed.

Lemma pow10_nonneg e : (0 <= pow10 e)%Q.
Proof.
  unfold pow10. destruct (e <? 0) eqn:He.
  - unfold Qle. simpl. lia.
  - apply Z.ltb_ge in He. unfold Qle. simpl.
    rewrite Z.mul_1_r. apply Z.pow_nonneg. lia.
Qed.

Lemma Decimal_value_nonneg d : sign d = false -> (0 <= Decimal_value d)%Q.
Proof.
  intros H. unfold Decimal_value. rewrite H.
  apply Qmult_le_0_compat; [|apply pow10_nonneg].
  apply Qmult_le_0_compat; [unfold Qle; simpl; lia|].
  unfold Qle. simpl. lia.
Qed.

End Figures.

(** C6. [extract_financial_figures] on ["$1,234.56"] returns a non-empty
    list whose figures all have amount 1234.56 and currency USD; on
    ["abc"] it returns the empty list; and on every text a match whose
    numeral does not parse as a decimal after its commas are removed
    contributes nothing, the extraction going on with the next match: the
    figures returned are those of the matches that do parse, one for each
    (of [1,5 , 7] the lone comma is dropped and the two numerals stay). *)
Theorem C6_extract_financial_figures (U : Unicode) :
  (extract_financial_figures (txt "$1,234.56") <> [] /\
   Forall (fun f =>
             amount f = {| sign := false; coefficient := 123456;
                           exponent := -2 |} /\
             (Decimal_value (amount f) == 123456 # 100)%Q /\
             currency f = txt "USD")
          (extract_financial_figures (txt "$1,234.56"))) /\
  extract_financial_figures (txt "abc") = [] /\
  (forall text cur m,
     Decimal_of_str (remove_char 44 m) = None ->
     figure_of_match text cur m = []) /\
  (forall text f,
     In f (extract_financial_figures text) ->
     exists cur p,
       In (cur, p) currency_patterns /\
       In (raw_text f) (findall p text) /\
       Decimal_of_str (remove_char 44 (raw_text f)) = Some (amount f)) /\
  (forall text cur p m d,
     In (cur, p) currency_patterns ->
     In m (findall p text) ->
     Decimal_of_str (remove_char 44 m) = Some d ->
     exists f, In f (extract_financial_figures text) /\
               raw_text f = m /\ amount f = d) /\
  findall generic_pattern (txt "1,5 , 7") = [txt "1,5"; txt ","; txt "7"] /\
  map raw_text (extract_financial_figures (txt "1,5 , 7"))
  = [txt "1,5"; txt "7"].
Proof.
  split; [split|split; [|split; [|split; [|split; [|split]]]]].
  - cbv - [lower]. discriminate.
  - cbv - [lower]. repeat constructor.
  - reflexivity.
  - intros text cur m H. unfold figure_of_match. now rewrite H.
  - intros text f H. now apply figure_origin.
  - intros text cur p m d Hcp Hm Hd. eapply figure_of_parsable; eassumption.
  - vm_compute. reflexivity.
  - cbv - [lower]. reflexivity.
Qed.

Lemma C6_extract_financial_figures_witness :
  @figure_of_match ascii_unicode (txt "1,5 , 7") (txt "generic") (txt ",")
  = [].
Proof.
  apply (proj1 (proj2 (proj2 (C6_extract_financial_figures ascii_unicode)))).
  vm_compute. reflexivity.
Defined.

(** C10. Every figure [extract_financial_figures] returns has a
    nonnegative amount: the text a pattern captures holds only digits,
    commas and points, so a minus sign or accounting parentheses around a
    numeral stay outside the match and the value is read as positive, as
    for [-500] and [(1,234.56)]. *)
Theorem C10_amounts_nonnegative (U : Unicode) :
  (forall text f,
     In f (extract_financial_figures text) ->
     sign (amount f) = false /\
     (0 <= Decimal_value (amount f))%Q /\
     Forall numeral_char (raw_text f)) /\
  map (fun f => (raw_text f, amount f))
      (extract_financial_figures (txt "-500"))
  = [ (txt "500", {| sign := false; coefficient := 500; exponent := 0 |}) ] /\
  map (fun f => (raw_text f, amount f))
      (extract_financial_figures (txt "(1,234.56)"))
  = [ (txt "1,234.56",
       {| sign := false; coefficient := 123456; exponent := -2 |}) ].
Proof.
  split; [|split; cbv - [lower]; reflexivity].
  intros text f H.
  pose proof (raw_text_numeral _ _ H) as Hraw.
  destruct (figure_origin _ _ H) as (cur & p & _ & _ & Hd).
  assert (Hs : sign (amount f) = false).
  { eapply Decimal_of_numeral_sign; [|exact Hd].
    unfold remove_char. apply Forall_forall. intros c Hc.
    apply filter_In in Hc. destruct Hc as [Hc _].
    eapply Forall_forall in Hraw; eassumption. }
  split; [exact Hs|]. split; [|exact Hraw].
  apply Decimal_value_nonneg, Hs.
Qed.

Lemma C10_amounts_nonnegative_witness :
  sign (amount figure_500) = false /\
  (0 <= Decimal_value (amount figure_500))%Q /\
  Forall numeral_char (raw_text figure_500).
Proof.
  apply (proj1 (C10_amounts_nonnegative ascii_unicode) (txt "-500")).
  vm_compute. left. reflexivity.
Defined.

(** ** The category classifier *)

Section Classifier.
Context {U : Unicode}.

Lemma first_category_Some {C} (patterns : list (C * list regex)) s c :
  first_category patterns s = Some c <-> first_match patterns s c.
Proof.
  induction patterns as [|[c0 rs0] ps IH]; simpl.
  - split; [discriminate|].
    intros (b & rs & a & H & _). destruct b; discriminate.
  - destruct (existsb (fun r => search r s) rs0) eqn:E.
    + split.
      * intros [= <-]. exists [], rs0, ps. repeat split; [exact E|constructor].
      * intros (b & rs & a & H & Hm & Hb). destruct b as [|[c1 rs1] b].
        -- injection H as <- _ _. reflexivity.
        -- injection H as <- <- _. inversion Hb as [|? ? Hn _]; subst.
           exfalso. apply Hn. exact E.
    + rewrite IH. split.
      * intros (b & rs & a & -> & Hm & Hb).
        exists ((c0, rs0) :: b), rs, a. repeat split; [exact Hm|].
        constructor; [|exact Hb]. unfold matches. simpl. now rewrite E.
      * intros (b & rs & a & H & Hm & Hb). destruct b as [|[c1 rs1] b].
        -- injection H as <- <- _. unfold matches in Hm. congruence.
        -- injection H as _ _ ->. inversion Hb; subst.
           exists b, rs, a. auto.
Qed.

Lemma first_category_None {C} (patterns : list (C * list regex)) s :
  first_category patterns s = None <-> no_match patterns s.
Proof.
  unfold no_match, matches.
  induction patterns as [|[c0 rs0] ps IH]; simpl.
  - split; [constructor|reflexivity].
  - destruct (existsb (fun r => search r s) rs0) eqn:E.
    + split; [discriminate|]. intros H. inversion H as [|? ? Hn _]; subst.
      exfalso. apply Hn. exact E.
    + rewrite IH. split.
      * intros H. constructor; [simpl; congruence|exact H].
      * intros H. now inversion H.
Qed.

(** The classifier of every back-end, whatever its keyword lists: assets
    first, then liabilities, then equity, then the keyword lists. *)
Lemma categorize_item_order (ta tl te : list string) (label : str) :
  (forall c, first_match asset_patterns (lower label) c ->
     Shared.categorize_item ta tl te label = txt "asset_" ++ asset_value c) /\
  (no_match asset_patterns (lower label) ->
   forall c, first_match liability_patterns (lower label) c ->
     Shared.categorize_item ta tl te label
     = txt "liability_" ++ liability_value c) /\
  (no_match asset_patterns (lower label) ->
   no_match liability_patterns (lower label) ->
   forall c, first_match equity_patterns (lower label) c ->
     Shared.categorize_item ta tl te label
     = txt "equity_" ++ equity_value c) /\
  (no_match asset_patterns (lower label) ->
   no_match liability_patterns (lower label) ->
   no_match equity_patterns (lower label) ->
   Shared.categorize_item ta tl te label
   = if any_in (lower label) ta then txt "asset_other"
     else if any_in (lower label) tl then txt "liability_other"
     else if any_in (lower label) te then txt "equity_other"
     else txt "unknown").
Proof.
  unfold Shared.categorize_item.
  repeat split.
  - intros c H. apply first_category_Some in H. now rewrite H.
  - intros Ha c H. apply first_category_None in Ha.
    apply first_category_Some in H. now rewrite Ha, H.
  - intros Ha Hl c H. apply first_category_None in Ha, Hl.
    apply first_category_Some in H. now rewrite Ha, Hl, H.
  - intros Ha Hl He. apply first_category_None in Ha, Hl, He.
    now rewrite Ha, Hl, He.
Qed.

End Classifier.

(** C7. For every label the classifier tests the asset patterns first,
    then the liability patterns, then the equity patterns, and returns the
    category of the first match; a label in which both an asset and a
    liability pattern are found gets an asset category; with no pattern
    found it falls back to the keyword lists and, failing those, returns
    [unknown]. "Cash and cash equivalents" is
    [asset_cash_and_equivalents], "Accounts payable" is
    [liability_accounts_payable], "xyz123" is [unknown] (on ASCII labels
    [str.lower] is the ASCII lower-casing). *)
Theorem C7_category_classifier (U : Unicode) :
  (forall label : str,
     (forall c, first_match asset_patterns (lower label) c ->
        CSVParser._categorize_balance_sheet_item label
        = txt "asset_" ++ asset_value c) /\
     (no_match asset_patterns (lower label) ->
      forall c, first_match liability_patterns (lower label) c ->
        CSVParser._categorize_balance_sheet_item label
        = txt "liability_" ++ liability_value c) /\
     (no_match asset_patterns (lower label) ->
      no_match liability_patterns (lower label) ->
      forall c, first_match equity_patterns (lower label) c ->
        CSVParser._categorize_balance_sheet_item label
        = txt "equity_" ++ equity_value c) /\
     (no_match asset_patterns (lower label) ->
      no_match liability_patterns (lower label) ->
      no_match equity_patterns (lower label) ->
      CSVParser._categorize_balance_sheet_item label
      = if any_in (lower label)
             [ "asset"; "cash"; "receivable"; "inventory"; "property";
               "equipment"; "investment" ]%string
        then txt "asset_other"
        else if any_in (lower label)
                  [ "liability"; "payable"; "debt"; "loan"; "obligation";
                    "accrued" ]%string
        then txt "liability_other"
        else if any_in (lower label)
                  [ "equity"; "capital"; "earnings"; "retained";
                    "stock" ]%string
        then txt "equity_other"
        else txt "unknown") /\
     (~ no_match asset_patterns (lower label) ->
      ~ no_match liability_patterns (lower label) ->
      exists c, CSVParser._categorize_balance_sheet_item label
                = txt "asset_" ++ asset_value c)) /\
  @CSVParser._categorize_balance_sheet_item ascii_unicode
     (txt "Cash and cash equivalents") = txt "asset_cash_and_equivalents" /\
  @CSVParser._categorize_balance_sheet_item ascii_unicode
     (txt "Accounts payable") = txt "liability_accounts_payable" /\
  @CSVParser._categorize_balance_sheet_item ascii_unicode
     (txt "xyz123") = txt "unknown".
Proof.
  split; [|repeat split; vm_compute; reflexivity].
  intros label. unfold CSVParser._categorize_balance_sheet_item.
  destruct (categorize_item_order
              [ "asset"; "cash"; "receivable"; "inventory"; "property";
                "equipment"; "investment" ]%string
              [ "liability"; "payable"; "debt"; "loan"; "obligation";
                "accrued" ]%string
              [ "equity"; "capital"; "earnings"; "retained";
                "stock" ]%string label) as (Ha & Hl & He & Hn).
  repeat split; try assumption.
  intros Hna _.
  destruct (first_category asset_patterns (lower label)) as [c|] eqn:E.
  - exists c. apply Ha. now apply first_category_Some.
  - exfalso. apply Hna. now apply first_category_None.
Qed.

Lemma C7_category_classifier_witness :
  @CSVParser._categorize_balance_sheet_item ascii_unicode
     (txt "Cash payables") = txt "asset_cash_and_equivalents".
Proof.
  apply (proj1 (proj1 (C7_category_classifier ascii_unicode)
                  (txt "Cash payables")) CASH_AND_EQUIVALENTS).
  exists [], (snd (hd (CASH_AND_EQUIVALENTS, []) asset_patterns)),
         (tl asset_patterns).
  split; [reflexivity|]. split; [vm_compute; reflexivity|constructor].
Defined.

(** ** The table structure detector *)

Section Detector.
Context {U : Unicode}.

Lemma maximal_runs_exist (lines : list str) :
  exists runs, maximal_runs lines runs.
Proof.
  induction lines as [|l ls [rs H]].
  - exists []. constructor.
  - destruct (qualifies l) eqn:Hq.
    + inversion H as [|l' ls' rs' Hq' H'|run rest rs' Hne Hall Hrest H']; subst.
      * exists [[l]].
        apply (runs_run (run := [l]) (rest := []));
          [discriminate|repeat constructor; assumption|now left|constructor].
      * exists ([l] :: rs).
        apply (runs_run (run := [l]));
          [discriminate|repeat constructor; assumption|right; eauto
          |now constructor].
      * exists ((l :: run) :: rs').
        apply (runs_run (run := l :: run));
          [discriminate|now constructor|assumption|assumption].
    + exists rs. now constructor.
Qed.

Lemma maximal_runs_of_nil runs : maximal_runs [] runs -> runs = [].
Proof.
  intros H. remember [] as lines eqn:E.
  destruct H as [| |run rest rs Hne _ _ _]; [reflexivity|discriminate|].
  apply app_eq_nil in E. destruct E. contradiction.
Qed.

(** A text has one decomposition into maximal runs. *)
Lemma run_split_unique (run1 rest1 run2 rest2 : list str) :
  Forall (fun line => qualifies line = true) run1 ->
  Forall (fun line => qualifies line = true) run2 ->
  (rest1 = [] \/ exists line rest', rest1 = line :: rest'
                                     /\ qualifies line = false) ->
  (rest2 = [] \/ exists line rest', rest2 = line :: rest'
                                     /\ qualifies line = false) ->
  run1 ++ rest1 = run2 ++ rest2 ->
  run1 = run2 /\ rest1 = rest2.
Proof.
  intros H1. revert run2.
  induction H1 as [|l1 run1 Hl1 _ IH]; intros run2 H2 Hr1 Hr2 E.
  - destruct H2 as [|l2 run2 Hl2 _]; [auto|].
    simpl in E. exfalso.
    destruct Hr1 as [->|(l & r & -> & Hq)]; [discriminate|].
    injection E as -> _. congruence.
  - destruct H2 as [|l2 run2 Hl2 H2].
    + simpl in E. exfalso.
      destruct Hr2 as [->|(l & r & -> & Hq)]; [discriminate|].
      injection E as <- _. congruence.
    + simpl in E. injection E as <- E.
      destruct (IH run2 H2 Hr1 Hr2 E) as [<- <-]. auto.
Qed.

Lemma maximal_runs_unique (lines : list str) runs1 runs2 :
  maximal_runs lines runs1 -> maximal_runs lines runs2 -> runs1 = runs2.
Proof.
  intros H1. revert runs2.
  induction H1 as [|l ls rs Hq H IH|run rest rs Hne Hall Hrest H IH];
    intros runs2 H2.
  - symmetry. now apply maximal_runs_of_nil.
  - remember (l :: ls) as lines eqn:E.
    destruct H2 as [|l' ls' rs' Hq' H'|run' rest' rs' Hne' Hall' Hrest' H'].
    + discriminate.
    + injection E as <- <-. now apply IH.
    + exfalso. destruct Hall' as [|l0 run0 Hl0 _]; [contradiction|].
      simpl in E. injection E as -> _. congruence.
  - remember (run ++ rest) as lines eqn:E.
    destruct H2 as [|l' ls' rs' Hq' H'|run' rest' rs' Hne' Hall' Hrest' H'].
    + symmetry in E. apply app_eq_nil in E. destruct E. contradiction.
    + exfalso. destruct Hall as [|l0 run0 Hl0 _]; [contradiction|].
      simpl in E. injection E as <- _. congruence.
    + destruct (run_split_unique Hall' Hall Hrest' Hrest E) as [-> ->].
      f_equal. now apply IH.
Qed.

Lemma flush_short tables current :
  (length current < 3)%nat -> flush tables current = tables.
Proof.
  intros H. unfold flush.
  destruct (3 <=? Z.of_nat (length current)) eqn:E; [|reflexivity].
  apply Z.leb_le in E. lia.
Qed.

Lemma detect_loop_skip line lines tables current :
  qualifies line = false ->
  detect_loop (line :: lines) tables current
  = detect_loop lines (flush tables current) [].
Proof.
  intros H. simpl. unfold qualifies, len in H. now rewrite H.
Qed.

Lemma detect_loop_run run rest tables current :
  Forall (fun line => qualifies line = true) run ->
  detect_loop (run ++ rest) tables current
  = detect_loop rest tables (current ++ map row_of run).
Proof.
  intros H. revert current.
  induction H as [|l run Hl _ IH]; intros current; simpl.
  - now rewrite app_nil_r.
  - unfold qualifies, len in Hl. rewrite Hl, IH.
    now rewrite <- app_assoc.
Qed.

Lemma flush_run tables run :
  flush tables (map row_of run)
  = tables ++ map table_of (filter (fun r => 3 <=? len r) [run]).
Proof.
  unfold flush, len. simpl. rewrite length_map.
  destruct (3 <=? Z.of_nat (length run)); simpl.
  - unfold table_of, len. reflexivity.
  - now rewrite app_nil_r.
Qed.

Lemma detect_loop_runs lines runs :
  maximal_runs lines runs ->
  forall tables,
    detect_loop lines tables []
    = tables ++ map table_of (filter (fun r => 3 <=? len r) runs).
Proof.
  induction 1 as [|l ls rs Hq H IH|run rest rs Hne Hall Hrest H IH];
    intros tables.
  - simpl. rewrite flush_short by (simpl; lia). now rewrite app_nil_r.
  - rewrite detect_loop_skip by assumption.
    rewrite flush_short by (simpl; lia). apply IH.
  - rewrite detect_loop_run by assumption. simpl app at 1.
    destruct Hrest as [->|(l & rest' & -> & Hq)].
    + apply maximal_runs_of_nil in H. subst rs.
      simpl detect_loop. apply flush_run.
    + rewrite detect_loop_skip by assumption.
      specialize (IH (flush tables (map row_of run))).
      rewrite detect_loop_skip in IH by assumption.
      rewrite flush_short in IH by (simpl; lia).
      rewrite IH, flush_run. rewrite <- app_assoc. f_equal.
      change (filter (fun r => 3 <=? len r) (run :: rs))
        with (filter (fun r => 3 <=? len r) ([run] ++ rs)).
      now rewrite filter_app, map_app.
Qed.

End Detector.

(** C8. For every text the detector reports one table for each maximal
    contiguous run of at least three lines that each hold at least two
    recognized figures, and no other; the table's [row_count] is the
    length of the run (every text has exactly one list of maximal runs).
    Three qualifying lines give exactly one table with
    [row_count] 3 and a text of two lines gives none. *)
Theorem C8_detect_table_structure (U : Unicode) :
  (forall text runs,
     maximal_runs (split_char 10 text) runs ->
     detect_table_structure text
     = map table_of (filter (fun run => 3 <=? len run) runs)) /\
  (forall lines, exists runs, maximal_runs lines runs) /\
  (forall lines runs1 runs2,
     maximal_runs lines runs1 -> maximal_runs lines runs2 ->
     runs1 = runs2) /\
  (forall text l1 l2 l3,
     split_char 10 text = [l1; l2; l3] ->
     qualifies l1 = true -> qualifies l2 = true -> qualifies l3 = true ->
     detect_table_structure text = [table_of [l1; l2; l3]] /\
     map row_count (detect_table_structure text) = [3]) /\
  (forall text l1 l2,
     split_char 10 text = [l1; l2] -> detect_table_structure text = []).
Proof.
  split; [|split; [|split; [|split]]].
  - intros text runs H. unfold detect_table_structure.
    now rewrite (detect_loop_runs H).
  - apply maximal_runs_exist.
  - apply maximal_runs_unique.
  - intros text l1 l2 l3 Hs H1 H2 H3.
    assert (Hr : maximal_runs (split_char 10 text) [[l1; l2; l3]]).
    { rewrite Hs.
      apply (runs_run (run := [l1; l2; l3]) (rest := []));
        [discriminate|repeat constructor; assumption|now left|constructor]. }
    unfold detect_table_structure. rewrite (detect_loop_runs Hr).
    split; reflexivity.
  - intros text l1 l2 Hs. unfold detect_table_structure. rewrite Hs.
    simpl.
    destruct (2 <=? Z.of_nat (length (extract_financial_figures l1)));
      destruct (2 <=? Z.of_nat (length (extract_financial_figures l2)));
      reflexivity.
Qed.

Lemma C8_detect_table_structure_witness :
  @detect_table_structure ascii_unicode five_lines
  = [ @table_of ascii_unicode
        (map txt [ "Cash 1,000 900"; "Inventory 500 450";
                   "Total 1,500 1,350" ]%string) ].
Proof.
  apply (proj1 (C8_detect_table_structure ascii_unicode) five_lines
           [ map txt [ "Cash 1,000 900"; "Inventory 500 450";
                       "Total 1,500 1,350" ]%string ]).
  change (split_char 10 five_lines)
    with ([txt "Assets"]
          ++ (map txt [ "Cash 1,000 900"; "Inventory 500 450";
                        "Total 1,500 1,350" ]%string
              ++ [txt "See note 7"])).
  apply runs_skip; [vm_compute; reflexivity|].
  apply runs_run.
  - discriminate.
  - repeat constructor; vm_compute; reflexivity.
  - right. exists (txt "See note 7"), []. split; [reflexivity|].
    vm_compute. reflexivity.
  - apply runs_skip; [vm_compute; reflexivity|constructor].
Defined.

(** ** Chunking *)

Lemma lstrip_skipn (l : str) :
  exists u, (u <= length l)%nat /\ lstrip l = skipn u l /\
            forall q d, (q < u)%nat -> isspace (nth q l d) = true.
Proof.
  induction l as [|c l (u & Hu & He & Hw)].
  - exists 0%nat. repeat split; auto. intros; lia.
  - simpl. destruct (isspace c) eqn:Hc.
    + exists (S u). repeat split; [simpl; lia|exact He|].
      intros [|q] d Hq; simpl; [exact Hc|apply Hw; lia].
    + exists 0%nat. repeat split; [lia|]. intros; lia.
Qed.

Lemma rstrip_firstn (m : str) :
  exists v, (v <= length m)%nat /\ rstrip m = firstn v m /\
            forall q d, (v <= q < length m)%nat -> isspace (nth q m d) = true.
Proof.
  unfold rstrip.
  destruct (lstrip_skipn (rev m)) as (u & Hu & He & Hw).
  rewrite length_rev in Hu.
  exists (length m - u)%nat. repeat split; [lia| |].
  - rewrite He, skipn_rev, rev_involutive. reflexivity.
  - intros q d Hq.
    specialize (Hw (length m - S q)%nat d).
    rewrite rev_nth in Hw by lia.
    replace (length m - S (length m - S q))%nat with q in Hw by lia.
    apply Hw. lia.
Qed.

(** Stripping keeps a window of the text that holds every character that
    is not white space. *)
Lemma strip_window (l : str) :
  exists u v, (u <= v <= length l)%nat /\
    strip l = piece l u v /\
    forall q c, nth_error l q = Some c -> isspace c = false ->
                (u <= q < v)%nat.
Proof.
  unfold strip, piece.
  destruct (lstrip_skipn l) as (u & Hu & He & Hw).
  destruct (rstrip_firstn (skipn u l)) as (v & Hv & He' & Hw').
  rewrite length_skipn in Hv, Hw'.
  exists u, (u + v)%nat. split; [lia|]. split.
  - rewrite He, He'. f_equal. lia.
  - intros q c Hq Hc.
    assert (Hlt : (q < length l)%nat).
    { apply nth_error_Some. congruence. }
    assert (Hn : nth q l 0%N = c) by (now apply nth_error_nth).
    assert (u <= q)%nat.
    { destruct (Nat.lt_ge_cases q u) as [Hlt'|]; [|assumption].
      specialize (Hw q 0%N Hlt'). congruence. }
    split; [assumption|].
    destruct (Nat.lt_ge_cases q (u + v)) as [|Hge]; [assumption|].
    specialize (Hw' (q - u)%nat 0%N).
    rewrite nth_skipn in Hw'.
    replace (u + (q - u))%nat with q in Hw' by lia.
    rewrite Hn in Hw'. rewrite Hw' in Hc by lia. discriminate.
Qed.

Lemma piece_piece (text : str) (a b u v : nat) :
  (a <= b <= length text)%nat -> (u <= v <= b - a)%nat ->
  piece (piece text a b) u v = piece text (a + u) (a + v).
Proof.
  intros H1 H2. unfold piece.
  rewrite skipn_firstn_comm, skipn_skipn, firstn_firstn.
  f_equal; [lia|f_equal; lia].
Qed.

Lemma nth_error_piece (text : str) (a b q : nat) :
  (a <= b <= length text)%nat -> (q < b - a)%nat ->
  nth_error (piece text a b) q = nth_error text (a + q).
Proof.
  intros H1 H2. unfold piece.
  rewrite nth_error_firstn.
  destruct (Nat.ltb_spec q (b - a)); [|lia].
  apply nth_error_skipn.
Qed.

Lemma length_piece (text : str) (a b : nat) :
  (a <= b <= length text)%nat -> length (piece text a b) = (b - a)%nat.
Proof.
  intros H. unfold piece. rewrite length_firstn, length_skipn. lia.
Qed.

(** The stripped slice [text[a:b].strip()] is a slice too, and it holds
    every character of [text[a:b]] that is not white space. *)
Lemma strip_piece (text : str) (a b : nat) :
  (a <= b <= length text)%nat ->
  exists i j, (a <= i <= j)%nat /\ (j <= b)%nat /\
    strip (piece text a b) = piece text i j /\
    forall p c, (a <= p < b)%nat -> nth_error text p = Some c ->
                isspace c = false -> (i <= p < j)%nat.
Proof.
  intros H.
  destruct (strip_window (piece text a b)) as (u & v & Huv & He & Hw).
  rewrite length_piece in Huv by assumption.
  exists (a + u)%nat, (a + v)%nat. repeat split; try lia.
  - rewrite He. apply piece_piece; lia.
  - specialize (Hw (p - a)%nat c).
    rewrite nth_error_piece in Hw by lia.
    replace (a + (p - a))%nat with p in Hw by lia.
    specialize (Hw H1 H2). lia.
  - specialize (Hw (p - a)%nat c).
    rewrite nth_error_piece in Hw by lia.
    replace (a + (p - a))%nat with p in Hw by lia.
    specialize (Hw H1 H2). lia.
Qed.

Lemma slice_piece (text : str) (a b : Z) :
  0 <= a <= b -> b <= len text ->
  slice text a b = piece text (Z.to_nat a) (Z.to_nat b).
Proof.
  intros H1 H2. unfold slice, piece, adjust.
  destruct (a <? 0) eqn:Ea; [apply Z.ltb_lt in Ea; lia|].
  destruct (b <? 0) eqn:Eb; [apply Z.ltb_lt in Eb; lia|].
  rewrite !Z.min_l by lia. f_equal. lia.
Qed.

Lemma rfind_scan_bound (s : str) (c : char) (i lo hi best : Z) :
  let r := rfind_scan s c i lo hi best in
  r = best \/ (lo <= r < hi).
Proof.
  revert i best. induction s as [|d s IH]; intros i best; simpl.
  - now left.
  - destruct ((d =? c)%N && (lo <=? i) && (i <? hi)) eqn:E.
    + destruct (IH (i + 1) i) as [->|H]; [|now right].
      right. apply andb_true_iff in E. destruct E as [E E3].
      apply andb_true_iff in E. destruct E as [_ E2].
      apply Z.leb_le in E2. apply Z.ltb_lt in E3. lia.
    + apply IH.
Qed.

Section Chunking.
Variable text : str.
Variables chunk_size overlap : Z.

(** One iteration of the loop, as the source spells it. *)
Lemma split_loop_unfold (fuel : nat) (start : Z) (chunks : list str) :
  split_loop (S fuel) text chunk_size overlap start chunks
  = if start <? len text then
      let chunks' :=
        with_chunk chunks (strip (slice text start (chunk_end text chunk_size start))) in
      if chunk_end text chunk_size start - overlap >=? len text then Some chunks'
      else split_loop fuel text chunk_size overlap
             (chunk_end text chunk_size start - overlap) chunks'
    else Some chunks.
Proof. reflexivity. Qed.

Lemma len_nonneg : 0 <= len text.
Proof. unfold len. lia. Qed.

Lemma chunk_end_le (start : Z) : chunk_end text chunk_size start <= len text.
Proof.
  unfold chunk_end. pose proof len_nonneg as Hl.
  set (e := Z.min (start + chunk_size) (len text)).
  assert (He : e <= len text) by (unfold e; lia).
  destruct (e <? len text); [|exact He].
  destruct (rfind_char text 46 (e - 100) e >? start) eqn:E; [|exact He].
  unfold rfind_char.
  destruct (rfind_scan_bound text 46 0 (adjust (len text) (e - 100))
              (adjust (len text) e) (-1)) as [->|H]; [lia|].
  assert (adjust (len text) e <= len text).
  { unfold adjust. destruct (e <? 0) eqn:E0; [|lia].
    apply Z.ltb_lt in E0. lia. }
  lia.
Qed.

Lemma chunk_end_gt (start : Z) :
  0 < chunk_size -> start < len text -> start < chunk_end text chunk_size start.
Proof.
  intros Hc Hs. unfold chunk_end.
  set (e := Z.min (start + chunk_size) (len text)).
  assert (He : start < e) by (unfold e; lia).
  destruct (e <? len text); [|exact He].
  destruct (rfind_char text 46 (e - 100) e >? start) eqn:E; [|exact He].
  apply Z.gtb_lt in E. lia.
Qed.

(** With a positive overlap the loop, once entered, is never left: the
    next start, [end - overlap], stays below [len(text)] because [end]
    never exceeds it. *)
Lemma split_loop_runs_on (fuel : nat) :
  0 < overlap ->
  forall start chunks,
    start < len text ->
    split_loop fuel text chunk_size overlap start chunks = None.
Proof.
  intros Ho. induction fuel as [|fuel IH]; intros start chunks Hs.
  - reflexivity.
  - rewrite split_loop_unfold.
    destruct (start <? len text) eqn:E; [|apply Z.ltb_ge in E; lia].
    pose proof (chunk_end_le start) as Hle. cbv zeta.
    destruct (chunk_end text chunk_size start - overlap >=? len text) eqn:E'.
    + apply Z.geb_le in E'. lia.
    + apply IH. lia.
Qed.

Lemma in_chunk_with chunks chunk p :
  in_chunk text chunks p -> in_chunk text (with_chunk chunks chunk) p.
Proof.
  intros (c & i & j & Hin & He & Hp). exists c, i, j.
  repeat split; try assumption; try lia.
  destruct chunk; simpl; [assumption|]. apply in_or_app. now left.
Qed.

Lemma covered_step (a b : nat) chunks :
  (a <= b <= length text)%nat ->
  covered_to text a chunks ->
  covered_to text b (with_chunk chunks (strip (piece text a b))).
Proof.
  intros Hab Hcov p c Hp Hn Hc.
  destruct (Nat.lt_ge_cases p a) as [Hlt|Hge].
  - apply in_chunk_with. eapply Hcov; eassumption.
  - destruct (@strip_piece text a b Hab) as (i & j & Hi & Hj & He & Hw).
    assert (Hij : (i <= p < j)%nat) by (eapply Hw; eauto; lia).
    exists (piece text i j), i, j. repeat split; try lia.
    rewrite He.
    destruct (piece text i j) eqn:Ep.
    + apply (f_equal (@length _)) in Ep.
      rewrite length_piece in Ep by lia. simpl in Ep. lia.
    + simpl. apply in_or_app. right. now left.
Qed.

Lemma stripped_step (a b : nat) chunks :
  (a <= b <= length text)%nat ->
  Forall (stripped_slice text) chunks ->
  Forall (stripped_slice text) (with_chunk chunks (strip (piece text a b))).
Proof.
  intros Hab H. destruct (strip (piece text a b)) eqn:E; simpl; [assumption|].
  apply Forall_app. split; [assumption|].
  constructor; [|constructor]. split; [discriminate|].
  exists a, b. split; [assumption|]. now rewrite E.
Qed.

(** Without overlap the loop ends within [len(text) - start] iterations,
    and its chunks hold every character that is not white space. *)
Lemma split_loop_covers :
  0 < chunk_size -> overlap = 0 ->
  forall fuel start chunks,
    0 <= start < len text ->
    (Z.to_nat (len text - start) <= fuel)%nat ->
    covered_to text (Z.to_nat start) chunks ->
    Forall (stripped_slice text) chunks ->
    exists chunks',
      split_loop fuel text chunk_size overlap start chunks = Some chunks' /\
      covered_to text (length text) chunks' /\
      Forall (stripped_slice text) chunks'.
Proof.
  intros Hc Ho. induction fuel as [|fuel IH]; intros start chunks Hs Hf Hcov Hst.
  - lia.
  - rewrite split_loop_unfold.
    destruct (start <? len text) eqn:E; [|apply Z.ltb_ge in E; lia].
    pose proof (chunk_end_le start) as Hle.
    pose proof (chunk_end_gt Hc (proj2 Hs)) as Hgt.
    cbv zeta. subst overlap. rewrite Z.sub_0_r.
    rewrite slice_piece by lia.
    assert (Hab : (Z.to_nat start <= Z.to_nat (chunk_end text chunk_size start)
                   <= length text)%nat).
    { unfold len in *. lia. }
    pose proof (covered_step Hab Hcov) as Hcov'.
    pose proof (stripped_step Hab Hst) as Hst'.
    destruct (chunk_end text chunk_size start >=? len text) eqn:E'.
    + eexists. split; [reflexivity|]. split; [|assumption].
      apply Z.geb_le in E'.
      replace (length text) with (Z.to_nat (chunk_end text chunk_size start))
        by (unfold len in *; lia).
      assumption.
    + apply IH; try assumption.
      * rewrite Z.geb_leb in E'. apply Z.leb_gt in E'. lia.
      * lia.
Qed.

End Chunking.

(** With the default overlap (or any positive one) a text longer than the
    chunk size keeps the loop running for ever: no amount of fuel lets
    [_split_into_chunks] return. *)
Lemma _split_into_chunks_never_returns (fuel : nat) (text : str)
    (chunk_size overlap : Z) :
  0 <= chunk_size < len text -> 0 < overlap ->
  _split_into_chunks fuel text chunk_size overlap = None.
Proof.
  intros Hc Ho. unfold _split_into_chunks.
  destruct (len text <=? chunk_size) eqn:E; [apply Z.leb_le in E; lia|].
  apply split_loop_runs_on; lia.
Qed.

(** The chunker as every back-end calls it. *)
Lemma split_loop_runs_on_default (fuel : nat) (text : str) :
  500 < len text ->
  of_fuel (_split_into_chunks fuel text 500 100) = Timeout.
Proof.
  intros H. rewrite _split_into_chunks_never_returns by lia. reflexivity.
Qed.

Example chunking_501_characters :
  forall fuel, _split_into_chunks fuel (repeat 97%N 501) 500 100 = None.
Proof.
  intros fuel. apply _split_into_chunks_never_returns; [|lia].
  unfold len. rewrite repeat_length. lia.
Qed.

(** Without overlap, which no back-end asks for, the loop ends: the
    chunks of [" ab"] for chunk size 2 are ["a"] and ["b"], and the blank
    the text starts with is in neither. *)
Example blank_at_the_start_is_stripped :
  _split_into_chunks 3 (txt " ab") 2 0 = Some [txt "a"; txt "b"] /\
  ~ keeps_both_ends (txt " ab") [txt "a"; txt "b"].
Proof.
  split; [vm_compute; reflexivity|].
  intros [H _]. destruct (H 32%N eq_refl) as (chunk & Hin & Hc).
  simpl in Hin. destruct Hin as [<-|[<-|[]]]; simpl in Hc;
    destruct Hc as [Hc|[]]; discriminate.
Qed.

(** A text longer than the chunk size, split with a positive chunk size
    and no overlap, comes back as chunks that are non-empty slices of the
    text with the white space at their two ends removed, and every
    character of the text that is not white space lies in one of them;
    [len(text)] iterations suffice. *)
Lemma split_without_overlap (fuel : nat) (text : str) (chunk_size : Z) :
  0 < chunk_size -> chunk_size < len text ->
  (length text <= fuel)%nat ->
  exists chunks,
    _split_into_chunks fuel text chunk_size 0 = Some chunks /\
    Forall (stripped_slice text) chunks /\
    forall p c, nth_error text p = Some c -> isspace c = false ->
                in_chunk text chunks p.
Proof.
  intros Hc Hl Hf. unfold _split_into_chunks.
  destruct (len text <=? chunk_size) eqn:E; [apply Z.leb_le in E; lia|].
  destruct (@split_loop_covers text chunk_size 0 Hc eq_refl fuel 0 [])
    as (chunks & He & Hcov & Hst).
  - lia.
  - unfold len. lia.
  - intros p c Hp. simpl in Hp. lia.
  - constructor.
  - exists chunks. split; [exact He|]. split; [exact Hst|].
    intros p c Hn Hs. eapply Hcov; try eassumption.
    apply nth_error_Some. congruence.
Qed.

Lemma whole_text_keeps_both_ends (text : str) : keeps_both_ends text [text].
Proof.
  split; intros c H; exists text; (split; [now left|]).
  - destruct text as [|d t]; [discriminate|].
    injection H as ->. now left.
  - apply in_rev. destruct (rev text) as [|d t]; [discriminate|].
    injection H as ->. now left.
Qed.

(** C9. The code diverges from the claim. A text no longer than the chunk
    size comes back as one chunk equal to the text, which keeps its start
    and its end, as claimed; and with a positive overlap (every back-end
    passes the defaults 500 and 100) whatever [_split_into_chunks]
    returns is that one chunk. But for a text longer than the chunk size
    it returns nothing: the loop runs on whatever the number of
    iterations, so no chunks preserve the content of such a text. Shown
    at the defaults on a text of 501 characters. *)
Theorem C9_split_into_chunks :
  (forall fuel text chunk_size overlap,
     len text <= chunk_size ->
     _split_into_chunks fuel text chunk_size overlap = Some [text] /\
     keeps_both_ends text [text]) /\
  (forall fuel text chunk_size overlap chunks,
     0 <= chunk_size -> 0 < overlap ->
     _split_into_chunks fuel text chunk_size overlap = Some chunks ->
     len text <= chunk_size /\ chunks = [text] /\
     keeps_both_ends text chunks) /\
  (forall fuel text chunk_size overlap,
     0 <= chunk_size < len text -> 0 < overlap ->
     _split_into_chunks fuel text chunk_size overlap = None) /\
  (forall fuel,
     _split_into_chunks fuel (repeat 97%N 501) 500 100 = None).
Proof.
  split; [|split; [|split]].
  - intros fuel text chunk_size overlap H. unfold _split_into_chunks.
    apply Z.leb_le in H. rewrite H.
    split; [reflexivity|apply whole_text_keeps_both_ends].
  - intros fuel text chunk_size overlap chunks Hc Ho H.
    destruct (Z.le_gt_cases (len text) chunk_size) as [Hle|Hgt].
    + unfold _split_into_chunks in H. apply Z.leb_le in Hle as Hb.
      rewrite Hb in H. injection H as <-.
      split; [exact Hle|]. split; [reflexivity|].
      apply whole_text_keeps_both_ends.
    + rewrite _split_into_chunks_never_returns in H by lia. discriminate.
  - intros fuel text chunk_size overlap Hc Ho.
    now apply _split_into_chunks_never_returns.
  - intros fuel. apply _split_into_chunks_never_returns; [|lia].
    unfold len. rewrite repeat_length. lia.
Qed.

Lemma C9_split_into_chunks_witness :
  (_split_into_chunks 0 (txt "Cash 1,000") 500 100
   = Some [txt "Cash 1,000"] /\
   keeps_both_ends (txt "Cash 1,000") [txt "Cash 1,000"]) /\
  _split_into_chunks 1000 (repeat 97%N 501) 500 100 = None.
Proof.
  split.
  - apply (proj1 C9_split_into_chunks). vm_compute. discriminate.
  - apply (proj1 (proj2 (proj2 C9_split_into_chunks))); [|lia].
    vm_compute. split; [discriminate|reflexivity].
Defined.

(** ** The CSV scenario *)

(** C4, as the claim has it, fails: on the scenario file the confidence
    is 0.25, which is not above 0.3. *)
Lemma C4_csv_scenario_counterexample :
  ~ scenario_expectation
      (@CSVParser._analyze_csv_structure ascii_unicode
         (CSVParser._clean_dataframe scenario_frame))
      (@CSVParser._extract_balance_sheet_from_dataframe ascii_unicode
         (CSVParser._clean_dataframe scenario_frame)).
Proof.
  intros [H _]. vm_compute in H. discriminate.
Qed.

(** C4, amended. On the scenario file the structure analysis yields the
    confidence 0.25 (10 for the word "assets" and 15 for the two
    date-like column headers, over 100) and [likely_balance_sheet] is
    false; the extracted items hold one asset categorized
    [asset_cash_and_equivalents] and one liability categorized
    [liability_accounts_payable]; [parse] succeeds and puts both into the
    metadata. *)
Theorem C4_csv_scenario :
  let frame := CSVParser._clean_dataframe scenario_frame in
  let analysis := @CSVParser._analyze_csv_structure ascii_unicode frame in
  let items :=
    @CSVParser._extract_balance_sheet_from_dataframe ascii_unicode frame in
  (confidence_score analysis == 25 # 100)%Q /\
  likely_balance_sheet analysis = false /\
  map category (assets items)
  = [txt "asset_cash_and_equivalents"; txt "asset_other"] /\
  map category (liabilities items) = [txt "liability_accounts_payable"] /\
  (exists item, In item (assets items) /\
                category item = txt "asset_cash_and_equivalents") /\
  (exists item, In item (liabilities items) /\
                category item = txt "liability_accounts_payable") /\
  exists r,
    @CSVParser.parse ascii_unicode scenario_world 0 (txt "scenario.csv")
    = Return r /\
    success r = true /\
    metadata r = Some (CsvMetadata (txt "ascii") 3 3
                         (map txt [ "Item"; "2023"; "2022" ]%string)
                         analysis items).
Proof.
  cbv zeta.
  split; [vm_compute; reflexivity|].
  split; [vm_compute; reflexivity|].
  split; [vm_compute; reflexivity|].
  split; [vm_compute; reflexivity|].
  split.
  { eexists. split; [vm_compute; left; reflexivity|vm_compute; reflexivity]. }
  split.
  { eexists. split; [vm_compute; left; reflexivity|vm_compute; reflexivity]. }
  eexists. split; [vm_compute; reflexivity|].
  split; vm_compute; reflexivity.
Qed.

(** ** The extraction method reported for a PDF *)

Section PdfMethod.
Context {U : Unicode}.

Lemma bind_Return {A B} (m : outcome A) (f : A -> outcome B) (b : B) :
  bind m f = Return b -> exists a, m = Return a /\ f a = Return b.
Proof. destruct m; simpl; intros H; [eauto|discriminate..]. Qed.

Lemma at_line_Return {A} (fault : Z -> option str) n (x : outcome A) a :
  at_line fault n x = Return a -> x = Return a.
Proof. unfold at_line. destruct (fault n); [discriminate|auto]. Qed.

(** Whatever path supplied the text, a successful PDF result names
    pdfplumber as its extraction method. *)
Lemma extraction_method_constant (w : PDFParser.World) fuel file_path r :
  PDFParser.parse w fuel file_path = Return r ->
  success r = true ->
  exists page_count,
    metadata r = Some (PdfMetadata page_count (txt "pdfplumber")).
Proof.
  unfold PDFParser.parse, try_except. intros H Hs.
  destruct (PDFParser.parse_body w fuel file_path) as [r'|e|] eqn:Hb;
    [|injection H as <-; discriminate|discriminate].
  injection H as ->. unfold PDFParser.parse_body in Hb.
  apply bind_Return in Hb. destruct Hb as ([t ws] & _ & Hb). simpl in Hb.
  destruct t as [|c t]; [injection Hb as <-; discriminate|].
  repeat (apply bind_Return in Hb; destruct Hb as (? & _ & Hb)).
  apply at_line_Return in Hb. injection Hb as <-. simpl. eauto.
Qed.

End PdfMethod.


(** ** The [parse] entry points *)

Section Parse.
Context {U : Unicode}.

(** Peel one [x <- at_line ... ;; ...] off a body known to return. *)
Tactic Notation "step" hyp(H) "as" ident(a) ident(Ha) :=
  apply bind_Return in H; destruct H as (a & Ha & H);
  try apply at_line_Return in Ha.

(** With the chunk size and overlap every back-end uses, the chunker
    returns only for a text of at most 500 characters, and then returns
    that text as the one chunk. *)
Lemma default_chunks fuel text text_chunks :
  of_fuel (_split_into_chunks fuel text 500 100) = Return text_chunks ->
  text_chunks = [text] /\ len text <= 500.
Proof.
  unfold _split_into_chunks.
  destruct (len text <=? 500) eqn:E.
  - apply Z.leb_le in E. simpl. intros [= <-]. auto.
  - apply Z.leb_gt in E.
    rewrite split_loop_runs_on by lia. discriminate.
Qed.

Lemma make_chunks_default fuel text text_chunks section :
  of_fuel (_split_into_chunks fuel text 500 100) = Return text_chunks ->
  map chunk_text (make_chunks section text_chunks) = [text] /\
  map chunk_index (make_chunks section text_chunks) = [0].
Proof.
  intros H. apply default_chunks in H. destruct H as [-> _]. auto.
Qed.


Lemma csv_body_returns (w : CSVParser.World) fuel file_path r :
  CSVParser.parse_body w fuel file_path = Return r ->
  (success r = true /\ one_chunk r) \/ (success r = false /\ errors r <> []).
Proof.
  unfold CSVParser.parse_body. intros H.
  step H as encoding He. step H as df Hdf. step H as unreadable Hu.
  destruct df as [df|]; [destruct unreadable|];
    [right; injection H as <-; simpl; split; [reflexivity|discriminate]
    | |right; injection H as <-; simpl; split; [reflexivity|discriminate]].
  left.
  step H as df_cleaned Hc. step H as csv_text Ht.
  step H as text_chunks Hs. step H as chunks Hk.
  step H as table_data Htd. step H as all_figures Hf.
  step H as items Hi. step H as analysis Ha.
  apply at_line_Return in H. injection H as <-. simpl.
  injection Hk as <-.
  split; [reflexivity|]. eexists. eapply make_chunks_default. exact Hs.
Qed.

Lemma pdf_body_returns (w : PDFParser.World) fuel file_path r :
  PDFParser.parse_body w fuel file_path = Return r ->
  (success r = true /\ one_chunk r) \/ (success r = false /\ errors r <> []).
Proof.
  unfold PDFParser.parse_body. intros H.
  step H as tw Htw. destruct tw as [t ws]. simpl in H.
  destruct t as [|c t];
    [right; injection H as <-; simpl; split; [reflexivity|discriminate]|].
  left.
  step H as cleaned_text Hc. step H as text_chunks Hs.
  step H as chunks Hk. step H as tables Htb. step H as all_figures Hf.
  step H as u1 Hu1. step H as u2 Hu2.
  apply at_line_Return in H. injection H as <-. simpl.
  injection Hk as <-.
  split; [reflexivity|]. eexists. eapply make_chunks_default. exact Hs.
Qed.

Lemma xml_body_returns (w : XMLParser.World) fuel file_path r :
  XMLParser.parse_body w fuel file_path = Return r ->
  success r = true /\ one_chunk r.
Proof.
  unfold XMLParser.parse_body. intros H.
  step H as root Hr. step H as is_xbrl Hx. step H as tables Htb.
  step H as xml_text Ht. step H as text_chunks Hs. step H as chunks Hk.
  step H as all_figures Hf.
  apply at_line_Return in H. injection H as <-. simpl.
  injection Hk as <-.
  split; [reflexivity|]. eexists. eapply make_chunks_default. exact Hs.
Qed.

Lemma process_sheet_returns (w : ExcelParser.World) fuel df sheet_name sr :
  ExcelParser._process_sheet w fuel df sheet_name = Return sr ->
  if df_empty df
  then ExcelParser.sheet_chunks sr = [] /\ ExcelParser.sheet_tables sr = []
  else map chunk_index (ExcelParser.sheet_chunks sr) = [0].
Proof.
  unfold ExcelParser._process_sheet. intros H.
  destruct (df_empty df); [injection H as <-; auto|].
  step H as df_cleaned Hc. step H as sheet_text Ht.
  step H as text_chunks Hs. step H as chunks Hk.
  step H as table_data Htd. step H as figures Hf. step H as items Hi.
  injection H as <-. simpl. injection Hk as <-.
  eapply make_chunks_default. exact Hs.
Qed.

Lemma process_sheets_returns (w : ExcelParser.World) fuel all_sheets :
  forall acc all,
    ExcelParser.process_sheets w fuel all_sheets acc = Return all ->
    map chunk_index (ExcelParser.sheet_chunks all)
    = map chunk_index (ExcelParser.sheet_chunks acc)
      ++ repeat 0 (length (nonempty_sheets all_sheets)) /\
    (nonempty_sheets all_sheets = [] ->
     ExcelParser.sheet_chunks all = ExcelParser.sheet_chunks acc /\
     ExcelParser.sheet_tables all = ExcelParser.sheet_tables acc).
Proof.
  induction all_sheets as [|[sheet_name df] rest IH]; intros acc all H.
  - injection H as <-. simpl. rewrite app_nil_r. auto.
  - simpl in H. step H as sr Hsr.
    apply process_sheet_returns in Hsr.
    apply IH in H. destruct H as [Hi He]. simpl in Hi, He.
    unfold nonempty_sheets. simpl.
    fold (nonempty_sheets rest).
    destruct (df_empty df); simpl.
    + destruct Hsr as [Hc Ht]. rewrite Hc, Ht, !app_nil_r in *.
      split; assumption.
    + split; [|discriminate].
      rewrite Hi, map_app, Hsr, <- app_assoc. reflexivity.
Qed.

Lemma excel_body_returns (w : ExcelParser.World) fuel file_path r :
  ExcelParser.parse_body w fuel file_path = Return r ->
  (success r = true /\
   exists all_sheets,
     workbook w file_path = Some all_sheets /\
     map chunk_index (chunks r)
     = repeat 0 (length (nonempty_sheets all_sheets)) /\
     (nonempty_sheets all_sheets = [] -> chunks r = [] /\ tables r = []))
  \/ (success r = false /\ errors r <> []).
Proof.
  assert (Hsheets : forall all_sheets,
    ExcelParser.parse_sheets w fuel empty_result all_sheets = Return r ->
    (success r = true /\
     map chunk_index (chunks r)
     = repeat 0 (length (nonempty_sheets all_sheets)) /\
     (nonempty_sheets all_sheets = [] -> chunks r = [] /\ tables r = []))
    \/ (success r = false /\ errors r <> [])).
  { intros all_sheets H. unfold ExcelParser.parse_sheets in H.
    destruct all_sheets as [|sheet rest];
      [right; injection H as <-; simpl; split; [reflexivity|discriminate]|].
    left. step H as all Hall. step H as u Hu.
    apply at_line_Return in H. injection H as <-. simpl.
    apply process_sheets_returns in Hall. simpl in Hall.
    destruct Hall as [Hi He]. auto. }
  unfold ExcelParser.parse_body, workbook. intros H.
  destruct (ExcelParser.read_excel_openpyxl w file_path) as [sheets|e1].
  - destruct (Hsheets _ H) as [(Hs & Hr)|Hr]; [left|right; exact Hr].
    split; [exact Hs|]. exists sheets. auto.
  - destruct (ExcelParser.read_excel_xlrd w file_path) as [sheets|e2].
    + destruct (Hsheets _ H) as [(Hs & Hr)|Hr]; [left|right; exact Hr].
      split; [exact Hs|]. exists sheets. auto.
    + right. injection H as <-. simpl. split; [reflexivity|].
      destruct (txt "Failed to read Excel file: " ++ e2); discriminate.
Qed.

(** The consequence for an entry point, shown on the PDF back-end: when
    nothing raises and the cleaned text has more than 500 characters,
    whichever reader supplied it, the chunking loop is still running
    whatever the fuel, and [parse] has not returned. *)
Lemma pdf_parse_runs_on (w : PDFParser.World) fuel file_path :
  (forall n, PDFParser.fault w n = None) ->
  500 < len (_clean_text (chosen_text w file_path)) ->
  PDFParser.parse w fuel file_path = Timeout.
Proof.
  intros Hf Hlong.
  assert (Hne : chosen_text w file_path <> []).
  { intros E. rewrite E in Hlong. vm_compute in Hlong. discriminate. }
  unfold chosen_text in Hlong, Hne.
  unfold PDFParser.parse, PDFParser.parse_body, PDFParser.extract_text,
    at_line.
  rewrite !Hf. cbn [bind].
  destruct (PDFParser.too_short (PDFParser._extract_with_pdfplumber w file_path))
    eqn:E1; cbn [bind].
  - destruct (PDFParser.too_short (PDFParser._extract_with_pypdf2 w file_path))
      eqn:E2; cbn [bind fst snd].
    + destruct (PDFParser._extract_with_ocr w file_path) as [|c t];
        [now contradiction Hne|].
      cbn [bind fst snd].
      rewrite _split_into_chunks_never_returns by lia. reflexivity.
    + destruct (PDFParser._extract_with_pypdf2 w file_path) as [|c t];
        [now contradiction Hne|].
      cbn [bind fst snd].
      rewrite _split_into_chunks_never_returns by lia. reflexivity.
  - rewrite E1. cbn [bind fst snd].
    destruct (PDFParser._extract_with_pdfplumber w file_path) as [|c t];
      [now contradiction Hne|].
    cbn [bind fst snd].
    rewrite _split_into_chunks_never_returns by lia. reflexivity.
Qed.

(** A [parse] built as [try: body except Exception as e: return
    ParsingResult(success=False, errors=[prefix + str(e)])] hands every
    exception of its body back as a failed result, and so never raises. *)
Lemma try_except_failed (prefix : str) (body : outcome ParsingResult) :
  let parse := try_except body (fun e => Return (failed (prefix ++ e))) in
  (forall e, body = Raised e -> parse = Return (failed (prefix ++ e))) /\
  (forall e, parse <> Raised e) /\
  (forall r, parse = Return r ->
     body = Return r \/ exists e, body = Raised e /\ r = failed (prefix ++ e)).
Proof.
  destruct body as [r0|e0|]; simpl; repeat split.
  - discriminate.
  - discriminate.
  - intros r H. now left.
  - intros e [= <-]. reflexivity.
  - discriminate.
  - intros r [= <-]. right. eauto.
  - discriminate.
  - discriminate.
  - discriminate.
Qed.

End Parse.

Lemma converts_failures_intro (prefix : str) (body : outcome ParsingResult) :
  (forall r, body = Return r -> success r = false -> errors r <> []) ->
  converts_failures prefix body
    (try_except body (fun e => Return (failed (prefix ++ e)))).
Proof.
  intros Hb. destruct (try_except_failed prefix body) as (H1 & H2 & H3).
  repeat split.
  - intros e He. exists (failed (prefix ++ e)).
    repeat split; [now apply H1|discriminate].
  - exact H2.
  - intros r Hr Hs. destruct (H3 r Hr) as [H|(e & _ & ->)]; [eauto|].
    discriminate.
Qed.

(** C1. For every file path and every run, each back-end's [parse]
    (CSV, PDF, XML, spreadsheet) turns an exception raised inside its
    [try] block into a [ParsingResult] with [success] false and a
    non-empty [errors] list; it never raises itself, and every result it
    returns with [success] false has a non-empty [errors] list. *)
Theorem C1_parse_converts_failures (U : Unicode) :
  (forall w fuel file_path,
     converts_failures (txt "CSV parsing failed: ")
       (CSVParser.parse_body w fuel file_path)
       (CSVParser.parse w fuel file_path)) /\
  (forall w fuel file_path,
     converts_failures (txt "PDF parsing failed: ")
       (PDFParser.parse_body w fuel file_path)
       (PDFParser.parse w fuel file_path)) /\
  (forall w fuel file_path,
     converts_failures (txt "XML/XBRL parsing failed: ")
       (XMLParser.parse_body w fuel file_path)
       (XMLParser.parse w fuel file_path)) /\
  (forall w fuel file_path,
     converts_failures (txt "Excel parsing failed: ")
       (ExcelParser.parse_body w fuel file_path)
       (ExcelParser.parse w fuel file_path)).
Proof.
  split; [|split; [|split]]; intros w fuel file_path;
    apply converts_failures_intro; intros r Hr Hs.
  - destruct (csv_body_returns _ _ _ Hr) as [[H _]|[_ H]]; [congruence|exact H].
  - destruct (pdf_body_returns _ _ _ Hr) as [[H _]|[_ H]]; [congruence|exact H].
  - destruct (xml_body_returns _ _ _ Hr) as [H _]. congruence.
  - destruct (excel_body_returns _ _ _ Hr) as [[H _]|[_ H]];
      [congruence|exact H].
Qed.

Lemma C1_parse_converts_failures_witness :
  exists r,
    @CSVParser.parse ascii_unicode failing_world 0 (txt "scenario.csv")
    = Return r /\
    success r = false /\
    errors r = [txt "CSV parsing failed: Unable to allocate array"] /\
    errors r <> [].
Proof.
  apply (proj1 (proj1 (C1_parse_converts_failures ascii_unicode)
                  failing_world 0%nat (txt "scenario.csv"))
           (txt "Unable to allocate array")).
  vm_compute. reflexivity.
Defined.

(** ** Chunks and tables of a successful result *)


Section Content.
Context {U : Unicode}.

Lemma successful_body (prefix : str) (body : outcome ParsingResult) r :
  try_except body (fun e => Return (failed (prefix ++ e))) = Return r ->
  success r = true ->
  body = Return r.
Proof.
  intros H Hs. destruct (try_except_failed prefix body) as (_ & _ & H3).
  destruct (H3 r H) as [Hb|(e & _ & ->)]; [exact Hb|discriminate].
Qed.

End Content.



(** ** Chunk indices and chunk texts *)

(** C3, evaluated where it fails. The two chunks of a successful parse
    of a two-sheet workbook both have [chunk_index] 0: the index restarts
    with every sheet. And the one chunk of a successful parse of a PDF
    whose text has no printable ASCII character has the empty text. *)
Theorem C3_chunk_index_restarts_per_sheet :
  (exists r,
     @ExcelParser.parse ascii_unicode two_sheet_world 0 (txt "book.xlsx")
     = Return r /\
     success r = true /\
     map section_type (chunks r)
     = [Some (txt "sheet_Assets"); Some (txt "sheet_Liabilities")] /\
     map chunk_index (chunks r) = [0; 0] /\
     ~ NoDup (map chunk_index (chunks r))) /\
  (exists r,
     @PDFParser.parse ascii_unicode kana_world 0 (txt "report.pdf")
     = Return r /\
     success r = true /\
     map chunk_text (chunks r) = [[]]).
Proof.
  split.
  - eexists. split; [vm_compute; reflexivity|].
    split; [reflexivity|]. split; [vm_compute; reflexivity|].
    split; [reflexivity|]. simpl. intros H.
    inversion H as [|? ? Hn _]; subst. apply Hn. now left.
  - eexists. split; [vm_compute; reflexivity|].
    split; reflexivity.
Qed.

(** * Further properties of the code *)

(** ** The chunker and the entry points on long text *)

(** [_split_into_chunks] with a positive overlap never returns for a
    non-empty text longer than the chunk size: whatever the fuel, the
    loop is still running. *)
Theorem split_into_chunks_runs_forever (fuel : nat) (text : str)
    (chunk_size overlap : Z) :
  chunk_size < len text -> 0 < len text -> 0 < overlap ->
  _split_into_chunks fuel text chunk_size overlap = None.
Proof.
  intros Hc Hl Ho. unfold _split_into_chunks.
  destruct (len text <=? chunk_size) eqn:E; [apply Z.leb_le in E; lia|].
  apply split_loop_runs_on; lia.
Qed.

Lemma split_into_chunks_runs_forever_witness :
  _split_into_chunks 1000 (repeat 97%N 501) 500 100 = None.
Proof.
  apply split_into_chunks_runs_forever.
  - vm_compute. reflexivity.
  - vm_compute. reflexivity.
  - lia.
Defined.

Section LongText.
Context {U : Unicode}.

(** What [_read_csv_with_fallbacks] returns was read by one of the
    attempts, is not empty and has more than one column. *)
Lemma first_readable_Some (w : CSVParser.World) file_path attempts df :
  CSVParser.first_readable w file_path attempts = Some df ->
  (exists params, In params attempts /\
                  CSVParser.read_csv w file_path params = Ok df) /\
  df_empty df = false /\ 1 < len (df_columns df).
Proof.
  induction attempts as [|params attempts IH]; simpl; [discriminate|].
  destruct (CSVParser.read_csv w file_path params) as [d|e] eqn:E.
  - destruct (negb (df_empty d) && (1 <? len (df_columns d))) eqn:Hd.
    + intros [= <-]. apply andb_true_iff in Hd. destruct Hd as [H1 H2].
      apply negb_true_iff in H1. apply Z.ltb_lt in H2.
      split; [exists params; auto|auto].
    + intros H. destruct (IH H) as ((q & Hq & Hr) & H'). split; eauto.
  - intros H. destruct (IH H) as ((q & Hq & Hr) & H'). split; eauto.
Qed.

Lemma first_readable_None (w : CSVParser.World) file_path attempts :
  CSVParser.first_readable w file_path attempts = None <->
  forall params, In params attempts ->
    match CSVParser.read_csv w file_path params with
    | Ok df => df_empty df = true \/ len (df_columns df) <= 1
    | Err _ => True
    end.
Proof.
  induction attempts as [|params attempts IH]; simpl.
  - split; [intros _ q []|reflexivity].
  - destruct (CSVParser.read_csv w file_path params) as [d|e] eqn:E.
    + destruct (negb (df_empty d) && (1 <? len (df_columns d))) eqn:Hd.
      * split; [discriminate|]. intros H.
        specialize (H params (or_introl eq_refl)). rewrite E in H.
        apply andb_true_iff in Hd. destruct Hd as [H1 H2].
        apply negb_true_iff in H1. apply Z.ltb_lt in H2.
        destruct H; [congruence|lia].
      * rewrite IH. split.
        -- intros H q [<-|Hq]; [|now apply H]. rewrite E.
           apply andb_false_iff in Hd. destruct Hd as [H1|H2].
           ++ left. now apply negb_false_iff in H1.
           ++ right. now apply Z.ltb_ge in H2.
        -- intros H q Hq. apply H. now right.
    + rewrite IH. split.
      * intros H q [<-|Hq]; [now rewrite E|now apply H].
      * intros H q Hq. apply H. now right.
Qed.

End LongText.

(** With nothing raising, [parse] does not return for a file whose text
    has more than 500 characters: the CSV text of the cleaned frame, the
    cleaned text of the PDF, whether pdfplumber, PyPDF2 or OCR supplied
    it, the text form of the XML tree. *)
Theorem parse_runs_forever_on_long_text (U : Unicode) :
  (forall w fuel file_path df,
     (forall n, CSVParser.fault w n = None) ->
     CSVParser._read_csv_with_fallbacks w file_path
       (CSVParser._detect_encoding w file_path) = Some df ->
     500 < len (CSVParser._dataframe_to_text (CSVParser._clean_dataframe df)) ->
     CSVParser.parse w fuel file_path = Timeout) /\
  (forall w fuel file_path,
     (forall n, PDFParser.fault w n = None) ->
     500 < len (_clean_text (chosen_text w file_path)) ->
     PDFParser.parse w fuel file_path = Timeout) /\
  (forall w fuel file_path root tables,
     (forall n, XMLParser.fault w n = None) ->
     XMLParser.et_parse w file_path = Ok root ->
     XMLParser.parsed_tables w root (XMLParser._is_xbrl_document root)
     = Ok tables ->
     500 < len (XMLParser._xml_to_text root) ->
     XMLParser.parse w fuel file_path = Timeout).
Proof.
  split; [|split].
  - intros w fuel file_path df Hf Hr Hlong.
    unfold CSVParser.parse, CSVParser.parse_body, at_line.
    rewrite !Hf. cbn [bind]. rewrite Hr.
    unfold CSVParser._read_csv_with_fallbacks in Hr.
    apply first_readable_Some in Hr. destruct Hr as (_ & He & _).
    rewrite He. cbn [bind].
    rewrite split_loop_runs_on_default by exact Hlong. reflexivity.
  - intros w fuel file_path. apply pdf_parse_runs_on.
  - intros w fuel file_path root tables Hf Hr Ht Hlong.
    unfold XMLParser.parse, XMLParser.parse_body, at_line.
    rewrite !Hf, Hr. cbn [bind call]. rewrite Ht. cbn [bind call].
    rewrite split_loop_runs_on_default by exact Hlong.
    rewrite Hf. reflexivity.
Qed.

Lemma parse_runs_forever_on_long_text_witness :
  @PDFParser.parse ascii_unicode long_scan_world 1000 (txt "scan.pdf")
  = Timeout.
Proof.
  apply (proj1 (proj2 (parse_runs_forever_on_long_text ascii_unicode))).
  - reflexivity.
  - vm_compute. reflexivity.
Defined.

Example long_text_layer_runs_forever :
  @PDFParser.parse ascii_unicode long_pdf_world 1000 (txt "long.pdf")
  = Timeout.
Proof. vm_compute. reflexivity. Qed.

(** A result the CSV, PDF or XML back-end returns with [success] true
    holds exactly one chunk, and its [chunk_index] is 0. *)
Theorem successful_parse_has_one_chunk (U : Unicode) :
  (forall w fuel file_path r,
     CSVParser.parse w fuel file_path = Return r ->
     success r = true -> one_chunk r) /\
  (forall w fuel file_path r,
     PDFParser.parse w fuel file_path = Return r ->
     success r = true -> one_chunk r) /\
  (forall w fuel file_path r,
     XMLParser.parse w fuel file_path = Return r ->
     success r = true -> one_chunk r).
Proof.
  split; [|split]; intros w fuel file_path r H Hs;
    apply successful_body in H; try exact Hs.
  - destruct (csv_body_returns _ _ _ H) as [[_ Hc]|[Hf _]];
      [exact Hc|congruence].
  - destruct (pdf_body_returns _ _ _ H) as [[_ Hc]|[Hf _]];
      [exact Hc|congruence].
  - now destruct (xml_body_returns _ _ _ H).
Qed.

Lemma successful_parse_has_one_chunk_witness : one_chunk scenario_result.
Proof.
  apply (proj1 (successful_parse_has_one_chunk ascii_unicode)
           scenario_world 0%nat (txt "scenario.csv") scenario_result).
  - vm_compute. reflexivity.
  - vm_compute. reflexivity.
Defined.

(** ** Reading a CSV file *)

(** The frame [_read_csv_with_fallbacks] returns was read by one of its
    attempts, is not empty and has more than one column. When no attempt
    reads such a frame (a one-column file, for one), and nothing raises
    before, [parse] returns the failure "Failed to read CSV file or file
    is empty". *)
Theorem csv_needs_two_columns (U : Unicode) (w : CSVParser.World)
    (fuel : nat) (file_path : path) :
  (forall encoding df,
     CSVParser._read_csv_with_fallbacks w file_path encoding = Some df ->
     (exists params, In params (CSVParser.read_attempts encoding) /\
                     CSVParser.read_csv w file_path params = Ok df) /\
     df_empty df = false /\ 1 < len (df_columns df)) /\
  ((forall n, CSVParser.fault w n = None) ->
   (forall params,
      In params (CSVParser.read_attempts
                   (CSVParser._detect_encoding w file_path)) ->
      match CSVParser.read_csv w file_path params with
      | Ok df => df_empty df = true \/ len (df_columns df) <= 1
      | Err _ => True
      end) ->
   CSVParser.parse w fuel file_path
   = Return (failed (txt "Failed to read CSV file or file is empty"))).
Proof.
  split.
  - intros encoding df H. now apply first_readable_Some.
  - intros Hf Hbad. apply first_readable_None in Hbad.
    unfold CSVParser.parse, CSVParser.parse_body, at_line.
    rewrite !Hf. cbn [bind].
    unfold CSVParser._read_csv_with_fallbacks. rewrite Hbad. reflexivity.
Qed.

Lemma csv_needs_two_columns_witness :
  @CSVParser.parse ascii_unicode one_column_world 0 (txt "items.csv")
  = Return (failed (txt "Failed to read CSV file or file is empty")).
Proof.
  apply (proj2 (csv_needs_two_columns ascii_unicode one_column_world 0%nat
                  (txt "items.csv"))).
  - reflexivity.
  - intros params _. right. vm_compute. discriminate.
Defined.

(** [_detect_encoding] returns the encoding chardet names when chardet is
    confident. Otherwise it returns one of utf-8, latin-1, cp1252 and
    iso-8859-1, and the file decodes in the one returned unless that is
    the final utf-8 default. *)
Theorem detect_encoding_result (w : CSVParser.World) (file_path : path) :
  (forall encoding,
     CSVParser.chardet_detect w file_path = Ok (Some encoding, false) ->
     CSVParser._detect_encoding w file_path = encoding) /\
  ((forall encoding,
      CSVParser.chardet_detect w file_path <> Ok (Some encoding, false)) ->
   In (CSVParser._detect_encoding w file_path)
      (map txt [ "utf-8"; "latin-1"; "cp1252"; "iso-8859-1" ]%string) /\
   (CSVParser.trial_decode w file_path
      (CSVParser._detect_encoding w file_path) = true \/
    CSVParser._detect_encoding w file_path = txt "utf-8")).
Proof.
  unfold CSVParser._detect_encoding. split.
  - intros encoding H. now rewrite H.
  - intros H.
    destruct (CSVParser.chardet_detect w file_path) as [[enc low]|e];
      [|split; [now left|now right]].
    assert (Hu : match enc with None => true | Some _ => low end = true).
    { destruct enc as [enc|]; [|reflexivity].
      destruct low; [reflexivity|]. exfalso. now apply (H enc). }
    rewrite Hu.
    destruct (List.find (CSVParser.trial_decode w file_path) _)
      as [t|] eqn:Ef.
    + apply find_some in Ef. destruct Ef as [Hin Ht]. auto.
    + split; [now left|now right].
Qed.

Lemma detect_encoding_result_witness :
  In (CSVParser._detect_encoding latin_world (txt "report.csv"))
     (map txt [ "utf-8"; "latin-1"; "cp1252"; "iso-8859-1" ]%string) /\
  (CSVParser.trial_decode latin_world (txt "report.csv")
     (CSVParser._detect_encoding latin_world (txt "report.csv")) = true \/
   CSVParser._detect_encoding latin_world (txt "report.csv") = txt "utf-8").
Proof.
  apply (proj2 (detect_encoding_result latin_world (txt "report.csv"))).
  intros encoding. vm_compute. discriminate.
Defined.

(** ** Cleaning a frame *)

Lemma keep_marked_length {A} (mask : list bool) (xs : list A) :
  length xs = length mask ->
  length (keep_marked mask xs) = length (filter (fun b => b) mask).
Proof.
  revert xs. induction mask as [|b mask IH]; intros [|x xs] H;
    try discriminate; [reflexivity|].
  injection H as H. destruct b; simpl; auto.
Qed.

Lemma dropna_columns_rectangular (df : DataFrame) :
  rectangular df -> rectangular (dropna_columns df).
Proof.
  unfold rectangular, dropna_columns. simpl. intros H.
  set (mask := map _ (seq 0 (length (df_columns df)))).
  assert (Hm : length mask = length (df_columns df)).
  { unfold mask. now rewrite length_map, length_seq. }
  apply Forall_forall. intros row Hrow.
  apply in_map_iff in Hrow. destruct Hrow as (r & <- & Hr).
  eapply Forall_forall in H; [|exact Hr].
  rewrite !keep_marked_length; congruence.
Qed.

Lemma fillna_no_nan (df : DataFrame) : no_nan (fillna_astype_str df).
Proof.
  unfold no_nan, fillna_astype_str. simpl.
  apply Forall_forall. intros row Hrow.
  apply in_map_iff in Hrow. destruct Hrow as (r & <- & _).
  apply Forall_forall. intros cell Hc.
  apply in_map_iff in Hc. destruct Hc as ([c|] & <- & _); discriminate.
Qed.

(** [_clean_dataframe] of either frame back-end leaves no NaN cell and
    keeps a frame rectangular; the CSV one also leaves no row made of
    empty strings only. *)
Theorem clean_dataframe_invariants (df : DataFrame) :
  no_nan (CSVParser._clean_dataframe df) /\
  no_nan (ExcelParser._clean_dataframe df) /\
  Forall has_content (df_rows (CSVParser._clean_dataframe df)) /\
  (rectangular df ->
   rectangular (CSVParser._clean_dataframe df) /\
   rectangular (ExcelParser._clean_dataframe df)).
Proof.
  assert (Hrect : rectangular df ->
            rectangular (fillna_astype_str (dropna_columns (dropna_rows df)))).
  { intros H.
    assert (H1 : rectangular (dropna_rows df)).
    { unfold rectangular, dropna_rows in *. simpl.
      apply Forall_forall. intros row Hrow. apply filter_In in Hrow.
      eapply Forall_forall in H; [exact H|tauto]. }
    apply dropna_columns_rectangular in H1.
    unfold rectangular, fillna_astype_str in *. simpl.
    apply Forall_forall. intros row Hrow.
    apply in_map_iff in Hrow. destruct Hrow as (r & <- & Hr).
    rewrite length_map. eapply Forall_forall in H1; eassumption. }
  unfold CSVParser._clean_dataframe, ExcelParser._clean_dataframe.
  split; [|split; [apply fillna_no_nan|split]].
  - pose proof (fillna_no_nan (dropna_columns (dropna_rows df))) as H.
    unfold no_nan, drop_blank_rows in *. simpl.
    apply Forall_forall. intros row Hrow. apply filter_In in Hrow.
    eapply Forall_forall in H; [exact H|tauto].
  - unfold drop_blank_rows. simpl.
    apply Forall_forall. intros row Hrow. apply filter_In in Hrow.
    destruct Hrow as [_ Hb]. apply negb_true_iff in Hb.
    unfold has_content.
    induction row as [|c row IH]; simpl in Hb; [discriminate|].
    apply andb_false_iff in Hb. destruct Hb as [Hc|Hb].
    + exists c. split; [now left|].
      intros ->. discriminate.
    + destruct (IH Hb) as (cell & Hin & Hne). exists cell.
      split; [now right|assumption].
  - intros H. split; [|now apply Hrect].
    specialize (Hrect H).
    unfold rectangular, drop_blank_rows in *. simpl.
    apply Forall_forall. intros row Hrow. apply filter_In in Hrow.
    eapply Forall_forall in Hrect; [exact Hrect|tauto].
Qed.

Lemma clean_dataframe_invariants_witness :
  rectangular (CSVParser._clean_dataframe ragged_frame) /\
  rectangular (ExcelParser._clean_dataframe ragged_frame).
Proof.
  apply (proj2 (proj2 (proj2 (clean_dataframe_invariants ragged_frame)))).
  repeat constructor.
Defined.

Example clean_ragged_frame :
  CSVParser._clean_dataframe ragged_frame
  = {| df_columns := map txt [ "Item"; "2023" ]%string;
       df_rows := [ [Some (txt "Cash"); Some (txt "1000")];
                    [Some (txt "Debt"); Some (txt "500")] ] |}.
Proof. reflexivity. Qed.

(** ** The structure analysis of a frame *)

(** For every frame the confidence [_analyze_csv_structure] reports lies
    between 0 and 1, [likely_balance_sheet] holds exactly when it is above
    0.3, [multi_period] equals [time_series], and a frame of at most two
    columns is never a time series. *)
Theorem analyze_csv_structure_bounds (U : Unicode) (df : DataFrame) :
  let analysis := CSVParser._analyze_csv_structure df in
  (0 <= confidence_score analysis)%Q /\
  (confidence_score analysis <= 1)%Q /\
  (likely_balance_sheet analysis = true <->
   (3 # 10 < confidence_score analysis)%Q) /\
  multi_period analysis = time_series analysis /\
  (len (df_columns df) <= 2 -> time_series analysis = false).
Proof.
  unfold CSVParser._analyze_csv_structure.
  destruct (df_empty df).
  { cbn. repeat split; try discriminate; try reflexivity. }
  cbv zeta.
  cbn [confidence_score likely_balance_sheet multi_period time_series
       map list_sum_Z fold_left].
  repeat match goal with
         | |- context [contains ?a ?b] =>
             let x := fresh "b" in
             generalize (contains a b); intro x
         end.
  generalize (len (filter CSVParser._is_balance_sheet_line_item
                     (map (fun row => lower (first_cell row))
                          (firstn 20 (df_rows df))))).
  generalize (len (flat_map CSVParser.section_of_row (df_rows df))).
  intros n1 n2.
  destruct (2 <? len (df_columns df)) eqn:Ecols.
  - generalize (len (filter (fun col => existsb isdigit col)
                       (tl (df_columns df)))).
    intros n3.
    apply Z.ltb_lt in Ecols.
    destruct b, b0, b1, b2, (2 <=? n3), (5 <=? n2), (2 <=? n1);
      (repeat split; try reflexivity; try discriminate; try lia;
       try (vm_compute; discriminate);
       try (intros _; vm_compute; reflexivity);
       try (intros H; vm_compute in H; discriminate)).
  - apply Z.ltb_ge in Ecols.
    destruct b, b0, b1, b2, (5 <=? n2), (2 <=? n1);
      (repeat split; try reflexivity; try discriminate; try lia;
       try (vm_compute; discriminate);
       try (intros _; vm_compute; reflexivity);
       try (intros H; vm_compute in H; discriminate)).
Qed.

Lemma analyze_csv_structure_bounds_witness :
  time_series (@CSVParser._analyze_csv_structure ascii_unicode
                 two_column_frame) = false.
Proof.
  apply (proj2 (proj2 (proj2 (proj2
           (analyze_csv_structure_bounds ascii_unicode two_column_frame))))).
  vm_compute. discriminate.
Defined.

(** ** Categories and the three item lists *)

Section Items.
Context {U : Unicode}.

Lemma startswith_app (p s : str) : startswith (p ++ s) p = true.
Proof.
  induction p as [|c p IH]; simpl; [now destruct s|].
  now rewrite N.eqb_refl.
Qed.

Variable is_item : str -> bool.
Variable categorize : str -> str.

Lemma add_item_listed (items : BalanceSheetItems) (row : list (option str))
    (n : nat) :
  listed is_item categorize items n ->
  listed is_item categorize (Shared.add_item is_item categorize items row)
         (S n).
Proof.
  intros (Ha & Hl & He & Hn). unfold Shared.add_item.
  assert (Hsame : listed is_item categorize items (S n)).
  { repeat split; try assumption. lia. }
  destruct row as [|cell rest]; [exact Hsame|].
  destruct (Shared.blank_name _); [exact Hsame|].
  destruct (is_item _) eqn:Hi; [|exact Hsame].
  cbv zeta.
  destruct (startswith (categorize _) (txt "asset_")) eqn:E1.
  { repeat split; simpl; try assumption.
    - apply Forall_app. split; [assumption|].
      repeat constructor; simpl; assumption.
    - rewrite length_app. simpl. lia. }
  destruct (startswith (categorize _) (txt "liability_")) eqn:E2.
  { repeat split; simpl; try assumption.
    - apply Forall_app. split; [assumption|].
      repeat constructor; simpl; assumption.
    - rewrite length_app. simpl. lia. }
  destruct (startswith (categorize _) (txt "equity_")) eqn:E3;
    [|exact Hsame].
  repeat split; simpl; try assumption.
  - apply Forall_app. split; [assumption|].
    repeat constructor; simpl; assumption.
  - rewrite length_app. simpl. lia.
Qed.

Lemma extract_balance_sheet_listed (df : DataFrame) :
  listed is_item categorize
    (Shared.extract_balance_sheet is_item categorize df)
    (length (df_rows df)).
Proof.
  assert (Hfold : forall rs items n,
            listed is_item categorize items n ->
            listed is_item categorize
              (fold_left (Shared.add_item is_item categorize) rs items)
              (n + length rs)).
  { intros rs. induction rs as [|row rs IH]; intros items n H; simpl.
    - now rewrite Nat.add_0_r.
    - replace (n + S (length rs))%nat with (S n + length rs)%nat by lia.
      apply IH. now apply add_item_listed. }
  assert (H0 : forall n, listed is_item categorize
                 {| assets := []; liabilities := []; equity := [] |} n).
  { intros n. repeat split; simpl; try constructor. lia. }
  unfold Shared.extract_balance_sheet.
  destruct (df_empty df); [apply H0|].
  apply (Hfold (df_rows df) _ 0%nat). apply H0.
Qed.

End Items.

(** For every frame, each item [_extract_balance_sheet_from_dataframe]
    (CSV and spreadsheet back-end) lists under assets, liabilities or
    equity passed the line-item test and carries the category of its name,
    which starts with [asset_], [liability_] or [equity_] as the list
    requires; no listed item has the category [unknown]; and the lists
    hold at most one item per row of the frame. *)
Theorem balance_sheet_items_listed_by_prefix (U : Unicode) (df : DataFrame) :
  listed CSVParser._is_balance_sheet_line_item
         CSVParser._categorize_balance_sheet_item
         (CSVParser._extract_balance_sheet_from_dataframe df)
         (length (df_rows df)) /\
  listed ExcelParser._is_balance_sheet_line_item
         ExcelParser._categorize_balance_sheet_item
         (ExcelParser._extract_balance_sheet_from_dataframe df)
         (length (df_rows df)) /\
  Forall (fun item => category item <> txt "unknown")
         (let items := CSVParser._extract_balance_sheet_from_dataframe df in
          assets items ++ liabilities items ++ equity items).
Proof.
  split; [apply extract_balance_sheet_listed|].
  split; [apply extract_balance_sheet_listed|].
  destruct (extract_balance_sheet_listed
              CSVParser._is_balance_sheet_line_item
              CSVParser._categorize_balance_sheet_item df)
    as (Ha & Hl & He & _).
  cbv zeta. unfold CSVParser._extract_balance_sheet_from_dataframe.
  assert (Hno : forall p, p = "asset_"%string \/ p = "liability_"%string
                          \/ p = "equity_"%string ->
            forall item,
              listed_under CSVParser._is_balance_sheet_line_item
                CSVParser._categorize_balance_sheet_item p item ->
              category item <> txt "unknown").
  { intros p Hp item (Hs & _) E. rewrite E in Hs.
    destruct Hp as [->|[->| ->]]; discriminate. }
  repeat (apply Forall_app; split).
  - eapply Forall_impl; [|exact Ha]. apply Hno. auto.
  - eapply Forall_impl; [|exact Hl]. apply Hno. auto.
  - eapply Forall_impl; [|exact He]. apply Hno. auto.
Qed.

(** The classifier of the CSV, spreadsheet and PDF back-ends answers
    [unknown] or a category that starts with one of the three section
    prefixes, whatever the label and the keyword lists. *)
Theorem categorize_item_shape (U : Unicode) (ta tl te : list string)
    (label : str) :
  let category := Shared.categorize_item ta tl te label in
  category = txt "unknown" \/
  startswith category (txt "asset_") = true \/
  startswith category (txt "liability_") = true \/
  startswith category (txt "equity_") = true.
Proof.
  unfold Shared.categorize_item.
  destruct (first_category asset_patterns (lower label));
    [right; left; apply startswith_app|].
  destruct (first_category liability_patterns (lower label));
    [right; right; left; apply startswith_app|].
  destruct (first_category equity_patterns (lower label));
    [right; right; right; apply startswith_app|].
  destruct (any_in (lower label) ta); [right; left; reflexivity|].
  destruct (any_in (lower label) tl); [right; right; left; reflexivity|].
  destruct (any_in (lower label) te); [right; right; right; reflexivity|].
  now left.
Qed.

Example plural_liabilities_are_not_listed :
  let items := @CSVParser._extract_balance_sheet_from_dataframe ascii_unicode
                 two_column_frame in
  map name (assets items) = [txt "Total assets"] /\
  liabilities items = [] /\ equity items = [] /\
  map (@CSVParser._categorize_balance_sheet_item ascii_unicode)
      [txt "Goodwill"; txt "Total liabilities"]
  = [txt "unknown"; txt "unknown"].
Proof. repeat split; vm_compute; reflexivity. Qed.

(** ** Cleaned text *)

Lemma sub_class_filter (f : char -> bool) (s : str) :
  sub (Cls f) [] s = filter (fun c => negb (f c)) s.
Proof.
  unfold sub. induction s as [|c s IH]; [reflexivity|].
  cbn [sub_from ends filter]. destruct (f c); cbn [negb].
  - assert (E : (length s <? length (c :: s))%nat = true)
      by (apply Nat.ltb_lt; cbn [length]; lia).
    rewrite E.
    replace (length (c :: s) - length s - 1)%nat with 0%nat
      by (cbn [length]; lia).
    exact IH.
  - now rewrite IH.
Qed.

Lemma ends_Star_not_nil (r : regex) (s : str) : ends (Star r) s <> [].
Proof.
  simpl. destruct (length s); [discriminate|].
  intros H. apply app_eq_nil in H. destruct H. discriminate.
Qed.

Lemma ends_shorter (f : char -> bool) (r : regex) (s s2 : str) :
  In s2 (ends (Cat (Cls f) r) s) -> (length s2 < length s)%nat.
Proof.
  simpl. destruct s as [|c s']; [contradiction|].
  destruct (f c); [|contradiction]. simpl. rewrite app_nil_r. intros H.
  destruct (@ends_consumed (fun _ => True) r) with (s := s') (s2 := s2)
    as (s1 & -> & _); [|exact H|].
  - clear. induction r; simpl; auto.
  - rewrite length_app. simpl. lia.
Qed.

(** Replacing every run of white space by one blank leaves blanks and
    characters that are not white space. *)
Lemma sub_spaces (s : str) (skip : nat) :
  Forall (fun c => c = 32%N \/ isspace c = false)
         (sub_from (Plus Space) (txt " ") s skip).
Proof.
  revert skip. induction s as [|c s IH]; intros skip; [constructor|].
  cbn [sub_from]. destruct skip as [|k]; [|apply IH].
  destruct (ends (Plus Space) (c :: s)) as [|rest l] eqn:E.
  - constructor; [|apply IH]. right.
    destruct (isspace c) eqn:Hc; [|reflexivity].
    exfalso. unfold Plus, Space in E. cbn [ends] in E. rewrite Hc in E.
    cbn [flat_map] in E. rewrite app_nil_r in E.
    apply (@ends_Star_not_nil Space s). exact E.
  - assert (Hlt : (length rest < length (c :: s))%nat).
    { apply (@ends_shorter isspace (Star Space)).
      change (In rest (ends (Plus Space) (c :: s))).
      rewrite E. now left. }
    apply Nat.ltb_lt in Hlt. rewrite Hlt.
    constructor; [now left|apply IH].
Qed.

Lemma In_piece (s : str) (u v : nat) (c : char) :
  In c (piece s u v) -> In c s.
Proof.
  unfold piece. intros H.
  rewrite <- (firstn_skipn u s). apply in_or_app. right.
  rewrite <- (firstn_skipn (v - u) (skipn u s)). apply in_or_app.
  now left.
Qed.

Lemma strip_sublist (P : char -> Prop) (s : str) :
  Forall P s -> Forall P (strip s).
Proof.
  intros H. destruct (strip_window s) as (u & v & _ & -> & _).
  apply Forall_forall. intros c Hc. apply In_piece in Hc.
  eapply Forall_forall in H; eassumption.
Qed.

Lemma lstrip_hd (s : str) (c : char) :
  hd_error (lstrip s) = Some c -> isspace c = false.
Proof.
  induction s as [|d s IH]; simpl; [discriminate|].
  destruct (isspace d) eqn:E; [exact IH|]. simpl. now intros [= <-].
Qed.

(** A stripped text neither starts nor ends with white space. *)
Lemma strip_ends (s : str) (c : char) :
  hd_error (strip s) = Some c \/ hd_error (rev (strip s)) = Some c ->
  isspace c = false.
Proof.
  unfold strip. intros [H|H].
  - destruct (rstrip_firstn (lstrip s)) as (v & _ & E & _).
    rewrite E in H. apply (lstrip_hd s).
    destruct v; [discriminate|]. destruct (lstrip s); [discriminate|].
    exact H.
  - unfold rstrip in H. rewrite rev_involutive in H.
    eapply lstrip_hd. exact H.
Qed.

Lemma split_char_one_line (sep : char) (s : str) :
  Forall (fun c => c <> sep) s -> split_char sep s = [s].
Proof.
  induction 1 as [|c s Hc _ IH]; [reflexivity|].
  simpl. apply N.eqb_neq in Hc. now rewrite Hc, IH.
Qed.

Lemma clean_text_printable (text : str) :
  Forall (fun c => (32 <= c <= 126)%N) (_clean_text text).
Proof.
  unfold _clean_text. apply strip_sublist.
  rewrite sub_class_filter. apply Forall_forall. intros c Hc.
  apply filter_In in Hc. destruct Hc as [Hin Hc].
  pose proof (sub_spaces text 0) as Hs.
  eapply Forall_forall in Hs; [|exact Hin].
  unfold not_printable in Hc. rewrite negb_involutive in Hc.
  destruct Hs as [->|Hs]; [lia|].
  apply orb_true_iff in Hc. destruct Hc as [Hc|Hc].
  - apply orb_true_iff in Hc. destruct Hc as [Hc|Hc].
    + apply orb_true_iff in Hc. destruct Hc as [Hc|Hc].
      * apply andb_true_iff in Hc. destruct Hc as [H1 H2].
        apply N.leb_le in H1, H2. lia.
      * apply N.eqb_eq in Hc. subst c. discriminate.
    + apply N.eqb_eq in Hc. subst c. discriminate.
  - apply N.eqb_eq in Hc. subst c. discriminate.
Qed.

Lemma clean_text_one_line (text : str) :
  split_char 10 (_clean_text text) = [_clean_text text].
Proof.
  apply split_char_one_line.
  eapply Forall_impl; [|apply clean_text_printable].
  intros c Hc. simpl in Hc. lia.
Qed.

(** [_clean_text] returns printable ASCII only (codes 32 to 126, so no
    tab and no line break), with no blank at either end; the result is
    therefore a single line. *)
Theorem clean_text_is_one_printable_line (text : str) :
  Forall (fun c => (32 <= c <= 126)%N) (_clean_text text) /\
  (forall c, hd_error (_clean_text text) = Some c -> c <> 32%N) /\
  (forall c, hd_error (rev (_clean_text text)) = Some c -> c <> 32%N) /\
  split_char 10 (_clean_text text) = [_clean_text text].
Proof.
  split; [apply clean_text_printable|].
  split; [|split].
  - intros c H ->. unfold _clean_text in H.
    assert (isspace 32 = false) by (eapply strip_ends; left; exact H).
    discriminate.
  - intros c H ->. unfold _clean_text in H.
    assert (isspace 32 = false) by (eapply strip_ends; right; exact H).
    discriminate.
  - apply clean_text_one_line.
Qed.

Example clean_text_keeps_double_blanks :
  _clean_text [97; 32; 1; 32; 98]%N = txt "a  b".
Proof. reflexivity. Qed.

(** ** The fields of a figure *)

Lemma find_from_range (s sub : str) (i : Z) :
  find_from s sub i = -1 \/ i <= find_from s sub i.
Proof.
  revert i. induction s as [|c s IH]; intros i; cbn [find_from];
    destruct (startswith _ sub); try lia.
  destruct (IH (i + 1)); lia.
Qed.

Lemma slice_is_piece (s : str) (a b : Z) :
  slice s a b = piece s (Z.to_nat (adjust (len s) a))
                        (Z.to_nat (adjust (len s) b)).
Proof.
  unfold slice, piece. f_equal.
  assert (0 <= adjust (len s) a).
  { unfold adjust, len. destruct (a <? 0) eqn:E; [lia|].
    apply Z.ltb_ge in E. lia. }
  lia.
Qed.

Section Context.
Context {U : Unicode}.

Lemma get_context_bound (text term : str) (window : Z) :
  0 <= window ->
  len (_get_context text term window) <= len term + 2 * window.
Proof.
  intros Hw. unfold _get_context.
  pose proof (find_from_range (lower text) (lower term) 0) as Hp.
  fold (find (lower text) (lower term)) in Hp.
  set (position := find (lower text) (lower term)) in *.
  destruct (position =? -1) eqn:E.
  - unfold len. cbn [length]. lia.
  - apply Z.eqb_neq in E. destruct Hp as [Hp|Hp]; [contradiction|].
    unfold slice. unfold len at 1. rewrite length_firstn, length_skipn.
    unfold adjust.
    destruct (Z.max 0 (position - window) <? 0) eqn:E1;
      [apply Z.ltb_lt in E1; lia|].
    destruct (Z.min (len text) (position + len term + window) <? 0) eqn:E2;
      [apply Z.ltb_lt in E2; unfold len in *; lia|].
    unfold len in *. lia.
Qed.

Lemma get_context_piece (text term : str) (window : Z) :
  exists i j, _get_context text term window = piece text i j.
Proof.
  unfold _get_context. destruct (_ =? -1).
  - exists 0%nat, 0%nat. reflexivity.
  - eexists _, _. apply slice_is_piece.
Qed.

End Context.

(** Every figure that [extract_financial_figures] returns carries one of
    the currency codes USD, EUR and GBP (the [generic] pattern reports
    USD), and as its context the result of [_get_context] for its matched
    text with the default window: a contiguous piece of the text that is
    at most 100 characters longer than the matched text. *)
Theorem figure_currency_and_context (U : Unicode) (text : str) (f : Figure) :
  In f (extract_financial_figures text) ->
  In (currency f) [txt "USD"; txt "EUR"; txt "GBP"] /\
  context f = _get_context text (raw_text f) 50 /\
  len (context f) <= len (raw_text f) + 100 /\
  exists i j, context f = piece text i j.
Proof.
  unfold extract_financial_figures. intros H.
  apply in_flat_map in H. destruct H as ([cur p] & Hcp & H).
  apply in_flat_map in H. destruct H as (m & Hm & H).
  unfold figure_of_match in H. cbn [fst snd] in H.
  destruct (Decimal_of_str (remove_char 44 m)) as [d|]; [|contradiction].
  destruct H as [<-|[]]. cbn [currency context raw_text].
  split; [|split; [reflexivity|split]].
  - unfold currency_patterns in Hcp.
    destruct Hcp as [E|[E|[E|[E|[]]]]]; inversion E; subst cur;
      vm_compute; auto.
  - pose proof (@get_context_bound U text m 50). lia.
  - apply get_context_piece.
Qed.

Lemma figure_currency_and_context_witness :
  In (currency figure_500) [txt "USD"; txt "EUR"; txt "GBP"] /\
  context figure_500
  = @_get_context ascii_unicode (txt "-500") (raw_text figure_500) 50 /\
  len (context figure_500) <= len (raw_text figure_500) + 100 /\
  exists i j, context figure_500 = piece (txt "-500") i j.
Proof.
  apply (@figure_currency_and_context ascii_unicode (txt "-500")).
  vm_compute. left. reflexivity.
Defined.

(** ** Which texts hold a figure *)

Lemma digits_value_digits (s : str) (acc n : N) :
  digits_value acc s = Some n -> Forall (fun c => is_digit09 c = true) s.
Proof.
  revert acc. induction s as [|c s IH]; intros acc H; [constructor|].
  simpl in H. destruct (is_digit09 c) eqn:E; [|discriminate].
  constructor; [exact E|eauto].
Qed.

Lemma digits_value_Some (s : str) (acc : N) :
  Forall (fun c => is_digit09 c = true) s ->
  exists n, digits_value acc s = Some n.
Proof.
  intros H. revert acc. induction H as [|c s Hc _ IH]; intros acc; simpl.
  - eauto.
  - rewrite Hc. apply IH.
Qed.

Lemma In_before_point (s : str) (c : char) :
  In c (before_point s) -> In c s.
Proof.
  induction s as [|d s IH]; simpl; [auto|].
  destruct (d =? 46)%N; [contradiction|].
  intros [H|H]; auto.
Qed.

Lemma In_after_point (s f : str) (c : char) :
  after_point s = Some f -> In c f -> In c s.
Proof.
  induction s as [|d s IH]; simpl; [discriminate|].
  destruct (d =? 46)%N; [intros [= ->]; auto|auto].
Qed.

(** A text that [Decimal] accepts holds a digit. *)
Lemma Decimal_of_str_digit (s : str) (d : Decimal) :
  Decimal_of_str s = Some d ->
  exists c, In c s /\ is_digit09 c = true.
Proof.
  assert (Hu : forall neg t, unsigned_decimal neg t = Some d ->
                 exists c, In c t /\ is_digit09 c = true).
  { intros neg t H. unfold unsigned_decimal in H. cbv zeta in H.
    destruct (before_point t ++ _) as [|c l] eqn:E; [discriminate|].
    destruct (digits_value 0 (c :: l)) as [n|] eqn:En; [|discriminate].
    apply digits_value_digits in En. inversion En as [|? ? Hc _]; subst.
    exists c. split; [|exact Hc].
    assert (Hin : In c (c :: l)) by now left.
    rewrite <- E in Hin.
    apply in_app_or in Hin. destruct Hin as [Hin|Hin].
    - now apply In_before_point.
    - destruct (after_point t) as [f|] eqn:Ef; [|contradiction].
      eapply In_after_point; eassumption. }
  unfold Decimal_of_str. destruct s as [|c s']; [apply Hu|].
  destruct (c =? 45)%N.
  { intros H. destruct (Hu _ _ H) as (x & Hx & Hd). exists x. split; auto.
    now right. }
  destruct (c =? 43)%N.
  { intros H. destruct (Hu _ _ H) as (x & Hx & Hd). exists x. split; auto.
    now right. }
  apply Hu.
Qed.

Lemma In_remove_char (x c : char) (s : str) :
  In c (remove_char x s) -> In c s.
Proof. unfold remove_char. intros H. apply filter_In in H. tauto. Qed.

(** The group of a match is cut from the text. *)
Lemma match_at_within (p : pattern) (s g rest : str) (c : char) :
  match_at p s = Some (g, rest) -> In c g -> In c s.
Proof.
  unfold match_at. intros H Hc.
  assert (Hin : In (g, rest)
            (flat_map (fun s1 => map (fun s2 =>
               (firstn (length s1 - length s2) s1, s2)) (ends (grp p) s1))
               (ends (pre p) s))).
  { destruct (flat_map _ _); [discriminate|]. injection H as ->. now left. }
  apply in_flat_map in Hin. destruct Hin as (s1 & H1 & Hin).
  apply in_map_iff in Hin. destruct Hin as (s2 & [= <- <-] & _).
  destruct (@ends_consumed (fun _ => True) (pre p)) with (s := s) (s2 := s1)
    as (a & -> & _); [|exact H1|].
  - generalize (pre p). clear. induction r; simpl; auto.
  - apply in_or_app. right.
    rewrite <- (firstn_skipn (length s1 - length s2) s1).
    apply in_or_app. now left.
Qed.

Lemma findall_from_within (p : pattern) (s : str) (skip : nat) (g : str)
      (c : char) :
  In g (findall_from p s skip) -> In c g -> In c s.
Proof.
  revert skip. induction s as [|d s IH]; simpl; intros skip Hin Hc.
  - destruct skip; [|contradiction].
    destruct (match_at p []) as [[g' r]|] eqn:Hm; [|contradiction].
    destruct Hin as [<-|[]]. exact (@match_at_within p [] g' r c Hm Hc).
  - destruct skip as [|k]; [|eauto].
    destruct (match_at p (d :: s)) as [[g' r]|] eqn:Hm; [|eauto].
    destruct Hin as [<-|Hin]; [|eauto].
    eapply (@match_at_within p (d :: s)); eassumption.
Qed.

Lemma findall_from_skip (p : pattern) (a b : str) :
  findall_from p (a ++ b) (length a) = findall_from p b 0.
Proof. induction a as [|x a IH]; [reflexivity|exact IH]. Qed.

Lemma ends_Cls_In (f : char -> bool) (s x : str) :
  In x (ends (Cls f) s) -> exists c, s = c :: x /\ f c = true.
Proof.
  simpl. destruct s as [|c s']; [contradiction|].
  destruct (f c) eqn:E; [|contradiction].
  intros [<-|[]]. eauto.
Qed.

(** What the numeral pattern consumes: digits and commas, then nothing or
    a point and two digits. *)
Lemma ends_numeral_shape (s s2 : str) :
  In s2 (ends numeral s) ->
  exists run tail,
    s = run ++ tail ++ s2 /\ run <> [] /\
    Forall (fun c => is_digit_or_comma c = true) run /\
    (tail = [] \/
     exists d1 d2, tail = [46%N; d1; d2] /\
                   is_digit09 d1 = true /\ is_digit09 d2 = true).
Proof.
  unfold numeral. cbn [ends]. intros H.
  apply in_flat_map in H. destruct H as (sm & Hm & H).
  assert (Hlt : (length sm < length s)%nat).
  { apply (@ends_shorter is_digit_or_comma (Star (Cls is_digit_or_comma))).
    exact Hm. }
  destruct (@ends_consumed (fun c => is_digit_or_comma c = true)
              (Plus (Cls is_digit_or_comma)))
    with (s := s) (s2 := sm) as (run & -> & Hrun);
    [cbn; auto|exact Hm|].
  exists run.
  unfold Opt in H. cbn [ends] in H. apply in_app_or in H.
  destruct H as [H|[<-|[]]].
  - apply in_flat_map in H. destruct H as (x & Hx & H).
    apply in_flat_map in H. destruct H as (y & Hy & H).
    apply ends_Cls_In in Hx, Hy, H.
    destruct Hx as (a & -> & Ea), Hy as (b & -> & Eb), H as (c & -> & Ec).
    apply N.eqb_eq in Ea. subst a.
    exists [46%N; b; c]. split; [reflexivity|].
    split; [intros ->; simpl in Hlt; lia|].
    split; [exact Hrun|]. right. eauto.
  - exists []. split; [reflexivity|].
    split; [intros ->; simpl in Hlt; lia|].
    split; [exact Hrun|]. now left.
Qed.

Lemma ends_numeral_start (c : char) (s : str) :
  ends numeral (c :: s) <> [] <-> is_digit_or_comma c = true.
Proof.
  unfold numeral, Plus. cbn [ends]. destruct (is_digit_or_comma c).
  - split; [reflexivity|intros _].
    cbn [flat_map]. rewrite app_nil_r.
    pose proof (@ends_Star_not_nil (Cls is_digit_or_comma) s) as Hs.
    cbn [ends] in Hs.
    destruct ((fix loop (n : nat) (s0 : str) {struct n} : list str := _)
                (length s) s) as [|x l]; [contradiction|].
    cbn [flat_map]. unfold Opt. cbn [ends].
    intros H. apply app_eq_nil in H. destruct H as [H _].
    apply app_eq_nil in H. destruct H. discriminate.
  - split; [intros H; now contradiction H|discriminate].
Qed.

Lemma match_at_generic (s : str) :
  match_at generic_pattern s
  = hd_error (map (fun s2 => (firstn (length s - length s2) s, s2))
                  (ends numeral s)).
Proof.
  unfold match_at, generic_pattern. cbn [pre grp ends flat_map].
  now rewrite app_nil_r.
Qed.

(** A numeral with a digit parses once its commas are gone. *)
Lemma numeral_parses (run tail : str) :
  Forall (fun c => is_digit_or_comma c = true) run ->
  (tail = [] \/
   exists d1 d2, tail = [46%N; d1; d2] /\
                 is_digit09 d1 = true /\ is_digit09 d2 = true) ->
  (exists c, In c (run ++ tail) /\ is_digit09 c = true) ->
  exists d, Decimal_of_str (remove_char 44 (run ++ tail)) = Some d.
Proof.
  intros Hrun Htail Hdig.
  set (ds := remove_char 44 run).
  assert (Hds : Forall (fun c => is_digit09 c = true) ds).
  { apply Forall_forall. intros c Hc. unfold ds, remove_char in Hc.
    apply filter_In in Hc. destruct Hc as [Hin Hc].
    eapply Forall_forall in Hrun; [|exact Hin].
    unfold is_digit_or_comma in Hrun. apply orb_true_iff in Hrun.
    destruct Hrun as [H|H]; [exact H|].
    rewrite H in Hc. discriminate. }
  assert (Hnp : forall l, Forall (fun c => is_digit09 c = true) l ->
                  forall t, before_point (l ++ 46%N :: t) = l /\
                            after_point (l ++ 46%N :: t) = Some t).
  { induction 1 as [|c l Hc _ IH]; intros t; [split; reflexivity|].
    cbn [app before_point after_point].
    assert ((c =? 46)%N = false) as ->.
    { unfold is_digit09 in Hc. apply andb_true_iff in Hc.
      destruct Hc as [H1 _]. apply N.leb_le in H1. apply N.eqb_neq. lia. }
    destruct (IH t) as [-> ->]. split; reflexivity. }
  assert (Hnn : forall l, Forall (fun c => is_digit09 c = true) l ->
                  before_point l = l /\ after_point l = None).
  { induction 1 as [|c l Hc _ [IH1 IH2]]; [split; reflexivity|].
    cbn [before_point after_point].
    assert ((c =? 46)%N = false) as ->.
    { unfold is_digit09 in Hc. apply andb_true_iff in Hc.
      destruct Hc as [H1 _]. apply N.leb_le in H1. apply N.eqb_neq. lia. }
    rewrite IH1, IH2. split; reflexivity. }
  assert (Hrm : remove_char 44 (run ++ tail) = ds ++ tail).
  { unfold ds, remove_char. rewrite filter_app. f_equal.
    destruct Htail as [->|(d1 & d2 & -> & H1 & H2)]; [reflexivity|].
    cbn [filter].
    assert (forall d, is_digit09 d = true -> negb (d =? 44)%N = true) as Hne.
    { intros d Hd. unfold is_digit09 in Hd. apply andb_true_iff in Hd.
      destruct Hd as [Hd _]. apply N.leb_le in Hd.
      apply negb_true_iff, N.eqb_neq. lia. }
    change (negb (46 =? 44)%N) with true. cbv iota.
    rewrite (Hne _ H1), (Hne _ H2). reflexivity. }
  rewrite Hrm.
  assert (Hsign : Decimal_of_str (ds ++ tail)
                  = unsigned_decimal false (ds ++ tail)).
  { unfold Decimal_of_str. destruct (ds ++ tail) as [|c l] eqn:E;
      [reflexivity|].
    assert (Hc : numeral_char c).
    { unfold numeral_char. destruct ds as [|x ds'].
      - destruct Htail as [->|(d1 & d2 & -> & _)]; [discriminate|].
        injection E as <- _. auto.
      - injection E as <- _. inversion Hds; auto. }
    destruct (numeral_char_not_sign Hc) as [-> ->]. reflexivity. }
  rewrite Hsign. unfold unsigned_decimal.
  destruct Htail as [->|(d1 & d2 & -> & H1 & H2)].
  - rewrite app_nil_r. destruct (Hnn _ Hds) as [-> ->]. rewrite app_nil_r.
    destruct ds as [|c l] eqn:E.
    + exfalso. destruct Hdig as (c & Hc & Hd). rewrite app_nil_r in Hc.
      assert (In c ds).
      { unfold ds, remove_char. apply filter_In. split; [exact Hc|].
        unfold is_digit09 in Hd. apply andb_true_iff in Hd.
        destruct Hd as [Hd _]. apply N.leb_le in Hd.
        apply negb_true_iff, N.eqb_neq. lia. }
      rewrite E in H. contradiction.
    + destruct (digits_value_Some 0 Hds) as (n & ->). eauto.
  - destruct (Hnp _ Hds [d1; d2]) as [-> ->].
    assert (Hall : Forall (fun c => is_digit09 c = true) (ds ++ [d1; d2])).
    { apply Forall_app. split; [exact Hds|]. repeat constructor; assumption. }
    destruct (ds ++ [d1; d2]) as [|c l] eqn:E.
    + apply app_eq_nil in E. destruct E. discriminate.
    + destruct (digits_value_Some 0 Hall) as (n & ->). eauto.
Qed.

(** A text with a digit has a match of the bare numeral pattern that
    parses. *)
Lemma findall_generic_digit (n : nat) (s : str) :
  (length s <= n)%nat ->
  (exists c, In c s /\ is_digit09 c = true) ->
  exists m d, In m (findall generic_pattern s) /\
              Decimal_of_str (remove_char 44 m) = Some d.
Proof.
  unfold findall. revert s. induction n as [|n IH]; intros s Hn (c & Hc & Hd).
  { destruct s; [contradiction|simpl in Hn; lia]. }
  destruct s as [|x s']; [contradiction|].
  cbn [findall_from]. rewrite match_at_generic.
  destruct (ends numeral (x :: s')) as [|rest l] eqn:E.
  - cbn [map hd_error].
    assert (Hx : is_digit_or_comma x = false).
    { destruct (is_digit_or_comma x) eqn:Ex; [|reflexivity].
      apply (ends_numeral_start x s') in Ex. contradiction. }
    destruct Hc as [->|Hc].
    + unfold is_digit_or_comma in Hx. rewrite Hd in Hx. discriminate.
    + apply IH; [simpl in Hn; lia|eauto].
  - cbn [map hd_error].
    destruct (@ends_numeral_shape (x :: s') rest)
      as (run & tail & Hs & Hne & Hrun & Htail); [rewrite E; now left|].
    assert (Hg : firstn (length (x :: s') - length rest) (x :: s')
                 = run ++ tail).
    { rewrite Hs, app_assoc.
      replace (length ((run ++ tail) ++ rest) - length rest)%nat
        with (length (run ++ tail) + 0)%nat
        by (rewrite (length_app (run ++ tail)); lia).
      rewrite firstn_app_2. cbn [firstn]. apply app_nil_r. }
    rewrite Hg.
    destruct (existsb is_digit09 (run ++ tail)) eqn:Ex.
    + apply existsb_exists in Ex.
      destruct (numeral_parses Hrun Htail Ex) as (d & Hp).
      exists (run ++ tail), d. split; [now left|exact Hp].
    + assert (Hrest : In c rest).
      { rewrite Hs, app_assoc in Hc. apply in_app_or in Hc.
        destruct Hc as [Hc|Hc]; [|exact Hc].
        exfalso. apply Bool.not_true_iff_false in Ex. apply Ex.
        apply existsb_exists. eauto. }
      destruct run as [|y run']; [contradiction|].
      assert (Hs' : s' = (run' ++ tail) ++ rest).
      { rewrite <- app_assoc. cbn [app] in Hs. now injection Hs. }
      replace (length (x :: s') - length rest - 1)%nat
        with (length (run' ++ tail)).
      2:{ rewrite Hs'. cbn [length]. rewrite (length_app (run' ++ tail)).
          lia. }
      rewrite Hs', findall_from_skip.
      destruct (IH rest) as (m & d & Hm & Hp).
      * rewrite Hs' in Hn. cbn [length] in Hn.
        rewrite (length_app (run' ++ tail)) in Hn. lia.
      * eauto.
      * exists m, d. split; [now right|exact Hp].
Qed.

Lemma figures_digit (U : Unicode) (text : str) :
  extract_financial_figures text <> [] <->
  exists c, In c text /\ is_digit09 c = true.
Proof.
  split.
  - destruct (extract_financial_figures text) as [|f l] eqn:E;
      [intros H; now contradiction H|intros _].
    assert (Hf : In f (extract_financial_figures text))
      by (rewrite E; now left).
    unfold extract_financial_figures in Hf.
    apply in_flat_map in Hf. destruct Hf as ([cur p] & _ & Hf).
    apply in_flat_map in Hf. destruct Hf as (m & Hm & Hf).
    unfold figure_of_match in Hf.
    destruct (Decimal_of_str (remove_char 44 m)) as [d|] eqn:Hd;
      [|contradiction].
    destruct (Decimal_of_str_digit _ Hd) as (c & Hc & Hdig).
    exists c. split; [|exact Hdig].
    apply In_remove_char in Hc.
    eapply findall_from_within; eassumption.
  - intros H.
    destruct (@findall_generic_digit (length text) text (le_n _) H)
      as (m & d & Hm & Hp).
    unfold extract_financial_figures, currency_patterns.
    cbn [flat_map fst snd]. rewrite app_nil_r.
    intros E. repeat (apply app_eq_nil in E; destruct E as [_ E]).
    assert (Hin : In {| amount := d; currency := txt "USD"; raw_text := m;
                       context := _get_context text m 50 |}
                    (flat_map (figure_of_match text (txt "generic"))
                              (findall generic_pattern text))).
    { apply in_flat_map. exists m. split; [exact Hm|].
      unfold figure_of_match. rewrite Hp. now left. }
    rewrite E in Hin. contradiction.
Qed.

(** [extract_financial_figures] returns a figure exactly for the texts
    that hold an ASCII digit: any digit, of a date or a page number as
    well, is reported as an amount. *)
Theorem figures_iff_digit (U : Unicode) (text : str) :
  extract_financial_figures text <> [] <->
  exists c, In c text /\ is_digit09 c = true.
Proof. apply figures_digit. Qed.

(** ** Tables of a result *)

Lemma extract_table_well_counted (df : DataFrame) (t : Table) :
  Shared.extract_table df = Some t -> well_counted t.
Proof.
  unfold Shared.extract_table, df_empty, well_counted.
  destruct (df_columns df) as [|c cs] eqn:Ec; [discriminate|].
  destruct (df_rows df) as [|r rs] eqn:Er; [discriminate|].
  intros [= <-]. cbn [table_row_count table_rows column_count headers].
  unfold len. cbn [length]. rewrite length_map. lia.
Qed.

Lemma pdf_tables_well_counted (w : PDFParser.World) (file_path : path) :
  Forall well_counted (PDFParser._extract_tables_from_pdf w file_path).
Proof.
  unfold PDFParser._extract_tables_from_pdf.
  apply Forall_forall. intros t Ht.
  apply in_flat_map in Ht. destruct Ht as (page_tables & _ & Ht).
  apply in_flat_map in Ht. destruct Ht as (table & _ & Ht).
  destruct (1 <? len table) eqn:E; [|contradiction].
  destruct Ht as [<-|[]]. apply Z.ltb_lt in E.
  unfold well_counted, PDFParser.processed_table.
  cbn [table_row_count table_rows column_count headers].
  destruct table as [|h rest]; unfold len in *; cbn [length tl hd] in *; lia.
Qed.

Section Tables.
Context {U : Unicode}.

Lemma option_table_well_counted (o : option Table) :
  (forall t, o = Some t -> well_counted t) ->
  Forall well_counted match o with Some t => [t] | None => [] end.
Proof. destruct o; intros H; constructor; auto. Qed.

Lemma process_sheet_tables (w : ExcelParser.World) fuel df sheet_name sr :
  ExcelParser._process_sheet w fuel df sheet_name = Return sr ->
  Forall well_counted (ExcelParser.sheet_tables sr).
Proof.
  unfold ExcelParser._process_sheet. intros H.
  destruct (df_empty df); [injection H as <-; constructor|].
  repeat (apply bind_Return in H; destruct H as (? & ? & H)).
  injection H as <-. cbn [ExcelParser.sheet_tables].
  match goal with
  | Ht : at_line _ 131 _ = Return _ |- _ =>
      apply at_line_Return in Ht; injection Ht as <-
  end.
  apply option_table_well_counted. intros t.
  apply extract_table_well_counted.
Qed.

Lemma process_sheets_tables (w : ExcelParser.World) fuel all_sheets :
  forall acc all,
    ExcelParser.process_sheets w fuel all_sheets acc = Return all ->
    Forall well_counted (ExcelParser.sheet_tables acc) ->
    Forall well_counted (ExcelParser.sheet_tables all).
Proof.
  induction all_sheets as [|[sheet_name df] rest IH]; intros acc all H Hacc.
  - injection H as <-. exact Hacc.
  - cbn [ExcelParser.process_sheets] in H.
    apply bind_Return in H. destruct H as (sr & Hsr & H).
    apply at_line_Return in Hsr. apply process_sheet_tables in Hsr.
    apply IH in H; [exact H|].
    cbn [ExcelParser.sheet_tables]. apply Forall_app. auto.
Qed.

End Tables.

(** Every table in a result of the CSV, spreadsheet or PDF back-end has a
    [row_count] equal to its number of rows, at least one row, and a
    [column_count] equal to its number of header cells: a PDF table made
    of a header alone and the table of an empty frame are left out. *)
Theorem tables_are_well_counted (U : Unicode) :
  (forall w fuel file_path r,
     CSVParser.parse w fuel file_path = Return r ->
     Forall well_counted (tables r)) /\
  (forall w fuel file_path r,
     ExcelParser.parse w fuel file_path = Return r ->
     Forall well_counted (tables r)) /\
  (forall w fuel file_path r,
     PDFParser.parse w fuel file_path = Return r ->
     Forall well_counted (tables r)).
Proof.
  split; [|split]; intros w fuel file_path r H.
  - unfold CSVParser.parse in H.
    destruct (try_except_failed (txt "CSV parsing failed: ")
                (CSVParser.parse_body w fuel file_path)) as (_ & _ & H3).
    destruct (H3 r H) as [Hb|(e & _ & ->)]; [|constructor].
    clear H H3. unfold CSVParser.parse_body in Hb.
    apply bind_Return in Hb. destruct Hb as (encoding & _ & Hb).
    apply bind_Return in Hb. destruct Hb as (df & _ & Hb).
    apply bind_Return in Hb. destruct Hb as (unreadable & _ & Hb).
    destruct df as [df|]; [destruct unreadable|];
      try (injection Hb as <-; constructor).
    repeat (apply bind_Return in Hb; destruct Hb as (? & ? & Hb)).
    apply at_line_Return in Hb. injection Hb as <-. cbn [tables].
    match goal with
    | Ht : at_line _ 68 _ = Return _ |- _ =>
        apply at_line_Return in Ht; injection Ht as <-
    end.
    apply option_table_well_counted. intros t.
    apply extract_table_well_counted.
  - unfold ExcelParser.parse in H.
    destruct (try_except_failed (txt "Excel parsing failed: ")
                (ExcelParser.parse_body w fuel file_path)) as (_ & _ & H3).
    destruct (H3 r H) as [Hb|(e & _ & ->)]; [|constructor].
    clear H H3.
    assert (Hsheets : forall all_sheets,
      ExcelParser.parse_sheets w fuel empty_result all_sheets = Return r ->
      Forall well_counted (tables r)).
    { intros all_sheets H. unfold ExcelParser.parse_sheets in H.
      destruct all_sheets as [|sheet rest]; [injection H as <-; constructor|].
      apply bind_Return in H. destruct H as (all & Hall & H).
      apply bind_Return in H. destruct H as (u & _ & H).
      apply at_line_Return in H. injection H as <-. cbn [tables].
      eapply process_sheets_tables; [exact Hall|constructor]. }
    unfold ExcelParser.parse_body in Hb.
    destruct (ExcelParser.read_excel_openpyxl w file_path) as [sheets|e1];
      [eauto|].
    destruct (ExcelParser.read_excel_xlrd w file_path) as [sheets|e2];
      [eauto|].
    injection Hb as <-. constructor.
  - unfold PDFParser.parse in H.
    destruct (try_except_failed (txt "PDF parsing failed: ")
                (PDFParser.parse_body w fuel file_path)) as (_ & _ & H3).
    destruct (H3 r H) as [Hb|(e & _ & ->)]; [|constructor].
    clear H H3. unfold PDFParser.parse_body in Hb.
    apply bind_Return in Hb. destruct Hb as ([t ws] & _ & Hb).
    cbn [fst snd] in Hb.
    destruct t as [|c t]; [injection Hb as <-; constructor|].
    repeat (apply bind_Return in Hb; destruct Hb as (? & ? & Hb)).
    apply at_line_Return in Hb. injection Hb as <-. cbn [tables].
    match goal with
    | Ht : at_line _ 76 _ = Return _ |- _ =>
        apply at_line_Return in Ht; injection Ht as <-
    end.
    apply pdf_tables_well_counted.
Qed.

Lemma tables_are_well_counted_witness :
  Forall well_counted (tables table_pdf_result).
Proof.
  apply (proj2 (proj2 (tables_are_well_counted ascii_unicode))
           table_pdf_world 0%nat (txt "tables.pdf") table_pdf_result).
  vm_compute. reflexivity.
Defined.

Example one_table_of_two :
  map (fun t => (table_row_count t, column_count t)) (tables table_pdf_result)
  = [(1, 2)].
Proof. vm_compute. reflexivity. Qed.

(** ** The text of a PDF *)

(** When pdfplumber and PyPDF2 each read fewer than 100 characters (blanks
    at the ends not counted) and OCR yields nothing, [parse] reports that
    no text could be extracted, whatever the two readers had found. *)
Theorem pdf_short_text_needs_ocr (U : Unicode) (w : PDFParser.World)
    (fuel : nat) (file_path : path) :
  (forall n, PDFParser.fault w n = None) ->
  PDFParser.too_short (PDFParser._extract_with_pdfplumber w file_path) = true ->
  PDFParser.too_short (PDFParser._extract_with_pypdf2 w file_path) = true ->
  PDFParser._extract_with_ocr w file_path = [] ->
  PDFParser.parse w fuel file_path
  = Return (failed (txt "Failed to extract text from PDF")).
Proof.
  intros Hf H1 H2 H3.
  unfold PDFParser.parse, PDFParser.parse_body, PDFParser.extract_text,
    at_line.
  rewrite !Hf. cbn [bind]. rewrite H1. cbn [bind]. rewrite H2.
  cbn [bind]. rewrite H3. reflexivity.
Qed.

Lemma pdf_short_text_needs_ocr_witness :
  @PDFParser.parse ascii_unicode short_pdf_world 0 (txt "short.pdf")
  = Return (failed (txt "Failed to extract text from PDF")).
Proof.
  apply (@pdf_short_text_needs_ocr ascii_unicode short_pdf_world).
  - reflexivity.
  - vm_compute. reflexivity.
  - vm_compute. reflexivity.
  - vm_compute. reflexivity.
Defined.

(** ** Chunks and figures of a result, as a processed document reads them *)

Section Chunks.
Context {U : Unicode}.

Lemma figures_of_default_chunks fuel text text_chunks section :
  of_fuel (_split_into_chunks fuel text 500 100) = Return text_chunks ->
  flat_map financial_figures (make_chunks section text_chunks)
  = extract_financial_figures text.
Proof.
  intros H. apply default_chunks in H. destruct H as [-> _].
  unfold make_chunks. cbn. apply app_nil_r.
Qed.

Lemma sections_of_default_chunks fuel text text_chunks section :
  of_fuel (_split_into_chunks fuel text 500 100) = Return text_chunks ->
  map section_type (make_chunks section text_chunks) = [section].
Proof.
  intros H. apply default_chunks in H. destruct H as [-> _]. reflexivity.
Qed.

Lemma process_sheet_figures (w : ExcelParser.World) fuel df sheet_name sr :
  ExcelParser._process_sheet w fuel df sheet_name = Return sr ->
  flat_map financial_figures (ExcelParser.sheet_chunks sr)
  = ExcelParser.sheet_figures sr.
Proof.
  unfold ExcelParser._process_sheet. intros H.
  destruct (df_empty df); [injection H as <-; reflexivity|].
  apply bind_Return in H. destruct H as (df_cleaned & _ & H).
  apply bind_Return in H. destruct H as (sheet_text & _ & H).
  apply bind_Return in H. destruct H as (text_chunks & Hs & H).
  apply bind_Return in H. destruct H as (chunks & Hk & H).
  apply bind_Return in H. destruct H as (table_data & _ & H).
  apply bind_Return in H. destruct H as (figures & Hf & H).
  apply bind_Return in H. destruct H as (items & _ & H).
  injection H as <-. cbn [ExcelParser.sheet_chunks ExcelParser.sheet_figures].
  apply at_line_Return in Hs, Hk, Hf. injection Hk as <-. injection Hf as <-.
  eapply figures_of_default_chunks. exact Hs.
Qed.

Lemma process_sheets_figures (w : ExcelParser.World) fuel all_sheets :
  forall acc all,
    ExcelParser.process_sheets w fuel all_sheets acc = Return all ->
    flat_map financial_figures (ExcelParser.sheet_chunks acc)
    = ExcelParser.sheet_figures acc ->
    flat_map financial_figures (ExcelParser.sheet_chunks all)
    = ExcelParser.sheet_figures all.
Proof.
  induction all_sheets as [|[sheet_name df] rest IH]; intros acc all H Hacc.
  - injection H as <-. exact Hacc.
  - cbn [ExcelParser.process_sheets] in H.
    apply bind_Return in H. destruct H as (sr & Hsr & H).
    apply at_line_Return in Hsr. apply process_sheet_figures in Hsr.
    apply IH in H; [exact H|].
    cbn [ExcelParser.sheet_chunks ExcelParser.sheet_figures].
    rewrite flat_map_app, Hacc, Hsr. reflexivity.
Qed.

End Chunks.

Section Shapes.
Context {U : Unicode}.

Lemma csv_parse_shape (w : CSVParser.World) fuel file_path r :
  CSVParser.parse w fuel file_path = Return r ->
  single_chunk_result (Some (txt "csv_data")) r.
Proof.
  intros H. unfold CSVParser.parse in H.
  destruct (try_except_failed (txt "CSV parsing failed: ")
              (CSVParser.parse_body w fuel file_path)) as (_ & _ & H3).
  destruct (H3 r H) as [Hb|(e & _ & ->)]; [|left; split; reflexivity].
  clear H H3. unfold CSVParser.parse_body in Hb.
  apply bind_Return in Hb. destruct Hb as (encoding & _ & Hb).
  apply bind_Return in Hb. destruct Hb as (df & _ & Hb).
  apply bind_Return in Hb. destruct Hb as (unreadable & _ & Hb).
  destruct df as [df|]; [destruct unreadable|];
    try (injection Hb as <-; left; split; reflexivity).
  apply bind_Return in Hb. destruct Hb as (df_cleaned & _ & Hb).
  apply bind_Return in Hb. destruct Hb as (csv_text & _ & Hb).
  apply bind_Return in Hb. destruct Hb as (text_chunks & Hs & Hb).
  apply bind_Return in Hb. destruct Hb as (chunks & Hk & Hb).
  apply bind_Return in Hb. destruct Hb as (table_data & _ & Hb).
  apply bind_Return in Hb. destruct Hb as (all_figures & Hf & Hb).
  apply bind_Return in Hb. destruct Hb as (items & _ & Hb).
  apply bind_Return in Hb. destruct Hb as (analysis & _ & Hb).
  apply at_line_Return in Hb, Hs, Hk, Hf.
  injection Hb as <-. injection Hk as <-. injection Hf as <-.
  apply default_chunks in Hs. destruct Hs as [-> _].
  right. exists csv_text. split; reflexivity.
Qed.

Lemma pdf_parse_shape (w : PDFParser.World) fuel file_path r :
  PDFParser.parse w fuel file_path = Return r ->
  single_chunk_result None r.
Proof.
  intros H. unfold PDFParser.parse in H.
  destruct (try_except_failed (txt "PDF parsing failed: ")
              (PDFParser.parse_body w fuel file_path)) as (_ & _ & H3).
  destruct (H3 r H) as [Hb|(e & _ & ->)]; [|left; split; reflexivity].
  clear H H3. unfold PDFParser.parse_body in Hb.
  apply bind_Return in Hb. destruct Hb as ([t ws] & _ & Hb).
  cbn [fst snd] in Hb.
  destruct t as [|c t]; [injection Hb as <-; left; split; reflexivity|].
  apply bind_Return in Hb. destruct Hb as (cleaned_text & _ & Hb).
  apply bind_Return in Hb. destruct Hb as (text_chunks & Hs & Hb).
  apply bind_Return in Hb. destruct Hb as (chunks & Hk & Hb).
  apply bind_Return in Hb. destruct Hb as (tables & _ & Hb).
  apply bind_Return in Hb. destruct Hb as (all_figures & Hf & Hb).
  apply bind_Return in Hb. destruct Hb as (u1 & _ & Hb).
  apply bind_Return in Hb. destruct Hb as (u2 & _ & Hb).
  apply at_line_Return in Hb, Hs, Hk, Hf.
  injection Hb as <-. injection Hk as <-. injection Hf as <-.
  apply default_chunks in Hs. destruct Hs as [-> _].
  right. exists cleaned_text. split; reflexivity.
Qed.

Lemma xml_parse_shape (w : XMLParser.World) fuel file_path r :
  XMLParser.parse w fuel file_path = Return r ->
  single_chunk_result (Some (txt "xbrl_data")) r \/
  single_chunk_result (Some (txt "xml_data")) r.
Proof.
  intros H. unfold XMLParser.parse in H.
  destruct (try_except_failed (txt "XML/XBRL parsing failed: ")
              (XMLParser.parse_body w fuel file_path)) as (_ & _ & H3).
  destruct (H3 r H) as [Hb|(e & _ & ->)];
    [|left; left; split; reflexivity].
  clear H H3. unfold XMLParser.parse_body in Hb.
  apply bind_Return in Hb. destruct Hb as (root & _ & Hb).
  apply bind_Return in Hb. destruct Hb as (is_xbrl & _ & Hb).
  apply bind_Return in Hb. destruct Hb as (tables & _ & Hb).
  apply bind_Return in Hb. destruct Hb as (xml_text & _ & Hb).
  apply bind_Return in Hb. destruct Hb as (text_chunks & Hs & Hb).
  apply bind_Return in Hb. destruct Hb as (chunks & Hk & Hb).
  apply bind_Return in Hb. destruct Hb as (all_figures & Hf & Hb).
  apply at_line_Return in Hb, Hs, Hk, Hf.
  injection Hb as <-. injection Hk as <-. injection Hf as <-.
  apply default_chunks in Hs. destruct Hs as [-> _].
  destruct is_xbrl; [left|right]; right; exists xml_text;
    split; reflexivity.
Qed.

Lemma single_chunk_figures section r :
  single_chunk_result section r ->
  flat_map financial_figures (chunks r) = figures r.
Proof.
  intros [[-> ->]|(text & -> & ->)]; [reflexivity|].
  unfold make_chunks. cbn. apply app_nil_r.
Qed.

Lemma excel_parse_figures (w : ExcelParser.World) fuel file_path r :
  ExcelParser.parse w fuel file_path = Return r ->
  flat_map financial_figures (chunks r) = figures r.
Proof.
  intros H. unfold ExcelParser.parse in H.
  destruct (try_except_failed (txt "Excel parsing failed: ")
              (ExcelParser.parse_body w fuel file_path)) as (_ & _ & H3).
  destruct (H3 r H) as [Hb|(e & _ & ->)]; [|reflexivity].
  clear H H3.
  assert (Hsheets : forall all_sheets,
    ExcelParser.parse_sheets w fuel empty_result all_sheets = Return r ->
    flat_map financial_figures (chunks r) = figures r).
  { intros all_sheets H. unfold ExcelParser.parse_sheets in H.
    destruct all_sheets as [|sheet rest]; [injection H as <-; reflexivity|].
    apply bind_Return in H. destruct H as (all & Hall & H).
    apply bind_Return in H. destruct H as (u & _ & H).
    apply at_line_Return in H. injection H as <-. cbn [chunks figures].
    eapply process_sheets_figures; [exact Hall|reflexivity]. }
  unfold ExcelParser.parse_body in Hb.
  destruct (ExcelParser.read_excel_openpyxl w file_path) as [sheets|e1];
    [eauto|].
  destruct (ExcelParser.read_excel_xlrd w file_path) as [sheets|e2];
    [eauto|].
  injection Hb as <-. reflexivity.
Qed.

End Shapes.

(** The figures a processed document collects from the chunks of a
    result, [get_financial_figures()], are the figures of the result, in
    the same order, for every result a back-end returns. *)
Theorem figures_of_chunks (U : Unicode) :
  (forall w fuel file_path r,
     CSVParser.parse w fuel file_path = Return r ->
     Document.get_financial_figures (document_of r) = figures r) /\
  (forall w fuel file_path r,
     ExcelParser.parse w fuel file_path = Return r ->
     Document.get_financial_figures (document_of r) = figures r) /\
  (forall w fuel file_path r,
     PDFParser.parse w fuel file_path = Return r ->
     Document.get_financial_figures (document_of r) = figures r) /\
  (forall w fuel file_path r,
     XMLParser.parse w fuel file_path = Return r ->
     Document.get_financial_figures (document_of r) = figures r).
Proof.
  unfold Document.get_financial_figures, document_of.
  cbn [Document.chunks].
  split; [|split; [|split]]; intros w fuel file_path r H.
  - eapply single_chunk_figures, csv_parse_shape, H.
  - eapply excel_parse_figures, H.
  - eapply single_chunk_figures, pdf_parse_shape, H.
  - destruct (xml_parse_shape _ _ _ H) as [Hx|Hx];
      eapply single_chunk_figures, Hx.
Qed.

Lemma figures_of_chunks_witness :
  Document.get_financial_figures (document_of scenario_result)
  = figures scenario_result.
Proof.
  apply (proj1 (figures_of_chunks ascii_unicode)
           scenario_world 0%nat (txt "scenario.csv") scenario_result).
  vm_compute. reflexivity.
Defined.

(** Looking the chunks of a result up by section type,
    [get_chunks_by_section]: every chunk of a CSV result is found under
    [csv_data], every chunk of an XML result under [xbrl_data] or under
    [xml_data]; the chunks of a PDF result carry no section type and are
    found under none. *)
Theorem chunks_by_section (U : Unicode) :
  (forall w fuel file_path r,
     CSVParser.parse w fuel file_path = Return r ->
     Document.get_chunks_by_section (document_of r) (txt "csv_data")
     = chunks r) /\
  (forall w fuel file_path r,
     XMLParser.parse w fuel file_path = Return r ->
     Document.get_chunks_by_section (document_of r) (txt "xbrl_data")
     = chunks r \/
     Document.get_chunks_by_section (document_of r) (txt "xml_data")
     = chunks r) /\
  (forall w fuel file_path r section_type,
     PDFParser.parse w fuel file_path = Return r ->
     Document.get_chunks_by_section (document_of r) section_type = []).
Proof.
  unfold Document.get_chunks_by_section, document_of.
  cbn [Document.chunks].
  split; [|split].
  - intros w fuel file_path r H.
    destruct (csv_parse_shape _ _ _ H) as [[-> _]|(text & -> & _)];
      reflexivity.
  - intros w fuel file_path r H.
    destruct (xml_parse_shape _ _ _ H) as [Hx|Hx]; [left|right];
      destruct Hx as [[-> _]|(text & -> & _)]; reflexivity.
  - intros w fuel file_path r section_type H.
    destruct (pdf_parse_shape _ _ _ H) as [[-> _]|(text & -> & _)];
      reflexivity.
Qed.

Lemma chunks_by_section_witness :
  Document.get_chunks_by_section (document_of table_pdf_result)
    (txt "balance_sheet") = [].
Proof.
  apply (proj2 (proj2 (chunks_by_section ascii_unicode))
           table_pdf_world 0%nat (txt "tables.pdf") table_pdf_result).
  vm_compute. reflexivity.
Defined.

(** ** The structure of a document *)

Section Structure.
Context {U : Unicode}.
Import PDFAnalysis.

Lemma flag_record_section k structure entry :
  flag k (record_section structure entry) = true <->
  flag k structure = true \/ kind entry = k.
Proof.
  unfold flag, record_section.
  destruct k, (kind entry); cbn; split; intros H; auto;
    destruct H as [H|H]; auto; discriminate.
Qed.

Lemma has_kind_app k l1 l2 :
  has_kind k (l1 ++ l2) <-> has_kind k l1 \/ has_kind k l2.
Proof.
  unfold has_kind. split.
  - intros (e & Hin & Hk). apply in_app_or in Hin.
    destruct Hin; [left|right]; eauto.
  - intros [(e & Hin & Hk)|(e & Hin & Hk)]; exists e;
      (split; [apply in_or_app; auto|exact Hk]).
Qed.

Lemma has_kind_nil k : ~ has_kind k [].
Proof. intros (e & [] & _). Qed.

Lemma fold_sections {A} (f : DocumentStructure -> A -> DocumentStructure)
      (g : A -> list section_entry) :
  (forall structure a,
     sections (f structure a) = sections structure ++ g a /\
     forall k, flag k (f structure a) = true <->
               flag k structure = true \/ has_kind k (g a)) ->
  forall l structure,
    sections (fold_left f l structure)
    = sections structure ++ flat_map g l /\
    forall k, flag k (fold_left f l structure) = true <->
              flag k structure = true \/ has_kind k (flat_map g l).
Proof.
  intros Hstep. induction l as [|a l IH]; intros structure.
  - cbn. rewrite app_nil_r. split; [reflexivity|].
    intros k. split; [auto|]. intros [H|H]; [exact H|].
    now apply has_kind_nil in H.
  - cbn [fold_left flat_map].
    destruct (IH (f structure a)) as [IHs IHf].
    destruct (Hstep structure a) as [Hs Hf].
    rewrite IHs, Hs, <- app_assoc. split; [reflexivity|].
    intros k. rewrite IHf, Hf, has_kind_app. tauto.
Qed.

Lemma scan_line_sections text il structure :
  sections (scan_line text structure il)
  = sections structure ++ line_sections text il /\
  forall k, flag k (scan_line text structure il) = true <->
            flag k structure = true \/ has_kind k (line_sections text il).
Proof.
  unfold scan_line, line_sections. cbv zeta.
  apply fold_sections. clear structure. intros structure sp.
  destruct (existsb _ (snd sp)).
  - cbn [sections record_section]. split; [reflexivity|].
    intros k. rewrite flag_record_section. cbn [kind].
    split.
    + intros [H|H]; auto. right. eexists. split; [now left|exact H].
    + intros [H|(e & [<-|[]] & H)]; auto.
  - rewrite app_nil_r. split; [reflexivity|].
    intros k. split; [auto|]. intros [H|H]; [exact H|].
    now apply has_kind_nil in H.
Qed.

Lemma scan_lines_sections text lines structure :
  sections (fold_left (scan_line text) lines structure)
  = sections structure ++ flat_map (line_sections text) lines /\
  forall k, flag k (fold_left (scan_line text) lines structure) = true <->
            flag k structure = true \/
            has_kind k (flat_map (line_sections text) lines).
Proof.
  apply fold_sections. intros st il. apply scan_line_sections.
Qed.

Lemma analyze_sections text :
  sections (_analyze_document_structure text)
  = flat_map (line_sections text) (enumerate (split_char 10 text)) /\
  forall k, flag k (_analyze_document_structure text) = true <->
            has_kind k (sections (_analyze_document_structure text)).
Proof.
  unfold _analyze_document_structure.
  match goal with
  | |- context [fold_left _ ?ls ?st] =>
      destruct (scan_lines_sections text ls st) as [Hs Hf]
  end.
  cbn [sections app] in Hs. split; [exact Hs|].
  intros k. rewrite Hf, Hs. cbn [flag has_balance_sheet has_income_statement
                                  has_cash_flow].
  split; [intros [H|H]; [destruct k; discriminate|exact H]|auto].
Qed.

Lemma In_enumerate_from {A} (xs : list A) (i j : Z) (x : A) :
  In (j, x) (enumerate_from i xs) ->
  i <= j /\ nth_error xs (Z.to_nat (j - i)) = Some x.
Proof.
  revert i. induction xs as [|y xs IH]; intros i; cbn; [contradiction|].
  intros [[= <- <-]|H].
  - rewrite Z.sub_diag. split; [lia|reflexivity].
  - apply IH in H. destruct H as [Hle Hn]. split; [lia|].
    replace (Z.to_nat (j - i)) with (S (Z.to_nat (j - (i + 1)))) by lia.
    exact Hn.
Qed.

Lemma In_line_sections text il e :
  In e (line_sections text il) ->
  title e = strip (snd il) /\ line_number e = fst il /\
  start_position e = find text (snd il) /\
  exists patterns,
    In (kind e, patterns) section_patterns /\
    existsb (fun pattern => search pattern (strip (lower (snd il))))
            patterns = true.
Proof.
  unfold line_sections. intros H.
  apply in_flat_map in H. destruct H as ([k patterns] & Hsp & H).
  cbn [fst snd] in H.
  destruct (existsb _ patterns) eqn:E; [|contradiction].
  destruct H as [<-|[]]. cbn [title line_number start_position kind].
  split; [reflexivity|]. split; [reflexivity|]. split; [reflexivity|].
  exists patterns. split; [exact Hsp|exact E].
Qed.

Lemma startswith_refl (s : str) : startswith s s = true.
Proof.
  induction s as [|c s IH]; [reflexivity|]. cbn. now rewrite N.eqb_refl.
Qed.

Lemma find_self (s : str) : find s s = 0.
Proof.
  unfold find. destruct s as [|c s]; [reflexivity|].
  cbn [find_from]. now rewrite startswith_refl.
Qed.

Lemma lstrip_id (s : str) :
  (forall c, hd_error s = Some c -> isspace c = false) -> lstrip s = s.
Proof.
  destruct s as [|c s]; [reflexivity|]. intros H. cbn.
  now rewrite (H c eq_refl).
Qed.

Lemma strip_strip (s : str) : strip (strip s) = strip s.
Proof.
  unfold strip at 1. rewrite lstrip_id.
  - unfold rstrip. rewrite lstrip_id; [apply rev_involutive|].
    intros c H. eapply strip_ends. right. exact H.
  - intros c H. eapply strip_ends. left. exact H.
Qed.

End Structure.

(** The flags of [_analyze_document_structure] agree with its sections: a
    flag is set exactly when a section of its type is listed. Every
    section stands for a line of the text in which a pattern of its type
    is found once the line is put in lower case and stripped; it carries
    the number of the line, the stripped line as its title, and as its
    start position the place where the text of the line first occurs in
    the document. *)
Theorem document_structure_sections (U : Unicode) (text : str) :
  let structure := PDFAnalysis._analyze_document_structure text in
  (forall k, flag k structure = true <->
             has_kind k (PDFAnalysis.sections structure)) /\
  (forall e, In e (PDFAnalysis.sections structure) ->
     exists line patterns,
       0 <= PDFAnalysis.line_number e /\
       nth_error (split_char 10 text)
                 (Z.to_nat (PDFAnalysis.line_number e)) = Some line /\
       PDFAnalysis.title e = strip line /\
       PDFAnalysis.start_position e = find text line /\
       In (PDFAnalysis.kind e, patterns) PDFAnalysis.section_patterns /\
       existsb (fun pattern => search pattern (strip (lower line)))
               patterns = true).
Proof.
  cbv zeta. destruct (analyze_sections text) as [Hs Hf].
  split; [exact Hf|].
  intros e He. rewrite Hs in He.
  apply in_flat_map in He. destruct He as ([i line] & Hil & He).
  apply In_line_sections in He. cbn [fst snd] in He.
  destruct He as (Ht & Hn & Hp & patterns & Hsp & Hm).
  unfold enumerate in Hil. apply In_enumerate_from in Hil.
  destruct Hil as [Hi Hnth]. rewrite Z.sub_0_r in Hnth.
  exists line, patterns. rewrite Hn. auto 10.
Qed.

(** The structure [parse] computes for a PDF is that of the cleaned
    text, which is one line: every section listed has line number 0 and
    start position 0, and its title is the whole cleaned text; there are
    at most three sections, one for each type. *)
Theorem document_structure_of_cleaned_text (U : Unicode) (text : str) :
  let cleaned_text := _clean_text text in
  let structure := PDFAnalysis._analyze_document_structure cleaned_text in
  Forall (fun e => PDFAnalysis.line_number e = 0 /\
                   PDFAnalysis.start_position e = 0 /\
                   PDFAnalysis.title e = cleaned_text)
         (PDFAnalysis.sections structure) /\
  NoDup (map PDFAnalysis.kind (PDFAnalysis.sections structure)) /\
  (length (PDFAnalysis.sections structure) <= 3)%nat.
Proof.
  cbv zeta. destruct (analyze_sections (_clean_text text)) as [Hs _].
  rewrite Hs, clean_text_one_line. unfold enumerate.
  cbn [enumerate_from flat_map]. rewrite app_nil_r.
  unfold line_sections. cbn [fst snd].
  assert (Ht : strip (_clean_text text) = _clean_text text)
    by apply strip_strip.
  rewrite Ht, find_self.
  unfold PDFAnalysis.section_patterns. cbn [flat_map fst snd].
  repeat match goal with
         | |- context [existsb ?f ?l] => destruct (existsb f l)
         end;
    cbn; (split; [repeat constructor|split; [|lia]]);
    repeat constructor; cbn; intuition discriminate.
Qed.

Example heading_is_the_whole_text :
  map (fun e => (PDFAnalysis.line_number e, PDFAnalysis.title e))
      (PDFAnalysis.sections
         (@PDFAnalysis._analyze_document_structure ascii_unicode
            (_clean_text heading_pdf_text)))
  = [(0, _clean_text heading_pdf_text)] /\
  map (fun e => (PDFAnalysis.line_number e, PDFAnalysis.title e))
      (PDFAnalysis.sections
         (@PDFAnalysis._analyze_document_structure ascii_unicode
            heading_pdf_text))
  = [(0, txt "Consolidated Balance Sheet")].
Proof. split; vm_compute; reflexivity. Qed.

(** ** Financial tables of a PDF *)

Lemma In_join (sep : str) (parts : list str) (c : char) :
  In c (join sep parts) ->
  In c sep \/ exists s, In s parts /\ In c s.
Proof.
  induction parts as [|p ps IH]; [contradiction|].
  destruct ps as [|q ps].
  - cbn. intros H. right. exists p. auto.
  - change (join sep (p :: q :: ps)) with (p ++ sep ++ join sep (q :: ps)).
    intros H. apply in_app_or in H. destruct H as [H|H].
    + right. exists p. split; [now left|exact H].
    + apply in_app_or in H. destruct H as [H|H]; [now left|].
      destruct (IH H) as [Hs|(s & Hs & Hc)]; [now left|].
      right. exists s. split; [now right|exact Hc].
Qed.

Lemma In_part_join (sep : str) (parts : list str) (s : str) (c : char) :
  In s parts -> In c s -> In c (join sep parts).
Proof.
  induction parts as [|p ps IH]; [contradiction|].
  intros Hs Hc. destruct ps as [|q ps].
  - destruct Hs as [->|[]]. exact Hc.
  - change (join sep (p :: q :: ps)) with (p ++ sep ++ join sep (q :: ps)).
    destruct Hs as [->|Hs].
    + apply in_or_app. now left.
    + apply in_or_app. right. apply in_or_app. right. now apply IH.
Qed.

Section FinancialTable.
Context {U : Unicode}.
Import PDFAnalysis.

Lemma row_text_digit (row : list (option str)) :
  (exists c, In c (row_text_of row) /\ is_digit09 c = true) <->
  row_has_digit row.
Proof.
  unfold row_text_of, row_has_digit. split.
  - intros (c & Hc & Hd). apply In_join in Hc.
    destruct Hc as [[<-|[]]|(s & Hs & Hc)]; [discriminate|].
    apply in_map_iff in Hs. destruct Hs as (cell & <- & Hcell).
    apply filter_In in Hcell. destruct Hcell as [Hin Ht].
    destruct cell as [t|]; [|discriminate]. exists t, c. auto.
  - intros (s & c & Hs & Hc & Hd). exists c. split; [|exact Hd].
    apply In_part_join with (s := s); [|exact Hc].
    apply in_map_iff. exists (Some s). split; [reflexivity|].
    apply filter_In. split; [exact Hs|].
    destruct s; [contradiction|reflexivity].
Qed.

Lemma figures_of_row (row : list (option str)) :
  match extract_financial_figures (row_text_of row) with
  | [] => false
  | _ :: _ => true
  end = true <-> row_has_digit row.
Proof.
  rewrite <- row_text_digit, <- (figures_digit U).
  destruct (extract_financial_figures (row_text_of row)) as [|f l].
  - split; [discriminate|]. intros H. now contradiction H.
  - split; [discriminate|reflexivity].
Qed.

End FinancialTable.

(** [_is_financial_table] accepts a table exactly when the table has
    header cells and rows and either a header cell that is not empty
    holds one of the financial terms or, among the first five rows, a cell
    holds an ASCII digit: any number in those rows makes the table
    financial. *)
Theorem financial_table_by_header_or_digit (U : Unicode) (table : Table) :
  PDFAnalysis._is_financial_table table = true <->
  headers table <> [] /\ table_rows table <> [] /\
  (has_financial_header table \/
   exists row, In row (firstn 5 (table_rows table)) /\ row_has_digit row).
Proof.
  unfold PDFAnalysis._is_financial_table, has_financial_header.
  destruct (headers table) as [|h hs] eqn:Eh.
  { split; [discriminate|]. intros [H _]. now contradiction H. }
  destruct (table_rows table) as [|r rs] eqn:Er.
  { split; [discriminate|]. intros (_ & H & _). now contradiction H. }
  cbv zeta. rewrite orb_true_iff, !existsb_exists.
  split.
  - intros H. split; [discriminate|]. split; [discriminate|].
    destruct H as [(header & Hin & Ht)|(row & Hin & Hf)].
    + left. apply in_map_iff in Hin. destruct Hin as (cell & <- & Hcell).
      apply filter_In in Hcell. destruct Hcell as [Hin Htr].
      destruct cell as [[|c t]|]; try discriminate.
      exists (c :: t). split; [exact Hin|]. split; [discriminate|exact Ht].
    + right. exists row. split; [exact Hin|].
      now apply figures_of_row.
  - intros (_ & _ & [(t & Hin & Hne & Ht)|(row & Hin & Hd)]).
    + left. exists (lower t). split; [|exact Ht].
      apply in_map_iff. exists (Some t). split; [reflexivity|].
      apply filter_In. split; [exact Hin|].
      destruct t; [now contradiction Hne|reflexivity].
    + right. exists row. split; [exact Hin|]. now apply figures_of_row.
Qed.

Example page_numbers_make_a_table_financial :
  @PDFAnalysis._is_financial_table ascii_unicode
    {| headers := [Some (txt "Chapter"); Some (txt "Page")];
       table_rows := [ [Some (txt "Introduction"); Some (txt "3")] ];
       table_row_count := 1; column_count := 2 |} = true.
Proof. vm_compute. reflexivity. Qed.

(** ** Validated models *)

(** Constructing a [BalanceSheet] checks the total of the assets against
    zero, not against liabilities plus equity: when the equation validator
    runs, [total_liabilities_and_equity] is not yet among the validated
    fields and the default is taken. Construction fails exactly when the
    total assets passed (zero by default) differ from zero by more than
    0.01, whatever liabilities and equity are; when it succeeds the stored
    [total_liabilities_and_equity] is the sum of the liabilities and the
    equity passed. *)
Theorem balance_sheet_equation_compares_with_zero
    (D : Type) (ops : DecimalOps D) (input_data : Pydantic.values D) :
  let total_assets := Pydantic.get_or input_data "total_assets" d_0 in
  (Pydantic.construct BalanceSheet.fields input_data = None <->
   d_gt (d_abs (d_sub total_assets d_0)) d_0_01 = true) /\
  (forall validated,
     Pydantic.construct BalanceSheet.fields input_data = Some validated ->
     Pydantic.get validated "total_assets" = Some total_assets /\
     Pydantic.get validated "total_liabilities_and_equity"
     = Some (d_add (Pydantic.get_or input_data "total_liabilities" d_0)
                   (Pydantic.get_or input_data "total_equity" d_0))).
Proof.
  cbv zeta. unfold Pydantic.construct, BalanceSheet.fields, BalanceSheet.plain.
  cbn [Pydantic.validate_model Pydantic.field_name Pydantic.field_default
       Pydantic.field_validator app].
  unfold Pydantic.get_or.
  destruct (Pydantic.get input_data "total_current_assets") as [a1|];
  destruct (Pydantic.get input_data "total_non_current_assets") as [a2|];
  destruct (Pydantic.get input_data "total_assets") as [a|];
  unfold BalanceSheet.validate_balance_sheet_equation, Pydantic.get_or;
  cbn [Pydantic.get String.eqb Ascii.eqb Bool.eqb];
  match goal with
  | |- context [d_gt ?x ?y] => destruct (d_gt x y) eqn:E
  end;
  cbn [Pydantic.validate_model Pydantic.field_name Pydantic.field_default
       Pydantic.field_validator app];
  destruct (Pydantic.get input_data "total_current_liabilities") as [l1|];
  destruct (Pydantic.get input_data "total_non_current_liabilities") as [l2|];
  destruct (Pydantic.get input_data "total_liabilities") as [l|];
  destruct (Pydantic.get input_data "total_equity") as [e|];
  destruct (Pydantic.get input_data "total_liabilities_and_equity") as [t|];
  unfold BalanceSheet.calculate_total_liabilities_and_equity,
    Pydantic.get_or;
  cbn [Pydantic.get String.eqb Ascii.eqb Bool.eqb];
  (split; [split; [reflexivity || discriminate
                  |intros H; reflexivity || (rewrite H in E; discriminate)
                             || discriminate]
          |intros validated [= <-] || (intros validated H; discriminate H);
           cbn [Pydantic.get String.eqb Ascii.eqb Bool.eqb];
           split; reflexivity]).
Qed.

Lemma balance_sheet_equation_compares_with_zero_witness :
  Pydantic.get unbalanced_sheet "total_assets" = Some 0%Q /\
  Pydantic.get unbalanced_sheet "total_liabilities_and_equity"
  = Some (60 + 40)%Q.
Proof.
  apply (proj2 (balance_sheet_equation_compares_with_zero
                  exact_decimals unbalanced_totals)).
  reflexivity.
Defined.

Example balanced_sheet_is_rejected :
  Pydantic.construct BalanceSheet.fields balanced_totals = None /\
  Pydantic.construct BalanceSheet.fields unbalanced_totals <> None.
Proof. split; [reflexivity|discriminate]. Qed.

(** Constructing a [DuPontAnalysis] never fails: the validator of [roe]
    runs before the three factors are validated, finds none of them in
    [values] and returns the value unchecked. Every field is stored as
    passed, whether or not the return on equity is the product of the
    factors. *)
Theorem dupont_equation_is_never_checked
    (D : Type) (ops : DecimalOps D)
    (input_data : Pydantic.values (option D)) :
  exists validated,
    Pydantic.construct DuPontAnalysis.fields input_data = Some validated /\
    forall name,
      In name [ "roe"; "net_profit_margin"; "asset_turnover";
                "equity_multiplier" ]%string ->
      Pydantic.get validated name
      = Some (DuPontAnalysis.get_value input_data name).
Proof.
  unfold Pydantic.construct, DuPontAnalysis.fields, DuPontAnalysis.plain,
    DuPontAnalysis.get_value.
  cbn [Pydantic.validate_model Pydantic.field_name Pydantic.field_default
       Pydantic.field_validator app].
  destruct (Pydantic.get input_data "roe") as [[roe|]|] eqn:E1;
    unfold DuPontAnalysis.validate_dupont_equation, DuPontAnalysis.get_value;
    cbn [Pydantic.get Pydantic.validate_model Pydantic.field_name
         Pydantic.field_default Pydantic.field_validator app];
    destruct (Pydantic.get input_data "net_profit_margin") as [npm|] eqn:E2;
    destruct (Pydantic.get input_data "asset_turnover") as [at_|] eqn:E3;
    destruct (Pydantic.get input_data "equity_multiplier") as [em|] eqn:E4;
    eexists; (split; [reflexivity|]);
    intros name [<-|[<-|[<-|[<-|[]]]]];
    rewrite ?E1, ?E2, ?E3, ?E4; reflexivity.
Qed.

Example dupont_mismatch_is_accepted :
  Pydantic.construct DuPontAnalysis.fields dupont_input = Some dupont_input.
Proof. reflexivity. Qed.

(** ** The balance sheet of a workbook *)

Section Sheets.
Context {U : Unicode}.
Variable has_financial_numbers : DataFrame -> bool.
Import ExcelSheets.

Lemma sheet_score_bounds (sheet_name : str) (df : DataFrame) :
  0 <= sheet_score has_financial_numbers sheet_name df <= 150.
Proof.
  unfold sheet_score. cbv zeta. cbn [fold_left].
  repeat match goal with
         | |- context [contains ?a ?b] =>
             let x := fresh "b" in
             generalize (contains a b); intro x
         end.
  generalize (any_in (lower sheet_name) [ "bs"; "bsheet"; "position" ]%string).
  generalize (_is_financial_dataframe has_financial_numbers df).
  generalize (df_empty df).
  intros e f a.
  repeat match goal with
         | |- context [if ?c then _ else _] => destruct c; cbn [andb]
         end; lia.
Qed.

(** The key [max] returns: the first one with the highest score. *)
Lemma best_first_top (scores : list (str * Z)) (current : str * Z) :
  exists l1 l2,
    current :: scores = l1 ++ best scores current :: l2 /\
    Forall (fun x => snd x < snd (best scores current)) l1 /\
    Forall (fun x => snd x <= snd (best scores current)) l2.
Proof.
  revert current. induction scores as [|x scores IH]; intros current.
  - exists [], []. cbn. auto.
  - cbn [best]. destruct (snd current <? snd x) eqn:E.
    + apply Z.ltb_lt in E.
      destruct (IH x) as (l1 & l2 & Hs & H1 & H2).
      exists (current :: l1), l2. rewrite Hs. split; [reflexivity|].
      split; [|exact H2]. constructor; [|exact H1].
      assert (Hx : snd x <= snd (best scores x)).
      { assert (Hin : In x (l1 ++ best scores x :: l2))
          by (rewrite <- Hs; now left).
        apply in_app_or in Hin. destruct Hin as [Hin|[Heq|Hin]].
        - eapply Forall_forall in H1; [|exact Hin]. cbn in H1. lia.
        - rewrite Heq. lia.
        - eapply Forall_forall in H2; [|exact Hin]. exact H2. }
      cbn. lia.
    + apply Z.ltb_ge in E.
      destruct (IH current) as (l1 & l2 & Hs & H1 & H2).
      destruct l1 as [|c l1].
      * cbn [app] in Hs. injection Hs as Hc Hr.
        exists [], (x :: l2). rewrite <- Hc, Hr. split; [reflexivity|].
        split; [constructor|]. constructor; [exact E|].
        rewrite Hc. exact H2.
      * cbn [app] in Hs. injection Hs as Hc Hr. subst c.
        exists (current :: x :: l1), l2.
        split; [cbn [app]; do 2 f_equal; exact Hr|]. split; [|exact H2].
        inversion H1 as [|? ? Hc H1']; subst.
        constructor; [exact Hc|]. constructor; [cbn in *; lia|exact H1'].
Qed.

Lemma confidence_of_score (s : Z) :
  0 <= s ->
  (0 <= Qmin_ (inject_Z s / 100) 1)%Q /\
  (Qmin_ (inject_Z s / 100) 1 <= 1)%Q /\
  ((Qmin_ (inject_Z s / 100) 1 == 1)%Q <-> 100 <= s).
Proof.
  intros Hs. unfold Qmin_.
  destruct (Qle_bool (inject_Z s / 100) 1) eqn:E.
  - apply Qle_bool_iff in E. split; [|split; [exact E|]].
    + unfold Qdiv, Qmult, Qinv, inject_Z, Qle. cbn. lia.
    + revert E. unfold Qdiv, Qmult, Qinv, inject_Z, Qle, Qeq. cbn.
      intros E. lia.
  - assert (H : ~ (inject_Z s / 100 <= 1)%Q).
    { intros H. apply Qle_bool_iff in H. rewrite H in E. discriminate. }
    split; [discriminate|]. split; [apply Qle_refl|].
    split; [intros _|reflexivity].
    revert H. unfold Qdiv, Qmult, Qinv, inject_Z, Qle. cbn. lia.
Qed.

End Sheets.

(** For a workbook with at least one sheet, [_identify_balance_sheet]
    names a sheet of the workbook whose score no other sheet exceeds, the
    first such sheet in the order of the workbook. Scores lie between 0
    and 150; the confidence is the score over 100, capped at 1, so it lies
    between 0 and 1 and is 1 from a score of 100 on. *)
Theorem identify_balance_sheet_choice (U : Unicode)
    (has_financial_numbers : DataFrame -> bool)
    (all_sheets : list (str * DataFrame)) :
  all_sheets <> [] ->
  let info :=
    ExcelSheets._identify_balance_sheet has_financial_numbers all_sheets in
  exists earlier sheet later,
    all_sheets = earlier ++ sheet :: later /\
    ExcelSheets.sheet_name info = Some (fst sheet) /\
    first_with_top_score has_financial_numbers earlier sheet later /\
    0 <= ExcelSheets.sheet_score has_financial_numbers
           (fst sheet) (snd sheet) <= 150 /\
    (0 <= ExcelSheets.confidence info)%Q /\
    (ExcelSheets.confidence info <= 1)%Q /\
    ((ExcelSheets.confidence info == 1)%Q <->
     100 <= ExcelSheets.sheet_score has_financial_numbers
              (fst sheet) (snd sheet)).
Proof.
  intros Hne. cbv zeta. unfold ExcelSheets._identify_balance_sheet.
  destruct all_sheets as [|first others]; [now contradiction Hne|].
  cbn [map ExcelSheets.sheet_name ExcelSheets.confidence].
  set (score := fun s : str * DataFrame =>
         (fst s, ExcelSheets.sheet_score has_financial_numbers
                   (fst s) (snd s))).
  change (fst first, ExcelSheets.sheet_score has_financial_numbers
                       (fst first) (snd first)) with (score first).
  destruct (best_first_top (map score others) (score first))
    as (l1 & l2 & Hs & H1 & H2).
  change (score first :: map score others)
    with (map score (first :: others)) in Hs.
  apply map_eq_app in Hs. destruct Hs as (earlier & rest & Ha & He & Hr).
  apply map_eq_cons in Hr. destruct Hr as (sheet & later & Hr & Hb & Hl).
  subst rest l1 l2.
  exists earlier, sheet, later. rewrite <- Hb.
  pose proof (sheet_score_bounds has_financial_numbers
                (fst sheet) (snd sheet)) as Hbound.
  split; [exact Ha|]. split; [reflexivity|].
  split.
  { unfold first_with_top_score. cbv zeta. rewrite <- Hb in H1, H2.
    split.
    - apply Forall_forall. intros s Hin.
      eapply Forall_forall in H1; [|apply in_map; exact Hin]. exact H1.
    - apply Forall_forall. intros s Hin.
      eapply Forall_forall in H2; [|apply in_map; exact Hin]. exact H2. }
  split; [exact Hbound|].
  apply confidence_of_score. cbn. lia.
Qed.

Lemma identify_balance_sheet_choice_witness :
  exists earlier sheet later,
    three_sheets = earlier ++ sheet :: later /\
    ExcelSheets.sheet_name
      (@ExcelSheets._identify_balance_sheet ascii_unicode
         (fun _ => false) three_sheets) = Some (fst sheet) /\
    @first_with_top_score ascii_unicode (fun _ => false)
      earlier sheet later /\
    0 <= @ExcelSheets.sheet_score ascii_unicode (fun _ => false)
           (fst sheet) (snd sheet) <= 150 /\
    (0 <= ExcelSheets.confidence
            (@ExcelSheets._identify_balance_sheet ascii_unicode
               (fun _ => false) three_sheets))%Q /\
    (ExcelSheets.confidence
       (@ExcelSheets._identify_balance_sheet ascii_unicode
          (fun _ => false) three_sheets) <= 1)%Q /\
    ((ExcelSheets.confidence
        (@ExcelSheets._identify_balance_sheet ascii_unicode
           (fun _ => false) three_sheets) == 1)%Q <->
     100 <= @ExcelSheets.sheet_score ascii_unicode (fun _ => false)
              (fst sheet) (snd sheet)).
Proof.
  apply (@identify_balance_sheet_choice ascii_unicode (fun _ => false)
           three_sheets).
  discriminate.
Defined.

Example first_of_two_balance_sheets :
  let info := @ExcelSheets._identify_balance_sheet ascii_unicode
                (fun _ => false) three_sheets in
  ExcelSheets.sheet_name info = Some (txt "Balance Sheet") /\
  ExcelSheets.all_scores info
  = [ (txt "Cover", 0); (txt "Balance Sheet", 60);
      (txt "Balance Sheet (2)", 60) ].
Proof. split; vm_compute; reflexivity. Qed.

(** ** XBRL documents *)

Section Xbrl.
Context {U : Unicode}.
Variables ContextData UnitData EntityInfo : Type.
Variable findall : XMLParser.Element -> str -> answer (list XMLParser.Element).
Variable findall_ns
  : XMLParser.Element -> str -> answer (list XMLParser.Element).
Variable xbrl_contexts
  : XMLParser.Element -> answer (list (str * ContextData)).
Variable xbrl_units : XMLParser.Element -> answer (list (str * UnitData)).
Variable entity_info : XMLParser.Element -> answer EntityInfo.

Hypothesis unmapped : prefix_needs_map findall.

(** The second name tried for the first category carries the prefix
    [us-gaap:] and is looked up without a prefix map. *)
Lemma extract_balance_sheet_facts_raises (root : XMLParser.Element)
      (contexts : list (str * ContextData))
      (units : list (str * UnitData)) :
  exists e,
    XBRL._extract_balance_sheet_facts findall findall_ns root contexts units
    = Raised e.
Proof.
  unfold XBRL._extract_balance_sheet_facts, XBRL.balance_sheet_elements.
  cbn [XBRL.for_categories XBRL.for_element_names].
  destruct (findall root (txt ".//" ++ txt "Assets")) as [plain|e];
    [|exists e; reflexivity].
  cbn [call bind].
  destruct (findall_ns root (txt ".//us-gaap:" ++ txt "Assets"))
    as [prefixed|e]; [|exists e; reflexivity].
  cbn [call bind].
  change (txt ".//" ++ txt "us-gaap:Assets") with (txt ".//us-gaap:Assets").
  rewrite (unmapped root). cbn [call bind]. eauto.
Qed.

Lemma parse_xbrl_raises root :
  exists e,
    XBRL._parse_xbrl findall findall_ns xbrl_contexts xbrl_units
      entity_info root = Raised e.
Proof.
  unfold XBRL._parse_xbrl.
  destruct (xbrl_contexts root) as [contexts|e]; [|exists e; reflexivity].
  destruct (xbrl_units root) as [units|e]; [|exists e; reflexivity].
  destruct (entity_info root) as [info|e]; [|exists e; reflexivity].
  cbn [call bind].
  destruct (extract_balance_sheet_facts_raises root contexts units)
    as (e & ->).
  exists e. reflexivity.
Qed.

End Xbrl.

(** ElementTree takes a path with a prefix only together with a prefix
    map. [_extract_balance_sheet_facts] looks every element name up
    without one, the names with the [us-gaap:] prefix included, so it
    raises on every document, at the second name at the latest. Hence
    [parse] returns a failure for every document it takes for XBRL. *)
Theorem xbrl_documents_never_parse (U : Unicode)
    (ContextData UnitData EntityInfo : Type)
    (findall findall_ns
       : XMLParser.Element -> str -> answer (list XMLParser.Element))
    (xbrl_contexts : XMLParser.Element -> answer (list (str * ContextData)))
    (xbrl_units : XMLParser.Element -> answer (list (str * UnitData)))
    (entity_info : XMLParser.Element -> answer EntityInfo) :
  prefix_needs_map findall ->
  (forall root (contexts : list (str * ContextData))
          (units : list (str * UnitData)),
     exists e,
       XBRL._extract_balance_sheet_facts findall findall_ns root
         contexts units = Raised e) /\
  (forall w fuel file_path root,
     extracts_with w findall findall_ns xbrl_contexts xbrl_units
       entity_info ->
     XMLParser.et_parse w file_path = Ok root ->
     XMLParser._is_xbrl_document root = true ->
     exists e,
       XMLParser.parse w fuel file_path
       = Return (failed (txt "XML/XBRL parsing failed: " ++ e))).
Proof.
  intros Hp. split.
  - intros root contexts units.
    now apply extract_balance_sheet_facts_raises.
  - intros w fuel file_path root Hw Hr Hx.
    assert (Hb : exists e, XMLParser.parse_body w fuel file_path = Raised e).
    { unfold XMLParser.parse_body, at_line.
      destruct (XMLParser.fault w 73) as [e|]; [exists e; reflexivity|].
      rewrite Hr. cbn [call bind].
      destruct (XMLParser.fault w 77) as [e|]; [exists e; reflexivity|].
      cbn [bind]. rewrite Hx.
      destruct (XMLParser.fault w 80) as [e|]; [exists e; reflexivity|].
      rewrite (Hw root).
      destruct (@parse_xbrl_raises U ContextData UnitData EntityInfo
                  findall findall_ns xbrl_contexts xbrl_units entity_info
                  Hp root) as (e & ->).
      exists e. reflexivity. }
    destruct Hb as (e & Hb). exists e.
    unfold XMLParser.parse. rewrite Hb. reflexivity.
Qed.

Lemma xbrl_documents_never_parse_witness :
  exists e,
    @XMLParser.parse ascii_unicode xbrl_world 0 (txt "filing.xbrl")
    = Return (failed (txt "XML/XBRL parsing failed: " ++ e)).
Proof.
  refine (proj2 (@xbrl_documents_never_parse ascii_unicode unit unit unit
                   no_elements no_elements_ns
                   (fun _ => Ok []) (fun _ => Ok []) (fun _ => Ok tt) _)
            xbrl_world 0%nat (txt "filing.xbrl")
            (XMLParser.Node (txt "xbrl") [] None []) _ _ _).
  - intros root. reflexivity.
  - intros root. vm_compute. reflexivity.
  - reflexivity.
  - vm_compute. reflexivity.
Defined.

Example xbrl_failure_message :
  @XMLParser.parse ascii_unicode xbrl_world 0 (txt "filing.xbrl")
  = Return (failed (txt "XML/XBRL parsing failed: prefix 'us-gaap' not found in prefix map")).
Proof. vm_compute. reflexivity. Qed.

(** ** The totals of a balance sheet *)

Lemma sum_exact (xs : list Q) (a : Q) :
  (fold_left Qplus xs a == a + Qsum xs)%Q.
Proof.
  unfold Qsum. revert a.
  induction xs as [|x xs IH]; intros a; cbn [fold_left fold_right].
  - ring.
  - rewrite IH. ring.
Qed.

Lemma Totals_sum_exact (xs : list Q) : (Totals.sum xs == Qsum xs)%Q.
Proof.
  unfold Totals.sum. cbn [d_add d_0 exact_decimals].
  rewrite sum_exact. ring.
Qed.

Lemma Qsum_partition {A} (f : A -> Q) (p q : A -> bool) (l : list A) :
  (forall x, q x = negb (p x)) ->
  (Qsum (map f (filter p l)) + Qsum (map f (filter q l))
   == Qsum (map f l))%Q.
Proof.
  intros Hpq. unfold Qsum.
  induction l as [|x l IH]; cbn [filter map fold_right]; [ring|].
  rewrite Hpq. destruct (p x); cbn [negb map fold_right];
    rewrite <- IH; ring.
Qed.

Lemma Qsum_nonneg {A} (f : A -> Q) (l : list A) :
  Forall (fun x => (0 <= f x)%Q) l -> (0 <= Qsum (map f l))%Q.
Proof.
  unfold Qsum.
  induction 1 as [|x l Hx _ IH]; cbn [map fold_right]; [apply Qle_refl|].
  change 0%Q with (0 + 0)%Q at 1.
  apply Qplus_le_compat; assumption.
Qed.

(** With exact decimal arithmetic, [calculate_totals] leaves the items as
    they are and stores as total assets the sum of the amounts of all the
    assets, as total liabilities that of all the liabilities and as total
    equity that of all the equity items: every item is of one of the two
    types and is counted once. The total of liabilities and equity is the
    sum of the two totals, and totals of amounts that are not negative
    are not negative. *)
Theorem calculate_totals_counts_every_item (self : @Totals.BalanceSheet Q) :
  let sheet := Totals.calculate_totals self in
  Totals.assets sheet = Totals.assets self /\
  Totals.liabilities sheet = Totals.liabilities self /\
  Totals.equity_items sheet = Totals.equity_items self /\
  (Totals.total_assets sheet
   == Qsum (map Totals.asset_amount (Totals.assets self)))%Q /\
  (Totals.total_liabilities sheet
   == Qsum (map Totals.liability_amount (Totals.liabilities self)))%Q /\
  (Totals.total_equity sheet
   == Qsum (map Totals.equity_amount (Totals.equity_items self)))%Q /\
  (Totals.total_liabilities_and_equity sheet
   == Totals.total_liabilities sheet + Totals.total_equity sheet)%Q /\
  (Totals.get_working_capital sheet
   == Totals.total_current_assets sheet
      - Totals.total_current_liabilities sheet)%Q /\
  (Forall (fun asset => (0 <= Totals.asset_amount asset)%Q)
          (Totals.assets self) ->
   (0 <= Totals.total_assets sheet)%Q).
Proof.
  cbv zeta. unfold Totals.calculate_totals.
  cbn [Totals.assets Totals.liabilities Totals.equity_items
       Totals.total_assets Totals.total_liabilities Totals.total_equity
       Totals.total_liabilities_and_equity].
  assert (Ha : (d_add
                  (Totals.sum (map Totals.asset_amount
                     (filter (fun asset =>
                        AssetType.eqb (Totals.asset_type asset)
                          AssetType.CURRENT) (Totals.assets self))))
                  (Totals.sum (map Totals.asset_amount
                     (filter (fun asset =>
                        AssetType.eqb (Totals.asset_type asset)
                          AssetType.NON_CURRENT) (Totals.assets self))))
                == Qsum (map Totals.asset_amount (Totals.assets self)))%Q).
  { cbn [d_add exact_decimals]. rewrite !Totals_sum_exact.
    apply Qsum_partition. intros x. now destruct (Totals.asset_type x). }
  split; [reflexivity|]. split; [reflexivity|]. split; [reflexivity|].
  split; [exact Ha|].
  split.
  { cbn [d_add exact_decimals]. rewrite !Totals_sum_exact.
    apply Qsum_partition. intros x. now destruct (Totals.liability_type x). }
  split; [apply Totals_sum_exact|].
  split; [reflexivity|].
  split; [reflexivity|].
  intros Hpos. rewrite Ha. now apply Qsum_nonneg.
Qed.

Example totals_need_not_balance :
  let sheet := Totals.calculate_totals open_sheet in
  (Totals.total_assets sheet == 150)%Q /\
  (Totals.total_liabilities_and_equity sheet == 30)%Q /\
  (Totals.get_working_capital sheet == 70)%Q.
Proof. repeat split. Qed.

(** ** The scale of the figures *)

Lemma search_somewhere (r : regex) (s : str) :
  search r s = true <-> exists a t, s = a ++ t /\ ends r t <> [].
Proof.
  induction s as [|c s IH]; cbn [search].
  - destruct (ends r []) as [|x l] eqn:E.
    + split; [discriminate|]. intros (a & t & Ha & Ht).
      symmetry in Ha. apply app_eq_nil in Ha. destruct Ha as [_ ->].
      now contradiction Ht.
    + split; [intros _|reflexivity]. exists [], []. rewrite E.
      split; [reflexivity|discriminate].
  - destruct (ends r (c :: s)) as [|x l] eqn:E.
    + rewrite IH. split.
      * intros (a & t & -> & Ht). exists (c :: a), t. auto.
      * intros (a & t & Ha & Ht). destruct a as [|d a].
        -- cbn in Ha. subst t. now contradiction Ht.
        -- injection Ha as _ ->. eauto.
    + split; [intros _|reflexivity]. exists [], (c :: s). rewrite E.
      split; [reflexivity|discriminate].
Qed.

Section ScaleWords.
Variable ignorecase : char -> char -> bool.
Import Scale.

Lemma ends_IStr (w t t2 : str) :
  In t2 (ends (IStr ignorecase w) t) <->
  exists b, t = b ++ t2 /\
            Forall2 (fun p c => ignorecase p c = true) w b.
Proof.
  revert t. induction w as [|p w IH]; intros t; cbn [IStr ends].
  - split.
    + intros [<-|[]]. exists []. split; [reflexivity|constructor].
    + intros (b & -> & Hb). inversion Hb. now left.
  - split.
    + intros H. apply in_flat_map in H. destruct H as (x & Hx & H).
      destruct t as [|c t']; [contradiction|].
      destruct (ignorecase p c) eqn:Ec; [|contradiction].
      destruct Hx as [<-|[]]. apply IH in H.
      destruct H as (b & -> & Hb). exists (c :: b).
      split; [reflexivity|]. constructor; assumption.
    + intros (b & -> & Hb). inversion Hb as [|? c ? b' Hc Hb']; subst.
      apply in_flat_map. exists (b' ++ t2). cbn [app]. rewrite Hc.
      split; [now left|]. apply IH. eauto.
Qed.

Lemma flat_map_not_nil {A B} (f : A -> list B) (l : list A) :
  flat_map f l <> [] <-> exists x, In x l /\ f x <> [].
Proof.
  induction l as [|a l IH]; cbn.
  - split; [intros H; now contradiction H|intros (x & [] & _)].
  - split.
    + intros H. destruct (f a) as [|b bs] eqn:E.
      * cbn in H. apply IH in H. destruct H as (x & Hx & Hf). eauto.
      * exists a. rewrite E. split; [now left|discriminate].
    + intros (x & [<-|Hx] & Hf) H; apply app_eq_nil in H; destruct H as [H1 H2].
      * contradiction.
      * apply IH in H2; [exact H2|eauto].
Qed.

(** A scale pattern is found exactly in the texts that hold its word:
    the optional [in] before it and the optional [s] after it decide
    nothing. *)
Lemma search_scale_pattern (word : string) (text : str) :
  search (scale_pattern ignorecase word) text = true <->
  mentions ignorecase word text.
Proof.
  rewrite search_somewhere. unfold mentions, scale_pattern. split.
  - intros (a & t & -> & Ht). cbn [ends] in Ht.
    apply flat_map_not_nil in Ht. destruct Ht as (x & Hx & Ht).
    apply flat_map_not_nil in Ht. destruct Ht as (y & Hy & _).
    apply ends_IStr in Hy. destruct Hy as (b & -> & Hb).
    assert (Hsuf : exists pre, t = pre ++ b ++ y).
    { apply in_app_or in Hx. destruct Hx as [Hx|[<-|[]]].
      - destruct (@ends_consumed (fun _ => True)
                    (Cat (IStr ignorecase (txt "in")) ws))
          with (s := t) (s2 := b ++ y) as (pre & -> & _);
          [cbn; auto|exact Hx|]. eauto.
      - exists []. reflexivity. }
    destruct Hsuf as (pre & ->).
    exists (a ++ pre), b, y. split; [now rewrite <- app_assoc|exact Hb].
  - intros (before & found & after & -> & Hf).
    exists before, (found ++ after). split; [reflexivity|].
    cbn [ends]. apply flat_map_not_nil. exists (found ++ after).
    split; [apply in_or_app; right; now left|].
    apply flat_map_not_nil. exists after. split.
    + apply ends_IStr. eauto.
    + intros H. apply app_eq_nil in H. destruct H. discriminate.
Qed.

End ScaleWords.

(** [detect_scale] goes by the words alone and in a fixed order: a text
    that holds [thousand] in any letter case is in thousands, wherever
    the word stands and whatever follows or precedes it; otherwise one
    that holds [million] is in millions; otherwise one that holds
    [billion] is in billions; any other text is in units. *)
Theorem detect_scale_by_word (ignorecase : char -> char -> bool)
    (text : str) :
  (mentions ignorecase "thousand" text ->
   Scale.detect_scale ignorecase text = txt "thousands") /\
  (~ mentions ignorecase "thousand" text ->
   mentions ignorecase "million" text ->
   Scale.detect_scale ignorecase text = txt "millions") /\
  (~ mentions ignorecase "thousand" text ->
   ~ mentions ignorecase "million" text ->
   mentions ignorecase "billion" text ->
   Scale.detect_scale ignorecase text = txt "billions") /\
  (~ mentions ignorecase "thousand" text ->
   ~ mentions ignorecase "million" text ->
   ~ mentions ignorecase "billion" text ->
   Scale.detect_scale ignorecase text = txt "units").
Proof.
  unfold Scale.detect_scale, Scale.scale_patterns.
  cbn [Scale.first_scale].
  pose proof (search_scale_pattern ignorecase "thousand" text) as Ht.
  pose proof (search_scale_pattern ignorecase "million" text) as Hm.
  pose proof (search_scale_pattern ignorecase "billion" text) as Hb.
  destruct (search (Scale.scale_pattern ignorecase "thousand") text).
  { split; [reflexivity|].
    repeat split; intros H; contradiction H; now apply Ht. }
  split; [intros H; apply Ht in H; discriminate|].
  destruct (search (Scale.scale_pattern ignorecase "million") text).
  { split; [reflexivity|].
    split; intros _ H; contradiction H; now apply Hm. }
  split; [intros _ H; apply Hm in H; discriminate|].
  destruct (search (Scale.scale_pattern ignorecase "billion") text).
  { split; [reflexivity|]. intros _ _ H. contradiction H. now apply Hb. }
  split; [intros _ _ H; apply Hb in H; discriminate|reflexivity].
Qed.

Lemma detect_scale_by_word_witness :
  Scale.detect_scale ascii_ignorecase
    (txt "In millions, except thousands of shares") = txt "thousands".
Proof.
  apply (proj1 (detect_scale_by_word ascii_ignorecase
                  (txt "In millions, except thousands of shares"))).
  exists (txt "In millions, except "), (txt "thousand"), (txt "s of shares").
  split; [reflexivity|]. repeat constructor.
Defined.
